(** * BA document generator: status ledger, pipeline orchestration and
      content validation

    A shallow embedding of the processing core of the repository
    (src/models/database.py, src/agents/*.py, src/services/*.py,
    src/main.py) together with the properties of its specification.

    Conventions of the embedding:
    - a Python [str] is a [string]; a character is a code point below 256,
      and the whitespace and lower-casing tables are Python's for that range;
    - a Python [dict] used as a record with optional keys is a
      [gmap string value]; a JSON database file is a [gmap] from keys to
      entries;
    - Python floats in the validator are exact rationals ([Q]);
    - [async] functions run to completion one after the other: they are
      functions from the world to a result, a new world and the list of
      observable events they emitted;
    - external capabilities (file system, ffmpeg, Whisper, the LLM provider,
      the PDF renderer, uuid) are fields of an environment record [env]. *)

From Stdlib Require Import ZArith QArith Qminmax Ascii String List Lia Bool Lqa.
From stdpp Require Import gmap strings list.

Local Open Scope Z_scope.

(** ** Python string primitives *)

Module PyStr.

(** [str.isspace] on code points 0..255: TAB..CR, FS..US, SPACE, NEL, NBSP. *)
Definition is_space (c : ascii) : bool :=
  let n := N_of_ascii c in
  ((9 <=? n) && (n <=? 13) || (28 <=? n) && (n <=? 32)
   || (n =? 133) || (n =? 160))%N.

(** [str.lower] on code points 0..255: A-Z and the Latin-1 capitals
    (0xC0..0xDE except the multiplication sign 0xD7) move up by 32. *)
Definition lower_char (c : ascii) : ascii :=
  let n := N_of_ascii c in
  if ((65 <=? n) && (n <=? 90)
      || (192 <=? n) && (n <=? 222) && negb (n =? 215))%N
  then ascii_of_N (n + 32) else c.

Fixpoint lstrip_chars (l : list ascii) : list ascii :=
  match l with
  | [] => []
  | c :: l' => if is_space c then lstrip_chars l' else l
  end.

Definition rstrip_chars (l : list ascii) : list ascii :=
  rev (lstrip_chars (rev l)).

Definition strip_chars (l : list ascii) : list ascii :=
  rstrip_chars (lstrip_chars l).

(** [s.strip()] *)
Definition strip (s : string) : string :=
  string_of_list_ascii (strip_chars (list_ascii_of_string s)).

(** [len(s)] *)
Definition len (s : string) : Z := Z.of_nat (String.length s).

(** [s.lower()] *)
Definition lower (s : string) : string :=
  string_of_list_ascii (map lower_char (list_ascii_of_string s)).

(** [s.split()]: maximal runs of non-whitespace characters.  [cur] is the
    word being read, most recent character first. *)
Fixpoint split_chars (cur : list ascii) (l : list ascii) : list (list ascii) :=
  match l with
  | [] => match cur with [] => [] | _ => [rev cur] end
  | c :: l' =>
      if is_space c
      then match cur with
           | [] => split_chars [] l'
           | _ => rev cur :: split_chars [] l'
           end
      else split_chars (c :: cur) l'
  end.

Definition split (s : string) : list string :=
  map string_of_list_ascii (split_chars [] (list_ascii_of_string s)).

Fixpoint starts_with (p l : list ascii) : bool :=
  match p, l with
  | [], _ => true
  | _ :: _, [] => false
  | a :: p', b :: l' => if Ascii.eqb a b then starts_with p' l' else false
  end.

Fixpoint contains_chars (needle hay : list ascii) : bool :=
  starts_with needle hay
  || match hay with
     | [] => false
     | _ :: hay' => contains_chars needle hay'
     end.

(** [needle in hay] *)
Definition contains (needle hay : string) : bool :=
  contains_chars (list_ascii_of_string needle) (list_ascii_of_string hay).

(** [not s] for a string. *)
Definition is_empty (s : string) : bool :=
  match s with EmptyString => true | _ => false end.

Definition count_nonspace (l : list ascii) : nat :=
  length (List.filter (fun c => negb (is_space c)) l).

End PyStr.

(** ** agents/documentation_agent.py: DocumentationValidator *)

Inductive DocumentationLevel := SIMPLE | INTERMEDIATE | ADVANCED.

(** [level.value] *)
Definition level_value (l : DocumentationLevel) : string :=
  match l with
  | SIMPLE => "Simple"
  | INTERMEDIATE => "Intermediate"
  | ADVANCED => "Advanced"
  end.

(** [DocumentationLevel(doc_level)]: lookup by value; [None] stands for the
    [ValueError] Python raises on any other string. *)
Definition DocumentationLevel_of_value (doc_level : string) : option DocumentationLevel :=
  if String.eqb doc_level "Simple" then Some SIMPLE
  else if String.eqb doc_level "Intermediate" then Some INTERMEDIATE
  else if String.eqb doc_level "Advanced" then Some ADVANCED
  else None.

Module DocumentationValidator.

Definition base_sections : list string :=
  ["Executive Summary"; "Business Objectives"; "Requirements"; "Implementation"].

Definition _get_required_sections (level : DocumentationLevel) : list string :=
  match level with
  | INTERMEDIATE =>
      base_sections ++
      ["Current State Analysis"; "Solution Architecture"; "Risk Assessment"]
  | ADVANCED =>
      base_sections ++
      ["Strategic Analysis"; "Investment Analysis"; "Governance Framework";
       "Risk Management"]
  | SIMPLE => base_sections
  end.

Definition expected_ranges (level : DocumentationLevel) : Z * Z :=
  match level with
  | SIMPLE => (1500, 3000)
  | INTERMEDIATE => (4000, 8000)
  | ADVANCED => (6000, 12000)
  end.

Definition section_present (content section : string) : bool :=
  PyStr.contains (PyStr.lower section) (PyStr.lower content).

(** The [for section in required_sections] loop with its two accumulators. *)
Fixpoint scan_sections (required : list string) (content : string)
         (found_sections : Z) (issues : list string) : Z * list string :=
  match required with
  | [] => (found_sections, issues)
  | section :: rest =>
      if section_present content section
      then scan_sections rest content (found_sections + 1) issues
      else scan_sections rest content found_sections
             (issues ++ ["Missing section: " +:+ section])
  end.

Definition word_count (content : string) : Z :=
  Z.of_nat (length (PyStr.split content)).

Definition word_score_of (word_count min_words max_words : Z) : Q :=
  if (min_words <=? word_count) && (word_count <=? max_words)
  then 100%Q
  else Qmax 0 (100 - inject_Z (Z.abs (word_count - min_words)) / inject_Z min_words * 50)%Q.

Definition too_short (content : string) : bool :=
  PyStr.is_empty content || (PyStr.len (PyStr.strip content) <? 100).

(** [validate_content(content, level) -> (is_valid, quality_score, issues)] *)
Definition validate_content (content : string) (level : DocumentationLevel)
  : bool * Q * list string :=
  if too_short content
  then (false, 0%Q, ["Content too short or empty"])
  else
    let required_sections := _get_required_sections level in
    let '(found_sections, issues) := scan_sections required_sections content 0 [] in
    let section_score :=
      (inject_Z found_sections / inject_Z (Z.of_nat (length required_sections)) * 100)%Q in
    let '(min_words, max_words) := expected_ranges level in
    let word_score := word_score_of (word_count content) min_words max_words in
    let quality_score := ((section_score + word_score) / 2)%Q in
    let is_valid := Qle_bool 70 quality_score in
    (is_valid, quality_score, issues).

Definition is_valid_of (r : bool * Q * list string) : bool := fst (fst r).
Definition quality_score_of (r : bool * Q * list string) : Q := snd (fst r).
Definition issues_of (r : bool * Q * list string) : list string := snd r.

(** *** The scoring rule in the words of the specification *)

Definition sections_found (content : string) (level : DocumentationLevel) : list string :=
  List.filter (fun s => section_present content s) (_get_required_sections level).

Definition sections_missing (content : string) (level : DocumentationLevel) : list string :=
  List.filter (fun s => negb (section_present content s)) (_get_required_sections level).

Definition spec_section_score (content : string) (level : DocumentationLevel) : Q :=
  (100 * (inject_Z (Z.of_nat (length (sections_found content level)))
          / inject_Z (Z.of_nat (length (_get_required_sections level)))))%Q.

Definition spec_word_score (content : string) (level : DocumentationLevel) : Q :=
  let wc := word_count content in
  let lo := fst (expected_ranges level) in
  let hi := snd (expected_ranges level) in
  if (lo <=? wc) && (wc <=? hi) then 100%Q
  else Qmax 0 (100 - inject_Z (Z.abs (wc - lo)) / inject_Z lo * 50)%Q.

Definition spec_quality_score (content : string) (level : DocumentationLevel) : Q :=
  ((spec_section_score content level + spec_word_score content level) / 2)%Q.

End DocumentationValidator.

(** ** The world: JSON databases, files, clock; observable events *)

(** Values stored in a status record. *)
Inductive value :=
| VStr (s : string)
| VInt (n : Z)
| VTime (t : nat).

(** Transcription metadata and the content of
    [data/transcriptions/<file_id>.json]. *)
Record transcription_metadata := TranscriptionMetadata {
  duration : Q;
  language : option string;
  file_type : option string;
  speakers : option Z
}.

Record transcription_data := TranscriptionData {
  transcription : string;
  metadata : transcription_metadata
}.

(** The documentation dict built by [generate_documentation]. *)
Record documentation := Documentation {
  documentation_id : string;
  file_id : string;
  title : string;
  content : string;
  documentation_level : string;
  generated_at : nat;
  word_count : Z;
  quality_score : Q;
  validation_issues : option (list string);
  pdf_path : option string
}.

(** [documentation.json] holds documents under their id and, under
    ["file_" + file_id], the id of the file's document. *)
Inductive db_entry :=
| EntryDocumentation (d : documentation)
| EntryId (doc_id : string).

Record world := World {
  status_db : gmap string (gmap string value);
  documentation_db : gmap string db_entry;
  transcription_files : gmap string transcription_data;
  clock : nat;
  llm_calls : nat;
  uuid_calls : nat
}.

Inductive stage := Validation | Transcription | Storage | Generation.

Inductive capability :=
| CapValidator | CapFfmpeg | CapAudioProcessing | CapWhisper
| CapStoreTranscription | CapGenerator | CapRenderer.

(** What an observer of a run can see, in order: the status records written,
    the stages entered (an agent's stage method is called) and the calls to
    external capabilities. *)
Inductive event :=
| EStatus (file_id status : string) (progress : Z) (current_stage : string)
          (error : option string)
| EStage (s : stage)
| ECall (c : capability).

(** A Python result: a returned value or a raised exception with its text. *)
Inductive raised (A : Type) :=
| Returned (a : A)
| Raised (msg : string).
Arguments Returned {A} a.
Arguments Raised {A} msg.

(** An effectful computation: reads and updates the world and emits events. *)
Definition M (A : Type) : Type := world -> A * world * list event.

Definition ret {A} (a : A) : M A := fun w => (a, w, []).

Definition bind {A B} (m : M A) (k : A -> M B) : M B :=
  fun w =>
    let '(a, w1, e1) := m w in
    let '(b, w2, e2) := k a w1 in
    (b, w2, e1 ++ e2).

Notation "x <~ c ;; k" := (bind c (fun x => k))
  (at level 100, c at next level, right associativity).
Notation "c ;;; k" := (bind c (fun _ => k))
  (at level 100, right associativity).

Definition emit (e : event) : M unit := fun w => (tt, w, [e]).
Definition get_world : M world := fun w => (w, w, []).
Definition put_world (w' : world) : M unit := fun _ => (tt, w', []).

Definition result_of {A} (r : A * world * list event) : A := fst (fst r).
Definition world_of {A} (r : A * world * list event) : world := snd (fst r).
Definition events_of {A} (r : A * world * list event) : list event := snd r.

(** [datetime.now()]: every reading is later than the one before. *)
Definition datetime_now : M nat :=
  fun w =>
    (clock w,
     World (status_db w) (documentation_db w) (transcription_files w)
           (S (clock w)) (llm_calls w) (uuid_calls w),
     []).

Definition set_status_db (db : gmap string (gmap string value)) : M unit :=
  fun w =>
    (tt,
     World db (documentation_db w) (transcription_files w)
           (clock w) (llm_calls w) (uuid_calls w),
     []).

Definition set_documentation_db (db : gmap string db_entry) : M unit :=
  fun w =>
    (tt,
     World (status_db w) db (transcription_files w)
           (clock w) (llm_calls w) (uuid_calls w),
     []).

Definition set_transcription_files (fs : gmap string transcription_data) : M unit :=
  fun w =>
    (tt,
     World (status_db w) (documentation_db w) fs
           (clock w) (llm_calls w) (uuid_calls w),
     []).

(** Read and advance a call counter. *)
Definition next_llm_call : M nat :=
  fun w =>
    (llm_calls w,
     World (status_db w) (documentation_db w) (transcription_files w)
           (clock w) (S (llm_calls w)) (uuid_calls w),
     []).

Definition next_uuid_call : M nat :=
  fun w =>
    (uuid_calls w,
     World (status_db w) (documentation_db w) (transcription_files w)
           (clock w) (llm_calls w) (S (uuid_calls w)),
     []).

Definition empty_world : world := World ∅ ∅ ∅ 0 0 0.

(** ** models/database.py *)

(** [if error:] holds for a non-empty string only. *)
Definition truthy_error (error : option string) : option string :=
  match error with
  | Some e => if PyStr.is_empty e then None else Some e
  | None => None
  end.

Definition with_error (error : option string) (d : gmap string value) : gmap string value :=
  match truthy_error error with
  | Some e => <["error" := VStr e]> d
  | None => d
  end.

(** The module defines [update_processing_status] twice.  This is the first
    definition (lines 210-236); the second one below replaces it when the
    module is loaded. *)
Module FirstDefinition.

Definition update_processing_status (file_id status : string) (progress : Z)
           (current_stage : string) (error : option string) : M unit :=
  w <~ get_world ;;
  let current_data := default ∅ (status_db w !! file_id) in
  update_time <~ datetime_now ;;
  let current_data :=
    <["update_time" := VTime update_time]>
      (<["current_stage" := VStr current_stage]>
         (<["progress" := VInt progress]>
            (<["status" := VStr status]>
               (<["file_id" := VStr file_id]> current_data)))) in
  let current_data := with_error error current_data in
  current_data <~
    match current_data !! "start_time" with
    | Some _ => ret current_data
    | None =>
        start_time <~ datetime_now ;;
        ret (<["start_time" := VTime start_time]> current_data)
    end ;;
  set_status_db (<[file_id := current_data]> (status_db w)) ;;;
  emit (EStatus file_id status progress current_stage (truthy_error error)).

End FirstDefinition.

(** The definition in effect (lines 274-296): a fresh record on every call. *)
Definition update_processing_status (file_id status : string) (progress : Z)
           (current_stage : string) (error : option string) : M unit :=
  updated_at <~ datetime_now ;;
  let status_data : gmap string value :=
    <["updated_at" := VTime updated_at]>
      (<["current_stage" := VStr current_stage]>
         (<["progress" := VInt progress]>
            (<["status" := VStr status]>
               {["file_id" := VStr file_id]}))) in
  let status_data := with_error error status_data in
  w <~ get_world ;;
  set_status_db (<[file_id := status_data]> (status_db w)) ;;;
  emit (EStatus file_id status progress current_stage (truthy_error error)).

Definition get_processing_status (file_id : string) : M (option (gmap string value)) :=
  w <~ get_world ;;
  ret (status_db w !! file_id).

Definition store_documentation (d : documentation) : M unit :=
  w <~ get_world ;;
  set_documentation_db (<[documentation_id d := EntryDocumentation d]> (documentation_db w)) ;;;
  w <~ get_world ;;
  set_documentation_db
    (<["file_" +:+ file_id d := EntryId (documentation_id d)]> (documentation_db w)).

(** [get_documentation(file_id)].  A documentation dict found under the
    ["file_"] key cannot be used as a key: that lookup raises. *)
Definition get_documentation (file_id : string) : M (raised (option db_entry)) :=
  w <~ get_world ;;
  match documentation_db w !! ("file_" +:+ file_id) with
  | Some (EntryId doc_id) =>
      if PyStr.is_empty doc_id then ret (Returned None)
      else ret (Returned (documentation_db w !! doc_id))
  | Some (EntryDocumentation _) => ret (Raised "unhashable type: 'dict'")
  | None => ret (Returned None)
  end.

Definition get_documentation_by_id (doc_id : string) : M (option db_entry) :=
  w <~ get_world ;;
  ret (documentation_db w !! doc_id).

(** ** Result dicts of the agents *)

(** [{"valid": ..., "message": ...}] *)
Inductive validation_result :=
| Valid (file_id file_path : string) (file_size : Z)
| Invalid (message : string).

(** [{"success": True, "transcription": ..., "metadata": ...}] or
    [{"success": False, "message": ...}] *)
Inductive transcription_result :=
| TranscriptionSuccess (transcription : string) (metadata : transcription_metadata)
| TranscriptionFailure (message : string).

Inductive extract_result :=
| ExtractSuccess (audio_path : string)
| ExtractFailure (message : string).

Inductive storage_result :=
| StorageSuccess (file_id local_path : string)
| StorageFailure (message : string).

Inductive generation_result :=
| GenerationSuccess (documentation_id file_path : string) (pdf_path : option string)
                    (quality_score : Q)
| GenerationFailure (message : string).

(** The success dict of a generator: documentation id, file path, PDF path
    and quality score. *)
Definition generated : Type := string * string * option string * Q.

Definition success_result (g : generated) : generation_result :=
  let '(documentation_id, file_path, pdf_path, quality_score) := g in
  GenerationSuccess documentation_id file_path pdf_path quality_score.

Definition generation_success (r : generation_result) : bool :=
  match r with GenerationSuccess _ _ _ _ => true | GenerationFailure _ => false end.

(** [save_uploaded_file(upload_file)] *)
Inductive save_result :=
| SaveSuccess (file_id file_path original_filename : string) (file_size : Z)
| SaveFailure (message : string).

(** ** External capabilities *)

Record env := Env {
  (** [os.path.exists] *)
  os_path_exists : string -> bool;
  (** [os.path.getsize] *)
  os_path_getsize : string -> raised Z;
  (** utils/file_handler.py: extension tests and the size limit of the settings *)
  is_valid_file_type : string -> bool;
  is_video_file : string -> bool;
  max_file_size_bytes : Z;
  max_file_size : string;
  (** utils/file_handler.py [save_uploaded_file]: writes the upload to disk *)
  save_uploaded_file : string -> save_result;
  (** ffmpeg run of [MediaProcessor.extract_audio_from_video]: the audio
      path, or the text of the exception *)
  ffmpeg_run : string -> raised string;
  (** [whisper.load_model]: the text of the exception when loading fails *)
  whisper_load_model : option string;
  (** [AudioSegment.from_file]: duration in seconds *)
  audio_duration : string -> raised Q;
  (** [whisper_model.transcribe]: text and language *)
  whisper_transcribe : string -> raised (string * string);
  (** extension of a path without the dot *)
  path_extension : string -> string;
  (** writing [data/transcriptions/<file_id>.json]: the exception, if any *)
  write_transcription_file : string -> option string;
  (** [LLMService.generate_response], by call number, level of the prompts
      and transcription inserted in the user prompt *)
  llm_generate_response : nat -> DocumentationLevel -> string -> raised string;
  (** first eight characters of [uuid.uuid4()], by call number *)
  uuid4_prefix : nat -> string;
  (** writing [data/documentations/<file_id>.json]: the exception, if any *)
  write_documentation_file : string -> option string;
  (** [generate_pdf_from_json] by attempt: the path of a PDF that exists *)
  generate_pdf_from_json : string -> nat -> option string;
  (** [str(e)] of an [HTTPException] with the given status code and detail *)
  str_HTTPException : Z -> string -> string;
  (** agents/sow_agent.py and agents/frd_agent.py: the [try] block of
      [SOWGenerator.generate_documentation] and of
      [FRDGenerator.generate_documentation] (file id, level), which returns
      the success dict or raises *)
  SOWGenerator_try_block : string -> string -> M (raised generated);
  FRDGenerator_try_block : string -> string -> M (raised generated)
}.

Section Agents.

Context (E : env).

(** ** services/local_storage_service.py *)
Definition LocalStorageService_store_transcription (file_id transcription : string)
           (metadata : transcription_metadata) : M storage_result :=
  emit (ECall CapStoreTranscription) ;;;
  match write_transcription_file E file_id with
  | Some e => ret (StorageFailure ("Error storing transcription: " +:+ e))
  | None =>
      let local_data :=
        TranscriptionData transcription
          (TranscriptionMetadata
             (duration metadata)
             (Some (default "en" (language metadata)))
             (Some (default "unknown" (file_type metadata)))
             (Some (default 1 (speakers metadata)))) in
      w <~ get_world ;;
      set_transcription_files (<[file_id := local_data]> (transcription_files w)) ;;;
      ret (StorageSuccess file_id ("data/transcriptions/" +:+ file_id +:+ ".json"))
  end.

Definition LocalStorageService_retrieve_transcription (file_id : string)
  : M (option transcription_data) :=
  w <~ get_world ;;
  ret (transcription_files w !! file_id).

(** ** services/media_processor.py *)

Definition MediaProcessor_extract_audio_from_video (video_path : string) : M extract_result :=
  emit (ECall CapFfmpeg) ;;;
  match ffmpeg_run E video_path with
  | Returned audio_path => ret (ExtractSuccess audio_path)
  | Raised e => ret (ExtractFailure ("Error extracting audio: " +:+ e))
  end.

(** A fresh [MediaProcessor] is not initialized: the model is loaded first. *)
Definition MediaProcessor_transcribe_audio (audio_path : string) : M transcription_result :=
  match whisper_load_model E with
  | Some _ => ret (TranscriptionFailure "Failed to initialize Whisper model")
  | None =>
      let duration_seconds :=
        match audio_duration E audio_path with
        | Returned d => d
        | Raised _ => 0%Q
        end in
      emit (ECall CapWhisper) ;;;
      match whisper_transcribe E audio_path with
      | Returned (text, language) =>
          let transcription := text in
          let metadata :=
            TranscriptionMetadata duration_seconds (Some language)
              (Some (path_extension E audio_path)) None in
          ret (TranscriptionSuccess transcription metadata)
      | Raised e => ret (TranscriptionFailure ("Error transcribing audio: " +:+ e))
      end
  end.

(** ** agents/file_upload_agent.py *)

(** The checks of [FileValidationTool._arun]; they read the file system
    only. *)
Definition FileValidationTool_check (file_id file_path : string) : validation_result :=
  if negb (os_path_exists E file_path) then Invalid "File not found"
  else if negb (is_valid_file_type E file_path) then Invalid "Invalid file type"
  else
    match os_path_getsize E file_path with
    | Raised e => Invalid ("Error validating file: " +:+ e)
    | Returned file_size =>
        if negb (file_size <=? max_file_size_bytes E)
        then Invalid ("File too large. Maximum size: " +:+ max_file_size E)
        else Valid file_id file_path file_size
    end.

Definition FileValidationTool_arun (file_id file_path : string) : M validation_result :=
  emit (ECall CapValidator) ;;;
  ret (FileValidationTool_check file_id file_path).

Definition FileUploadAgent_save_file (upload_file : string) : M save_result :=
  let result := save_uploaded_file E upload_file in
  match result with
  | SaveSuccess file_id _ _ _ =>
      update_processing_status file_id "uploaded" 10 "upload" None ;;;
      ret result
  | SaveFailure _ => ret result
  end.

Definition FileUploadAgent_validate_file (file_id file_path : string) : M validation_result :=
  emit (EStage Validation) ;;;
  update_processing_status file_id "processing" 20 "validation" None ;;;
  result <~ FileValidationTool_arun file_id file_path ;;
  match result with
  | Valid _ _ _ => ret result
  | Invalid message =>
      update_processing_status file_id "failed" 0 "validation" (Some message) ;;;
      ret result
  end.

(** ** agents/media_processing_agent.py *)

Definition FFmpegTool_arun (video_path : string) : M extract_result :=
  if negb (os_path_exists E video_path)
  then ret (ExtractFailure ("Video file not found: " +:+ video_path))
  else MediaProcessor_extract_audio_from_video video_path.

Definition WhisperTool_arun (audio_path : string) : M transcription_result :=
  if negb (os_path_exists E audio_path)
  then ret (TranscriptionFailure ("Audio file not found: " +:+ audio_path))
  else MediaProcessor_transcribe_audio audio_path.

(** Returns the processed audio path, or the failure message. *)
Definition AudioProcessingTool_arun (audio_path : string) : M extract_result :=
  emit (ECall CapAudioProcessing) ;;;
  if negb (os_path_exists E audio_path)
  then ret (ExtractFailure ("Audio file not found: " +:+ audio_path))
  else ret (ExtractSuccess audio_path).

(** The second half of [process_file], from audio processing on. *)
Definition process_audio (file_id audio_path : string) : M transcription_result :=
  update_processing_status file_id "processing" 40 "audio_processing" None ;;;
  process_result <~ AudioProcessingTool_arun audio_path ;;
  match process_result with
  | ExtractFailure error_msg =>
      update_processing_status file_id "failed" 40 "audio_processing" (Some error_msg) ;;;
      ret (TranscriptionFailure error_msg)
  | ExtractSuccess processed_audio_path =>
      update_processing_status file_id "processing" 50 "transcription" None ;;;
      transcribe_result <~ WhisperTool_arun processed_audio_path ;;
      match transcribe_result with
      | TranscriptionFailure error_msg =>
          update_processing_status file_id "failed" 50 "transcription" (Some error_msg) ;;;
          ret (TranscriptionFailure error_msg)
      | TranscriptionSuccess transcription metadata =>
          (* removal of the temporary audio file: no effect on the world *)
          update_processing_status file_id "completed" 60 "transcription_completed" None ;;;
          ret (TranscriptionSuccess transcription metadata)
      end
  end.

Definition MediaProcessingAgent_process_file (file_id file_path : string)
  : M transcription_result :=
  emit (EStage Transcription) ;;;
  update_processing_status file_id "processing" 25 "extraction" None ;;;
  if negb (os_path_exists E file_path) then
    let error_msg := "File not found: " +:+ file_path in
    update_processing_status file_id "failed" 0 "extraction" (Some error_msg) ;;;
    ret (TranscriptionFailure error_msg)
  else if is_video_file E file_path then
    extract_result <~ FFmpegTool_arun file_path ;;
    match extract_result with
    | ExtractFailure error_msg =>
        update_processing_status file_id "failed" 25 "extraction" (Some error_msg) ;;;
        ret (TranscriptionFailure error_msg)
    | ExtractSuccess audio_path => process_audio file_id audio_path
    end
  else process_audio file_id file_path.

(** ** agents/vector_storage_agent.py *)

Definition VectorStorageAgent_store_transcription (file_id transcription : string)
           (metadata : transcription_metadata) : M storage_result :=
  emit (EStage Storage) ;;;
  update_processing_status file_id "processing" 60 "storage" None ;;;
  result <~ LocalStorageService_store_transcription file_id transcription metadata ;;
  match result with
  | StorageSuccess result_file_id local_path =>
      update_processing_status file_id "processing" 70 "vectorization" None ;;;
      ret (StorageSuccess result_file_id local_path)
  | StorageFailure message =>
      update_processing_status file_id "failed" 0 "storage" (Some message) ;;;
      ret (StorageFailure message)
  end.

End Agents.

(** ** agents/documentation_agent.py: DocumentationGenerator, DocumentationAgent *)

Section Documentation.

Context (E : env).

(** [self.max_retries = 3] *)
Definition max_retries : nat := 3.

(** The [for attempt in range(self.max_retries)] loop of
    [_get_transcription_with_retry]; a loop that ends without [return]
    yields Python's [None]. *)
Fixpoint get_transcription_attempts (remaining attempt : nat) (file_id : string)
  : M (raised (option transcription_data)) :=
  match remaining with
  | O => ret (Returned None)
  | S remaining' =>
      transcription_data <~ LocalStorageService_retrieve_transcription file_id ;;
      match transcription_data with
      | Some d => ret (Returned (Some d))
      | None =>
          let e := "No transcription found for file_id: " +:+ file_id in
          if Nat.eqb attempt (max_retries - 1) then ret (Raised e)
          else get_transcription_attempts remaining' (S attempt) file_id
      end
  end.

Definition _get_transcription_with_retry (file_id : string)
  : M (raised (option transcription_data)) :=
  get_transcription_attempts max_retries 0 file_id.

Definition _validate_transcription (transcription : string) : raised unit :=
  if PyStr.is_empty transcription || (PyStr.len (PyStr.strip transcription) <? 50)
  then Raised "Transcription is too short or empty"
  else Returned tt.

Definition LLMService_generate_response (level : DocumentationLevel)
           (transcription : string) : M (raised string) :=
  n <~ next_llm_call ;;
  emit (ECall CapGenerator) ;;;
  ret (llm_generate_response E n level transcription).

Definition content_long_enough (content : string) : bool :=
  negb (PyStr.is_empty content) && (100 <? PyStr.len (PyStr.strip content)).

(** The [for attempt in range(self.max_retries)] loop of
    [_generate_content_with_retry]. *)
Fixpoint generate_content_attempts (remaining attempt : nat)
         (transcription : string) (level : DocumentationLevel) (file_id : string)
  : M (raised (option string)) :=
  match remaining with
  | O => ret (Returned None)
  | S remaining' =>
      let progress := 80 + Z.of_nat attempt * 5 in
      update_processing_status file_id "processing" progress "documentation" None ;;;
      response <~ LLMService_generate_response level transcription ;;
      let outcome :=
        match response with
        | Returned content =>
            if content_long_enough content then Returned content
            else Raised "Generated content is too short or empty"
        | Raised e => Raised e
        end in
      match outcome with
      | Returned content => ret (Returned (Some content))
      | Raised e =>
          if Nat.eqb attempt (max_retries - 1) then ret (Raised e)
          else generate_content_attempts remaining' (S attempt) transcription level file_id
      end
  end.

Definition _generate_content_with_retry (transcription : string)
           (level : DocumentationLevel) (file_id : string) : M (raised (option string)) :=
  generate_content_attempts max_retries 0 transcription level file_id.

Definition _save_documentation (d : documentation) (file_id : string) : M (raised string) :=
  match write_documentation_file E file_id with
  | Some e => ret (Raised e)
  | None => ret (Returned ("data/documentations/" +:+ file_id +:+ ".json"))
  end.

Fixpoint generate_pdf_attempts (remaining attempt : nat) (doc_path : string)
  : M (option string) :=
  match remaining with
  | O => ret None
  | S remaining' =>
      emit (ECall CapRenderer) ;;;
      match generate_pdf_from_json E doc_path attempt with
      | Some pdf_path => ret (Some pdf_path)
      | None =>
          if Nat.eqb attempt (max_retries - 1) then ret None
          else generate_pdf_attempts remaining' (S attempt) doc_path
      end
  end.

Definition _generate_pdf_with_retry (doc_path : string) : M (option string) :=
  generate_pdf_attempts max_retries 0 doc_path.

(** [level = DocumentationLevel(doc_level)], Intermediate on [ValueError]. *)
Definition convert_doc_level (doc_level : string) : DocumentationLevel :=
  match DocumentationLevel_of_value doc_level with
  | Some level => level
  | None => INTERMEDIATE
  end.

(** The [try] block of [DocumentationGenerator.generate_documentation]. *)
Definition DocumentationGenerator_try_block (file_id doc_level : string)
  : M (raised generated) :=
  let level := convert_doc_level doc_level in
  transcription_data <~ _get_transcription_with_retry file_id ;;
  match transcription_data with
  | Raised e => ret (Raised e)
  | Returned None => ret (Raised "'NoneType' object has no attribute 'get'")
  | Returned (Some transcription_data) =>
      let transcription := transcription transcription_data in
      match _validate_transcription transcription with
      | Raised e => ret (Raised e)
      | Returned _ =>
          documentation_content <~ _generate_content_with_retry transcription level file_id ;;
          match documentation_content with
          | Raised e => ret (Raised e)
          | Returned None => ret (Raised "'NoneType' object has no attribute 'split'")
          | Returned (Some documentation_content) =>
              let '(is_valid, quality_score, issues) :=
                DocumentationValidator.validate_content documentation_content level in
              _ <~ datetime_now ;;
              n <~ next_uuid_call ;;
              let documentation_id := "doc_" +:+ uuid4_prefix E n in
              generated_at <~ datetime_now ;;
              let documentation :=
                Documentation documentation_id file_id
                  "Business Requirements Document - Untitled"
                  documentation_content (level_value level) generated_at
                  (DocumentationValidator.word_count documentation_content)
                  quality_score
                  (match issues with [] => None | _ => Some issues end)
                  None in
              doc_path <~ _save_documentation documentation file_id ;;
              match doc_path with
              | Raised e => ret (Raised e)
              | Returned doc_path =>
                  pdf_path <~ _generate_pdf_with_retry doc_path ;;
                  let documentation :=
                    match pdf_path with
                    | Some p =>
                        Documentation documentation_id file_id
                          "Business Requirements Document - Untitled"
                          documentation_content (level_value level) generated_at
                          (DocumentationValidator.word_count documentation_content)
                          quality_score
                          (match issues with [] => None | _ => Some issues end)
                          (Some p)
                    | None => documentation
                    end in
                  store_documentation documentation ;;;
                  update_processing_status file_id "completed" 100 "documentation" None ;;;
                  ret (Returned (documentation_id, doc_path, pdf_path, quality_score))
              end
          end
      end
  end.

(** [try: ... except Exception as e: ...] of a generator's
    [generate_documentation]. *)
Definition generator_except (file_id : string) (body : M (raised generated))
  : M generation_result :=
  r <~ body ;;
  match r with
  | Returned result => ret (success_result result)
  | Raised e =>
      let error_msg := "Error generating documentation: " +:+ e in
      update_processing_status file_id "failed" 0 "documentation" (Some error_msg) ;;;
      ret (GenerationFailure error_msg)
  end.

Definition DocumentationGenerator_generate_documentation (file_id doc_level : string)
  : M generation_result :=
  _ <~ datetime_now ;;
  generator_except file_id (DocumentationGenerator_try_block file_id doc_level).

Definition DocumentationAgent_generate_documentation (file_id doc_level : string)
  : M generation_result :=
  emit (EStage Generation) ;;;
  update_processing_status file_id "processing" 75 "documentation" None ;;;
  result <~ DocumentationGenerator_generate_documentation file_id doc_level ;;
  match result with
  | GenerationSuccess documentation_id file_path pdf_path quality_score =>
      ret (GenerationSuccess documentation_id file_path pdf_path quality_score)
  | GenerationFailure message =>
      let error_msg := "Error in generate_documentation: " +:+ message in
      update_processing_status file_id "failed" 0 "documentation" (Some error_msg) ;;;
      ret (GenerationFailure error_msg)
  end.

Definition DocumentationAgent_get_documentation (file_id : string) : M (option db_entry) :=
  r <~ get_documentation file_id ;;
  match r with
  | Returned d => ret d
  | Raised _ => ret None
  end.

(** ** agents/sow_agent.py, agents/frd_agent.py: SOWAgent, FRDAgent *)

Inductive generated_kind := KindSOW | KindFRD.

Definition kind_stage (k : generated_kind) : string :=
  match k with KindSOW => "sow_generation" | KindFRD => "frd_generation" end.

Definition kind_generator (k : generated_kind) (file_id doc_level : string)
  : M generation_result :=
  _ <~ datetime_now ;;
  generator_except file_id
    (match k with
     | KindSOW => SOWGenerator_try_block E file_id doc_level
     | KindFRD => FRDGenerator_try_block E file_id doc_level
     end).

(** [SOWAgent.generate_documentation] and [FRDAgent.generate_documentation]
    differ in the stage name only. *)
Definition kind_agent_generate_documentation (k : generated_kind)
           (file_id doc_level : string) : M generation_result :=
  emit (EStage Generation) ;;;
  update_processing_status file_id "processing" 75 (kind_stage k) None ;;;
  result <~ kind_generator k file_id doc_level ;;
  match result with
  | GenerationSuccess _ _ _ _ =>
      update_processing_status file_id "completed" 100 "completed" None ;;;
      ret result
  | GenerationFailure message =>
      update_processing_status file_id "failed" 75 (kind_stage k) (Some message) ;;;
      ret result
  end.

End Documentation.

(** ** main.py: the two orchestrators *)

Section Main.

Context (E : env).

Inductive documentation_agent := AgentBRD | AgentSOW | AgentFRD.

(** [if doc_type == "BRD": ... elif ... else: raise ValueError(...)] *)
Definition select_documentation_agent (doc_type : string) : raised documentation_agent :=
  if String.eqb doc_type "BRD" then Returned AgentBRD
  else if String.eqb doc_type "SOW" then Returned AgentSOW
  else if String.eqb doc_type "FRD" then Returned AgentFRD
  else Raised ("Unsupported document type: " +:+ doc_type).

(** [documentation_agent.generate_documentation(file_id, doc_level)] *)
Definition agent_generate_documentation (a : documentation_agent)
           (file_id doc_level : string) : M generation_result :=
  match a with
  | AgentBRD => DocumentationAgent_generate_documentation E file_id doc_level
  | AgentSOW => kind_agent_generate_documentation E KindSOW file_id doc_level
  | AgentFRD => kind_agent_generate_documentation E KindFRD file_id doc_level
  end.

(** [process_media_file] returns nothing; the model returns the exit it
    took: the end of the function, the [return] after the failure of a
    stage, or the [except] handler. *)
Inductive run_exit :=
| Completed
| FailedAt (s : stage) (error_msg : string)
| Crashed (error_msg : string).

Definition process_media_file (file_id file_path doc_type doc_level : string)
  : M run_exit :=
  match select_documentation_agent doc_type with
  | Raised error_msg =>
      update_processing_status file_id "failed" 0 "error" (Some error_msg) ;;;
      ret (Crashed error_msg)
  | Returned documentation_agent =>
      update_processing_status file_id "processing" 10 "validation" None ;;;
      validation_result <~ FileUploadAgent_validate_file E file_id file_path ;;
      match validation_result with
      | Invalid error_msg =>
          update_processing_status file_id "failed" 10 "validation" (Some error_msg) ;;;
          ret (FailedAt Validation error_msg)
      | Valid _ _ _ =>
          update_processing_status file_id "processing" 25 "transcription" None ;;;
          transcription_result <~ MediaProcessingAgent_process_file E file_id file_path ;;
          match transcription_result with
          | TranscriptionFailure error_msg =>
              update_processing_status file_id "failed" 25 "transcription" (Some error_msg) ;;;
              ret (FailedAt Transcription error_msg)
          | TranscriptionSuccess transcription metadata =>
              update_processing_status file_id "processing" 50 "vector_storage" None ;;;
              storage_result <~
                VectorStorageAgent_store_transcription E file_id transcription metadata ;;
              match storage_result with
              | StorageFailure error_msg =>
                  update_processing_status file_id "failed" 50 "vector_storage"
                                           (Some error_msg) ;;;
                  ret (FailedAt Storage error_msg)
              | StorageSuccess _ _ =>
                  update_processing_status file_id "processing" 75 "documentation" None ;;;
                  transcription_data <~ LocalStorageService_retrieve_transcription file_id ;;
                  match transcription_data with
                  | None =>
                      let error_msg :=
                        "Failed to retrieve transcription for documentation generation" in
                      update_processing_status file_id "failed" 75 "documentation"
                                               (Some error_msg) ;;;
                      ret (FailedAt Generation error_msg)
                  | Some _ =>
                      documentation_result <~
                        agent_generate_documentation documentation_agent file_id doc_level ;;
                      match documentation_result with
                      | GenerationFailure error_msg =>
                          update_processing_status file_id "failed" 75 "documentation"
                                                   (Some error_msg) ;;;
                          ret (FailedAt Generation error_msg)
                      | GenerationSuccess _ _ _ _ =>
                          update_processing_status file_id "completed" 100 "completed" None ;;;
                          ret Completed
                      end
                  end
              end
          end
      end
  end.

(** [DocumentType], the enum of the upload form. *)
Inductive DocumentType := BRD | SOW | FRD.

Definition agent_of_DocumentType (doc_type : DocumentType) : documentation_agent :=
  match doc_type with
  | BRD => AgentBRD
  | SOW => AgentSOW
  | FRD => AgentFRD
  end.

Definition DocumentType_value (doc_type : DocumentType) : string :=
  match doc_type with BRD => "BRD" | SOW => "SOW" | FRD => "FRD" end.

(** The response of [POST /upload]. *)
Inductive upload_response :=
| UploadSuccess (file_id : string) (documentation_id : string)
                (transcription_length : Z) (message : string)
| UploadFailure (stage : string) (message : string)
| HTTPException (status_code : Z) (detail : string).

Definition upload_file (file : string) (doc_type : DocumentType) (doc_level : string)
  : M upload_response :=
  file_result <~ FileUploadAgent_save_file E file ;;
  match file_result with
  | SaveFailure message =>
      (* [raise HTTPException(400, ...)] inside the [try]: re-raised as 500 *)
      ret (HTTPException 500 (str_HTTPException E 400 message))
  | SaveSuccess file_id file_path _ _ =>
      validation_result <~ FileUploadAgent_validate_file E file_id file_path ;;
      match validation_result with
      | Invalid error_msg => ret (UploadFailure "validation" error_msg)
      | Valid _ _ _ =>
          transcription_result <~ MediaProcessingAgent_process_file E file_id file_path ;;
          match transcription_result with
          | TranscriptionFailure error_msg => ret (UploadFailure "transcription" error_msg)
          | TranscriptionSuccess transcription metadata =>
              storage_result <~
                VectorStorageAgent_store_transcription E file_id transcription metadata ;;
              match storage_result with
              | StorageFailure error_msg => ret (UploadFailure "vector_storage" error_msg)
              | StorageSuccess _ _ =>
                  documentation_result <~
                    agent_generate_documentation (agent_of_DocumentType doc_type)
                      file_id doc_level ;;
                  match documentation_result with
                  | GenerationFailure error_msg =>
                      ret (UploadFailure "documentation" error_msg)
                  | GenerationSuccess documentation_id _ _ _ =>
                      ret (UploadSuccess file_id documentation_id
                             (PyStr.len transcription)
                             ("File processed successfully, "
                                +:+ DocumentType_value doc_type
                                +:+ " documentation generated"))
                  end
              end
          end
      end
  end.

End Main.

(** ** Reading a run *)

(** Progress values written for [file_id], in order. *)
Fixpoint progress_values (file_id : string) (events : list event) : list Z :=
  match events with
  | [] => []
  | EStatus f _ progress _ _ :: rest =>
      if String.eqb f file_id then progress :: progress_values file_id rest
      else progress_values file_id rest
  | _ :: rest => progress_values file_id rest
  end.

(** Non-decreasing until 100 is reached: nothing is required after the
    first 100. *)
Fixpoint non_decreasing_until_100 (l : list Z) : bool :=
  match l with
  | [] => true
  | x :: rest =>
      if x =? 100 then true
      else match rest with
           | [] => true
           | y :: _ => (x <=? y) && non_decreasing_until_100 rest
           end
  end.

Definition stages_entered (events : list event) : list stage :=
  omap (fun e => match e with EStage s => Some s | _ => None end) events.

Definition capability_eqb (a b : capability) : bool :=
  match a, b with
  | CapValidator, CapValidator
  | CapFfmpeg, CapFfmpeg
  | CapAudioProcessing, CapAudioProcessing
  | CapWhisper, CapWhisper
  | CapStoreTranscription, CapStoreTranscription
  | CapGenerator, CapGenerator
  | CapRenderer, CapRenderer => true
  | _, _ => false
  end.

Definition is_call (c : capability) (e : event) : bool :=
  match e with
  | ECall c' => capability_eqb c c'
  | _ => false
  end.

(** Number of calls to a capability. *)
Definition calls_of (c : capability) (events : list event) : nat :=
  length (List.filter (is_call c) events).

(** Entry constants of the stages in [process_media_file]. *)
Definition entry_progress (s : stage) : Z :=
  match s with
  | Validation => 10
  | Transcription => 25
  | Storage => 50
  | Generation => 75
  end.

Definition stage_name (s : stage) : string :=
  match s with
  | Validation => "validation"
  | Transcription => "transcription"
  | Storage => "vector_storage"
  | Generation => "documentation"
  end.

(** The record [update_processing_status] stores. *)
Definition status_record (file_id status : string) (progress : Z) (current_stage : string)
           (updated_at : nat) (error : option string) : gmap string value :=
  with_error error
    (<["updated_at" := VTime updated_at]>
       (<["current_stage" := VStr current_stage]>
          (<["progress" := VInt progress]>
             (<["status" := VStr status]>
                {["file_id" := VStr file_id]})))).

(** ** Concrete environments for the examples *)

Fixpoint repeat_string (n : nat) (s : string) : string :=
  match n with
  | O => ""
  | S n' => s +:+ repeat_string n' s
  end.

(** A transcription of 100 characters. *)
Definition sample_transcription : string :=
  repeat_string 20 "word ".

(** A document with the four Simple-level headings and 1808 words. *)
Definition sample_document : string :=
  "# Executive Summary # Business Objectives # Requirements # Implementation "
    +:+ repeat_string 1800 "word ".

(** An environment in which every capability works: an audio file of a valid
    type, a transcriber that returns [text] and a provider that answers the
    [n]-th call with [llm n]. *)
Definition sample_env (file_ok : bool) (text : string) (llm : nat -> raised string) : env :=
  {| os_path_exists := fun _ => true;
     os_path_getsize := fun _ => Returned 1000;
     is_valid_file_type := fun _ => file_ok;
     is_video_file := fun _ => false;
     max_file_size_bytes := 524288000;
     max_file_size := "500MB";
     save_uploaded_file := fun name => SaveSuccess "f1" "uploads/f1.mp3" name 1000;
     ffmpeg_run := fun p => Returned (p +:+ "_audio.wav");
     whisper_load_model := None;
     audio_duration := fun _ => Returned 12%Q;
     whisper_transcribe := fun _ => Returned (text, "en");
     path_extension := fun _ => "mp3";
     write_transcription_file := fun _ => None;
     llm_generate_response := fun n _ _ => llm n;
     uuid4_prefix := fun n =>
                       match n with
                       | O => "0a1b2c3d"
                       | S O => "4e5f6a7b"
                       | S (S O) => "8c9d0e1f"
                       | _ => "ffffffff"
                       end;
     write_documentation_file := fun _ => None;
     generate_pdf_from_json := fun _ _ => None;
     str_HTTPException := fun _ detail => detail;
     SOWGenerator_try_block := fun _ _ => ret (Raised "no provider");
     FRDGenerator_try_block := fun _ _ => ret (Raised "no provider") |}.

(** A generated document of 125 characters. *)
Definition sample_reply : string :=
  "# Executive Summary " +:+ repeat_string 21 "word ".

Definition good_env : env :=
  sample_env true sample_transcription (fun _ => Returned sample_reply).

(** Content of 112 characters of which only 12 are left by [strip]. *)
Definition padded_content : string :=
  "Requirements" +:+ repeat_string 100 " ".

(** An environment whose uploaded file has an extension that is not allowed. *)
Definition bad_file_env : env :=
  sample_env false sample_transcription (fun _ => Returned sample_reply).

(** An environment whose transcriber returns an empty text. *)
Definition silent_env : env :=
  sample_env true "" (fun _ => Returned sample_reply).

(** An environment whose provider fails on every call. *)
Definition failing_provider_env : env :=
  sample_env true sample_transcription
             (fun n => Raised ("provider error " +:+ repeat_string n "I")).

(** [n] successive generation requests for one file, one level per request;
    the results come in order. *)
Fixpoint generation_requests (E : env) (file_id : string) (levels : list string)
  : M (list generation_result) :=
  match levels with
  | [] => ret []
  | level :: rest =>
      r <~ DocumentationAgent_generate_documentation E file_id level ;;
      rs <~ generation_requests E file_id rest ;;
      ret (r :: rs)
  end.

(** [get_processing_status(file_id)[key]], when both exist. *)
Definition status_field (w : world) (file_id key : string) : option value :=
  match status_db w !! file_id with
  | Some r => r !! key
  | None => None
  end.

(** The world after a status write. *)
Definition write_status (file_id status : string) (progress : Z) (current_stage : string)
           (error : option string) (w : world) : world :=
  World (<[file_id := status_record file_id status progress current_stage (clock w) error]>
           (status_db w))
        (documentation_db w) (transcription_files w)
        (S (clock w)) (llm_calls w) (uuid_calls w).

(** The world and the events of a transcription stage that succeeds: the
    same four status writes on every successful path. *)
Definition transcribed_world (file_id : string) (w : world) : world :=
  write_status file_id "completed" 60 "transcription_completed" None
    (write_status file_id "processing" 50 "transcription" None
       (write_status file_id "processing" 40 "audio_processing" None
          (write_status file_id "processing" 25 "extraction" None w))).

Definition transcription_events (E : env) (file_id file_path : string) : list event :=
  [EStage Transcription; EStatus file_id "processing" 25 "extraction" None]
    ++ (if is_video_file E file_path then [ECall CapFfmpeg] else [])
    ++ [EStatus file_id "processing" 40 "audio_processing" None;
        ECall CapAudioProcessing;
        EStatus file_id "processing" 50 "transcription" None;
        ECall CapWhisper;
        EStatus file_id "completed" 60 "transcription_completed" None].

(** The run got past the transcription stage. *)
Definition past_transcription (x : run_exit) : bool :=
  match x with
  | Completed | FailedAt Storage _ | FailedAt Generation _ => true
  | _ => false
  end.

(** Events of [process_media_file] up to the call of the transcription
    stage. *)
Definition validation_events (file_id : string) : list event :=
  [EStatus file_id "processing" 10 "validation" None;
   EStage Validation;
   EStatus file_id "processing" 20 "validation" None;
   ECall CapValidator;
   EStatus file_id "processing" 25 "transcription" None].

(** The provider fails on every call. *)
Definition provider_always_fails (E : env) : Prop :=
  forall n level transcription,
    exists e, llm_generate_response E n level transcription = Raised e.

(** The world after [store_documentation]. *)
Definition stored_world (d : documentation) (w : world) : world :=
  World (status_db w)
        (<["file_" +:+ file_id d := EntryId (documentation_id d)]>
           (<[documentation_id d := EntryDocumentation d]> (documentation_db w)))
        (transcription_files w) (clock w) (llm_calls w) (uuid_calls w).

(** A world in which the transcription of file "f1" is stored. *)
Definition transcribed_f1 : world :=
  world_of (LocalStorageService_store_transcription good_env "f1" sample_transcription
              (TranscriptionMetadata 12 (Some "en") (Some "mp3") None) empty_world).

(** ** models/database.py: JSONDatabase and the download records *)

Module JSONDatabase.

(** [get(key)]: the value, or [None]. *)
Definition get {V} (key : string) (db : gmap string V) : option V := db !! key.

(** [set(key, value)] *)
Definition set {V} (key : string) (value : V) (db : gmap string V) : gmap string V :=
  <[key := value]> db.

(** [delete(key)]: the file is rewritten only when the key is present. *)
Definition delete {V} (key : string) (db : gmap string V) : gmap string V :=
  match db !! key with
  | Some _ => base.delete key db
  | None => db
  end.

End JSONDatabase.

(** The download information dict. *)
Record download_info := DownloadInfo {
  download_file_id : string;
  download_format : string;
  download_documentation_id : string;
  download_file_path : string;
  download_url : string
}.

(** [f"{file_id}_{format}"] *)
Definition download_key (file_id format : string) : string :=
  file_id +:+ "_" +:+ format.

Definition store_download_info (info : download_info) (download_db : gmap string download_info)
  : gmap string download_info :=
  let key := download_key (download_file_id info) (download_format info) in
  JSONDatabase.set key info download_db.

Definition get_download_info (file_id format : string)
           (download_db : gmap string download_info) : option download_info :=
  let key := download_key file_id format in
  JSONDatabase.get key download_db.

(** The character ["_"] does not occur in the string. *)
Fixpoint no_underscore (s : string) : bool :=
  match s with
  | EmptyString => true
  | String c s' => negb (Ascii.eqb c "_") && no_underscore s'
  end.

(** ** main.py: the read endpoints *)

(** What an endpoint answers: a body, or an [HTTPException]. *)
Inductive endpoint_response (A : Type) :=
| Body (a : A)
| HTTPError (status_code : Z) (detail : string).
Arguments Body {A} a.
Arguments HTTPError {A} status_code detail.

(** [GET /status/{file_id}]: the [HTTPException] raised in the [try] is
    re-raised as it is. *)
Definition get_status (file_id : string) : M (endpoint_response (gmap string value)) :=
  status <~ get_processing_status file_id ;;
  match status with
  | None => ret (HTTPError 404 "Status not found")
  | Some status => ret (Body status)
  end.

(** [not documentation] for what the documentation database returns. *)
Definition falsy_entry (documentation : option db_entry) : bool :=
  match documentation with
  | None => true
  | Some (EntryId s) => PyStr.is_empty s
  | Some (EntryDocumentation _) => false
  end.

(** [GET /documentation/{file_id}]: the [HTTPException] raised in the [try]
    is caught by [except Exception] and raised again with status 500. *)
Definition get_documentation_endpoint (E : env) (file_id : string)
  : M (endpoint_response db_entry) :=
  documentation <~ DocumentationAgent_get_documentation file_id ;;
  match documentation with
  | Some d =>
      if falsy_entry documentation
      then ret (HTTPError 500 (str_HTTPException E 404 "Documentation not found"))
      else ret (Body d)
  | None => ret (HTTPError 500 (str_HTTPException E 404 "Documentation not found"))
  end.

(** ** agents/sow_agent.py, agents/frd_agent.py: SOWValidator, FRDValidator *)

Definition kind_base_sections (k : generated_kind) : list string :=
  match k with
  | KindSOW =>
      ["Project Overview"; "Deliverables"; "Project Schedule"; "Resource Requirements";
       "Project Management"; "Terms and Conditions"; "Next Steps"]
  | KindFRD =>
      ["System Overview"; "Functional Requirements"; "System Features";
       "Technical Requirements"; "User Interface"; "Data Requirements";
       "Testing Requirements"]
  end.

Definition kind_get_required_sections (k : generated_kind) (level : DocumentationLevel)
  : list string :=
  match level with
  | SIMPLE => kind_base_sections k
  | INTERMEDIATE =>
      kind_base_sections k ++
      match k with
      | KindSOW =>
          ["Executive Summary"; "Project Scope and Objectives"; "Implementation Strategy"]
      | KindFRD =>
          ["Executive Summary"; "System Architecture"; "Integration Requirements"]
      end
  | ADVANCED =>
      kind_base_sections k ++
      match k with
      | KindSOW =>
          ["Strategic Project Framework"; "Comprehensive Project Scope";
           "Advanced Deliverables Framework"; "Strategic Timeline Management";
           "Enterprise Resource Planning"; "Advanced Project Management";
           "Strategic Terms and Conditions"; "Implementation Excellence"]
      | KindFRD =>
          ["Strategic System Framework"; "Comprehensive System Architecture";
           "Advanced Functional Requirements"; "Technical Excellence Framework";
           "Enterprise User Experience"; "Advanced Data Architecture";
           "Integration Excellence"; "Quality Assurance Framework"]
      end
  end.

(** The loop of [validate_content]: missing sections and the count of the
    sections found. *)
Fixpoint kind_scan_sections (required : list string) (content : string)
         (missing_sections : list string) (quality_score : Q) : list string * Q :=
  match required with
  | [] => (missing_sections, quality_score)
  | section :: rest =>
      if negb (DocumentationValidator.section_present content section)
      then kind_scan_sections rest content (missing_sections ++ [section]) quality_score
      else kind_scan_sections rest content missing_sections (quality_score + 1)%Q
  end.

(** [SOWValidator.validate_content], [FRDValidator.validate_content] *)
Definition kind_validate_content (k : generated_kind) (content : string)
           (level : DocumentationLevel) : bool * Q * list string :=
  let required_sections := kind_get_required_sections k level in
  let '(missing_sections, quality_score) :=
    kind_scan_sections required_sections content [] 0%Q in
  let quality_score :=
    (quality_score / inject_Z (Z.of_nat (length required_sections)) * 100)%Q in
  (match missing_sections with [] => true | _ => false end, quality_score, missing_sections).

(** The status records of the files other than [file_id] are the same in
    both worlds. *)
Definition others_kept (file_id : string) (w w' : world) : Prop :=
  forall g, g <> file_id -> status_db w' !! g = status_db w !! g.

(** ** Further sample data *)

(** Content of 127 characters that names the four Simple-level headings and
    has 16 words. *)
Definition headings_only : string :=
  "Executive Summary. Business Objectives. Requirements. Implementation. "
  +:+ "This short note names every heading and says little else.".

(** ** What a run may change *)

(** Between [w] and [w'] nothing of another file has changed: the status
    records and the transcriptions of the other files are the same, and the
    documentation database differs at most at the index key of [file_id] and
    at document ids drawn from the uuid source. *)
Definition run_footprint (E : env) (file_id : string) (w w' : world) : Prop :=
  others_kept file_id w w'
  /\ (forall g, g <> file_id -> transcription_files w' !! g = transcription_files w !! g)
  /\ (forall k, k <> "file_" +:+ file_id ->
                (forall n, k <> "doc_" +:+ uuid4_prefix E n) ->
                documentation_db w' !! k = documentation_db w !! k).

(** ** Capabilities and their stages *)

(** The stage whose agent uses the capability. *)
Definition capability_stage (c : capability) : stage :=
  match c with
  | CapValidator => Validation
  | CapFfmpeg | CapAudioProcessing | CapWhisper => Transcription
  | CapStoreTranscription => Storage
  | CapGenerator | CapRenderer => Generation
  end.

(** How often one run may call the capability: the retried ones
    [max_retries] times, the others once. *)
Definition capability_budget (c : capability) : nat :=
  match c with
  | CapGenerator | CapRenderer => max_retries
  | _ => 1
  end.

Definition stage_eqb (a b : stage) : bool :=
  match a, b with
  | Validation, Validation
  | Transcription, Transcription
  | Storage, Storage
  | Generation, Generation => true
  | _, _ => false
  end.

(** The share of the budget that stage [s] may use. *)
Definition stage_budget (s : stage) (c : capability) : nat :=
  if stage_eqb (capability_stage c) s then capability_budget c else 0.

(** * Properties *)

(** ** Strings *)

Section StringFacts.

Import PyStr.

Lemma length_string_of_list_ascii (l : list ascii) :
  String.length (string_of_list_ascii l) = length l.
Proof. induction l as [|c l IH]; simpl; [reflexivity | now rewrite IH]. Qed.

Lemma count_nonspace_app (l1 l2 : list ascii) :
  count_nonspace (l1 ++ l2) = (count_nonspace l1 + count_nonspace l2)%nat.
Proof.
  unfold count_nonspace. rewrite List.filter_app, length_app. reflexivity.
Qed.

Lemma count_nonspace_rev (l : list ascii) :
  count_nonspace (rev l) = count_nonspace l.
Proof.
  induction l as [|c l IH]; [reflexivity|].
  simpl rev. rewrite count_nonspace_app, IH.
  unfold count_nonspace. simpl. destruct (is_space c); simpl; lia.
Qed.

Lemma count_nonspace_lstrip (l : list ascii) :
  count_nonspace (lstrip_chars l) = count_nonspace l.
Proof.
  induction l as [|c l IH]; [reflexivity|].
  simpl. destruct (is_space c) eqn:Hc.
  - rewrite IH. unfold count_nonspace. simpl. now rewrite Hc.
  - reflexivity.
Qed.

Lemma count_nonspace_strip (l : list ascii) :
  count_nonspace (strip_chars l) = count_nonspace l.
Proof.
  unfold strip_chars, rstrip_chars.
  now rewrite count_nonspace_rev, count_nonspace_lstrip, count_nonspace_rev,
    count_nonspace_lstrip.
Qed.

Lemma count_nonspace_le_length (l : list ascii) :
  (count_nonspace l <= length l)%nat.
Proof. unfold count_nonspace. apply List.filter_length_le. Qed.

(** Every word of [split] holds at least one non-whitespace character. *)
Lemma split_chars_length (l cur : list ascii) :
  (length (split_chars cur l)
   <= (match cur with [] => 0 | _ => 1 end) + count_nonspace l)%nat.
Proof.
  revert cur. induction l as [|c l IH]; intros cur; simpl.
  - destruct cur; simpl; lia.
  - unfold count_nonspace. simpl. destruct (is_space c) eqn:Hc; simpl.
    + destruct cur; simpl.
      * specialize (IH []). simpl in IH. exact IH.
      * specialize (IH []). simpl in IH. unfold count_nonspace in IH. lia.
    + specialize (IH (c :: cur)). simpl in IH. unfold count_nonspace in IH. lia.
Qed.

Lemma words_le_stripped_length (s : string) :
  Z.of_nat (length (split s)) <= len (strip s).
Proof.
  unfold split, len, strip.
  rewrite length_map, length_string_of_list_ascii.
  apply Nat2Z.inj_le.
  pose proof (split_chars_length (list_ascii_of_string s) []) as H1.
  pose proof (count_nonspace_le_length (strip_chars (list_ascii_of_string s))) as H2.
  rewrite count_nonspace_strip in H2. simpl in H1. lia.
Qed.

Lemma strip_empty_len (s : string) : is_empty s = true -> len (strip s) = 0.
Proof. destruct s; [reflexivity | discriminate]. Qed.

End StringFacts.

(** ** Content validator *)

Section ValidatorFacts.

Import DocumentationValidator.

Lemma scan_sections_spec (content : string) (required : list string)
      (found : Z) (issues : list string) :
  scan_sections required content found issues
  = (found + Z.of_nat (length (List.filter (fun s => section_present content s) required)),
     issues ++ map (fun s => "Missing section: " +:+ s)
                   (List.filter (fun s => negb (section_present content s)) required)).
Proof.
  revert found issues.
  induction required as [|section rest IH]; intros found issues; simpl.
  - now rewrite Z.add_0_r, app_nil_r.
  - destruct (section_present content section); simpl.
    + rewrite IH. f_equal. lia.
    + rewrite IH. f_equal. now rewrite <- app_assoc.
Qed.

Lemma too_short_false (content : string) :
  100 <= PyStr.len (PyStr.strip content) -> too_short content = false.
Proof.
  intros H. unfold too_short.
  destruct (PyStr.is_empty content) eqn:He.
  - apply strip_empty_len in He. lia.
  - simpl. apply Z.ltb_ge. exact H.
Qed.

Lemma word_score_spec (content : string) (level : DocumentationLevel) :
  word_score_of (word_count content) (fst (expected_ranges level))
                (snd (expected_ranges level))
  = spec_word_score content level.
Proof. reflexivity. Qed.

Lemma validate_content_long (content : string) (level : DocumentationLevel) :
  too_short content = false ->
  validate_content content level
  = (Qle_bool 70
       ((inject_Z (Z.of_nat (length (sections_found content level)))
         / inject_Z (Z.of_nat (length (_get_required_sections level))) * 100
         + spec_word_score content level) / 2),
     ((inject_Z (Z.of_nat (length (sections_found content level)))
       / inject_Z (Z.of_nat (length (_get_required_sections level))) * 100
       + spec_word_score content level) / 2)%Q,
     map (fun s => "Missing section: " +:+ s) (sections_missing content level)).
Proof.
  intros Hs. unfold validate_content. rewrite Hs.
  rewrite scan_sections_spec. rewrite <- word_score_spec.
  destruct (expected_ranges level) as [lo hi]. reflexivity.
Qed.

Lemma all_present_found (content : string) (required : list string) :
  Forall (fun s => section_present content s = true) required ->
  List.filter (fun s => section_present content s) required = required
  /\ List.filter (fun s => negb (section_present content s)) required = [].
Proof.
  induction 1 as [|s l Hs _ [IH1 IH2]]; simpl; [split; reflexivity|].
  rewrite Hs. simpl. now rewrite IH1, IH2.
Qed.

End ValidatorFacts.

Section ValidatorClaims.

Import DocumentationValidator.

Lemma quality_score_spec_eq (content : string) (level : DocumentationLevel) :
  ((inject_Z (Z.of_nat (length (sections_found content level)))
    / inject_Z (Z.of_nat (length (_get_required_sections level))) * 100
    + spec_word_score content level) / 2
   == spec_quality_score content level)%Q.
Proof.
  unfold spec_quality_score, spec_section_score, Qdiv. ring.
Qed.

(** C5 (amended).  For content whose whitespace-stripped length is at least
    100, [validate_content] returns quality_score = (section_score +
    word_score) / 2 with section_score = 100 x found / required (headings
    found by case-insensitive containment) and word_score = 100 inside the
    level's word range, max(0, 100 - |words - min| / min x 50) outside it;
    is_valid is (quality_score >= 70) and issues lists the missing headings.
    In particular, content with all Simple-level headings and 1500 to 3000
    words is valid with score 100 and no issue. *)
Theorem validate_content_scoring :
  (forall content level,
      100 <= PyStr.len (PyStr.strip content) ->
      let r := validate_content content level in
      (quality_score_of r == spec_quality_score content level)%Q
      /\ is_valid_of r = Qle_bool 70 (spec_quality_score content level)
      /\ issues_of r
         = map (fun s => "Missing section: " +:+ s) (sections_missing content level))
  /\ (forall content,
         Forall (fun s => section_present content s = true)
                (_get_required_sections SIMPLE) ->
         1500 <= word_count content <= 3000 ->
         let r := validate_content content SIMPLE in
         is_valid_of r = true /\ (quality_score_of r == 100)%Q /\ issues_of r = []).
Proof.
  split.
  - intros content level Hlen r. subst r.
    rewrite (validate_content_long content level (too_short_false content Hlen)).
    unfold quality_score_of, is_valid_of, issues_of. simpl.
    split; [apply quality_score_spec_eq|]. split; [|reflexivity].
    now rewrite quality_score_spec_eq.
  - intros content Hall Hwc r. subst r.
    assert (Hlen : 100 <= PyStr.len (PyStr.strip content)).
    { pose proof (words_le_stripped_length content) as H.
      unfold word_count in Hwc. lia. }
    rewrite (validate_content_long content SIMPLE (too_short_false content Hlen)).
    unfold quality_score_of, is_valid_of, issues_of, sections_found, sections_missing.
    destruct (all_present_found content _ Hall) as [Hf Hm].
    rewrite Hf, Hm. simpl fst. simpl snd. simpl map.
    assert (Hw : spec_word_score content SIMPLE = 100%Q).
    { unfold spec_word_score. simpl fst. simpl snd.
      destruct Hwc as [H1 H2].
      apply Z.leb_le in H1. apply Z.leb_le in H2. now rewrite H1, H2. }
    rewrite Hw. split; [reflexivity|]. split; reflexivity.
Qed.

Lemma validate_content_scoring_witness :
  let r := validate_content sample_document SIMPLE in
  (quality_score_of r == spec_quality_score sample_document SIMPLE)%Q
  /\ is_valid_of r = true /\ (quality_score_of r == 100)%Q /\ issues_of r = [].
Proof.
  assert (Hlen : 100 <= PyStr.len (PyStr.strip sample_document))
    by (apply Z.leb_le; vm_compute; reflexivity).
  assert (Hall : Forall (fun s => section_present sample_document s = true)
                        (_get_required_sections SIMPLE))
    by (repeat constructor; vm_compute; reflexivity).
  assert (Hwc : 1500 <= word_count sample_document <= 3000)
    by (split; apply Z.leb_le; vm_compute; reflexivity).
  pose proof (proj1 validate_content_scoring sample_document SIMPLE Hlen) as H1.
  pose proof (proj2 validate_content_scoring sample_document Hall Hwc) as H2.
  cbv zeta in H1, H2. cbv zeta.
  exact (conj (proj1 H1) H2).
Defined.

End ValidatorClaims.

(** ** Running the model *)

Lemma update_processing_status_run f s p st err w :
  update_processing_status f s p st err w
  = (tt, write_status f s p st err w, [EStatus f s p st (truthy_error err)]).
Proof. reflexivity. Qed.

Lemma status_db_write_status f s p st err w :
  status_db (write_status f s p st err w) !! f
  = Some (status_record f s p st (clock w) err).
Proof. unfold write_status. simpl. apply lookup_insert_eq. Qed.

Lemma status_field_write_status f s p st err w k :
  status_field (write_status f s p st err w) f k
  = status_record f s p st (clock w) err !! k.
Proof. unfold status_field. now rewrite status_db_write_status. Qed.

Lemma documentation_db_write_status f s p st err w :
  documentation_db (write_status f s p st err w) = documentation_db w.
Proof. reflexivity. Qed.

Lemma transcription_files_write_status f s p st err w :
  transcription_files (write_status f s p st err w) = transcription_files w.
Proof. reflexivity. Qed.

Lemma llm_calls_write_status f s p st err w :
  llm_calls (write_status f s p st err w) = llm_calls w.
Proof. reflexivity. Qed.

Lemma uuid_calls_write_status f s p st err w :
  uuid_calls (write_status f s p st err w) = uuid_calls w.
Proof. reflexivity. Qed.

(** Unfold the monad and execute status writes. *)
Ltac run :=
  repeat (rewrite ?update_processing_status_run;
          cbv beta iota zeta delta
              [bind ret emit get_world put_world set_status_db set_documentation_db
               set_transcription_files datetime_now next_llm_call next_uuid_call
               result_of world_of events_of fst snd]);
  cbn [app];
  change (truthy_error None) with (@None string) in *.

Ltac split_match :=
  match goal with
  | |- context [match ?x with _ => _ end] =>
      lazymatch x with
      | context [match _ with _ => _ end] => fail
      | _ => destruct x eqn:?
      end
  end.

(** Fields of a stored status record. *)
Lemma status_record_fields f s p st t err :
  let r := status_record f s p st t err in
  r !! "file_id" = Some (VStr f)
  /\ r !! "status" = Some (VStr s)
  /\ r !! "progress" = Some (VInt p)
  /\ r !! "current_stage" = Some (VStr st)
  /\ r !! "updated_at" = Some (VTime t)
  /\ r !! "error" = VStr <$> truthy_error err
  /\ r !! "start_time" = None
  /\ r !! "update_time" = None.
Proof.
  unfold status_record, with_error.
  destruct (truthy_error err); simpl; repeat split; reflexivity.
Qed.

(** ** Agents: what a call does in each case *)

Lemma validate_file_run E f p w :
  FileUploadAgent_validate_file E f p w
  = match FileValidationTool_check E f p with
    | Valid a b c =>
        (Valid a b c, write_status f "processing" 20 "validation" None w,
         [EStage Validation; EStatus f "processing" 20 "validation" None;
          ECall CapValidator])
    | Invalid msg =>
        (Invalid msg,
         write_status f "failed" 0 "validation" (Some msg)
           (write_status f "processing" 20 "validation" None w),
         [EStage Validation; EStatus f "processing" 20 "validation" None;
          ECall CapValidator;
          EStatus f "failed" 0 "validation" (truthy_error (Some msg))])
    end.
Proof.
  unfold FileUploadAgent_validate_file, FileValidationTool_arun. run.
  destruct (FileValidationTool_check E f p); run; reflexivity.
Qed.

(** Messages of the validation tool are never empty. *)
Lemma validation_message_nonempty E f p msg :
  FileValidationTool_check E f p = Invalid msg -> PyStr.is_empty msg = false.
Proof.
  unfold FileValidationTool_check.
  repeat split_match; intros H; inversion H; reflexivity.
Qed.

Lemma process_file_success_run E f p w t m :
  result_of (MediaProcessingAgent_process_file E f p w) = TranscriptionSuccess t m ->
  MediaProcessingAgent_process_file E f p w
  = (TranscriptionSuccess t m, transcribed_world f w, transcription_events E f p).
Proof.
  unfold MediaProcessingAgent_process_file, process_audio, FFmpegTool_arun,
    AudioProcessingTool_arun, WhisperTool_arun, MediaProcessor_transcribe_audio,
    MediaProcessor_extract_audio_from_video, transcription_events, transcribed_world.
  run.
  repeat (split_match; run); simpl; intros H; inversion H; subst; reflexivity.
Qed.

Lemma process_file_failure_nonempty E f p w msg :
  result_of (MediaProcessingAgent_process_file E f p w) = TranscriptionFailure msg ->
  PyStr.is_empty msg = false.
Proof.
  unfold MediaProcessingAgent_process_file, process_audio, FFmpegTool_arun,
    AudioProcessingTool_arun, WhisperTool_arun, MediaProcessor_transcribe_audio,
    MediaProcessor_extract_audio_from_video.
  run.
  repeat (split_match; run); simpl; intros H; inversion H; subst; reflexivity.
Qed.

Lemma store_transcription_failure_nonempty E f t m w msg :
  result_of (VectorStorageAgent_store_transcription E f t m w) = StorageFailure msg ->
  PyStr.is_empty msg = false.
Proof.
  unfold VectorStorageAgent_store_transcription, LocalStorageService_store_transcription.
  run. repeat (split_match; run); simpl; intros H; inversion H; reflexivity.
Qed.

Lemma store_transcription_events E f t m w :
  events_of (VectorStorageAgent_store_transcription E f t m w)
  = [EStage Storage; EStatus f "processing" 60 "storage" None;
     ECall CapStoreTranscription;
     match result_of (VectorStorageAgent_store_transcription E f t m w) with
     | StorageSuccess _ _ => EStatus f "processing" 70 "vectorization" None
     | StorageFailure msg => EStatus f "failed" 0 "storage" (truthy_error (Some msg))
     end].
Proof.
  unfold VectorStorageAgent_store_transcription, LocalStorageService_store_transcription.
  run. repeat (split_match; run); reflexivity.
Qed.

Lemma generator_except_failure_nonempty f body w msg :
  result_of (generator_except f body w) = GenerationFailure msg ->
  PyStr.is_empty msg = false.
Proof.
  unfold generator_except. run.
  destruct (body w) as [[[g|e] w1] ev]; run; simpl.
  - destruct g as [[[a b] c] d]. discriminate.
  - intros H. inversion H. reflexivity.
Qed.

Lemma kind_generator_failure_nonempty E k f dl w msg :
  result_of (kind_generator E k f dl w) = GenerationFailure msg ->
  PyStr.is_empty msg = false.
Proof.
  unfold kind_generator. run.
  match goal with
  | |- context [generator_except ?a ?b ?c] =>
      pose proof (generator_except_failure_nonempty a b c msg) as Hn;
      destruct (generator_except a b c) as [[r w2] ev]
  end.
  simpl in *. exact Hn.
Qed.

Lemma agent_failure_nonempty E a f dl w msg :
  result_of (agent_generate_documentation E a f dl w) = GenerationFailure msg ->
  PyStr.is_empty msg = false.
Proof.
  destruct a; simpl.
  - unfold DocumentationAgent_generate_documentation. run.
    destruct (DocumentationGenerator_generate_documentation E f dl _) as [[[] w1] ev];
      run; simpl; intros H; inversion H; reflexivity.
  - unfold kind_agent_generate_documentation. run.
    match goal with
    | |- context [kind_generator ?a ?b ?c ?d ?e] =>
        pose proof (kind_generator_failure_nonempty a b c d e msg) as Hn;
        destruct (kind_generator a b c d e) as [[r w2] ev]
    end.
    destruct r; run; simpl in *; intros H; inversion H; subst; auto.
  - unfold kind_agent_generate_documentation. run.
    match goal with
    | |- context [kind_generator ?a ?b ?c ?d ?e] =>
        pose proof (kind_generator_failure_nonempty a b c d e msg) as Hn;
        destruct (kind_generator a b c d e) as [[r w2] ev]
    end.
    destruct r; run; simpl in *; intros H; inversion H; subst; auto.
Qed.

Lemma truthy_error_nonempty msg :
  PyStr.is_empty msg = false -> truthy_error (Some msg) = Some msg.
Proof. intros H. unfold truthy_error. now rewrite H. Qed.

Lemma failed_record f p st msg w :
  PyStr.is_empty msg = false ->
  let w' := write_status f "failed" p st (Some msg) w in
  status_field w' f "status" = Some (VStr "failed")
  /\ status_field w' f "progress" = Some (VInt p)
  /\ status_field w' f "current_stage" = Some (VStr st)
  /\ status_field w' f "error" = Some (VStr msg).
Proof.
  intros Hne. cbv zeta. rewrite !status_field_write_status.
  destruct (status_record_fields f "failed" p st (clock w) (Some msg))
    as (_ & H1 & H2 & H3 & _ & H5 & _).
  rewrite (truthy_error_nonempty _ Hne) in H5. auto.
Qed.

(** The exits of [process_media_file] and the record left in each case. *)
Lemma process_media_file_exit E f p dt dl w :
  let run := process_media_file E f p dt dl w in
  match result_of run with
  | Completed =>
      exists w', world_of run = write_status f "completed" 100 "completed" None w'
  | FailedAt X msg =>
      PyStr.is_empty msg = false
      /\ exists w',
          world_of run = write_status f "failed" (entry_progress X) (stage_name X)
                                      (Some msg) w'
  | Crashed msg =>
      select_documentation_agent dt = Raised msg
      /\ world_of run = write_status f "failed" 0 "error" (Some msg) w
  end.
Proof.
  unfold process_media_file.
  destruct (select_documentation_agent dt) as [a|e] eqn:Ha; run.
  2:{ auto. }
  rewrite validate_file_run.
  destruct (FileValidationTool_check E f p) as [x y z|msg] eqn:Hv; run.
  2:{ split; [eapply validation_message_nonempty; eauto | eauto]. }
  destruct (MediaProcessingAgent_process_file E f p _) as [[[t m|msg] w1] ev1] eqn:Hp; run.
  2:{ split; [|eauto].
      eapply process_file_failure_nonempty. unfold result_of. rewrite Hp. reflexivity. }
  destruct (VectorStorageAgent_store_transcription E f t m _) as [[[x1 x2|msg] w2] ev2] eqn:Hs;
    run.
  2:{ split; [|eauto].
      eapply store_transcription_failure_nonempty. unfold result_of. rewrite Hs. reflexivity. }
  unfold LocalStorageService_retrieve_transcription. run.
  destruct (transcription_files _ !! f); run.
  2:{ split; [reflexivity | eauto]. }
  destruct (agent_generate_documentation E a f dl _) as [[[g1 g2 g3 g4|msg] w3] ev3] eqn:Hg;
    run.
  - eauto.
  - split; [|eauto].
    eapply agent_failure_nonempty. unfold result_of. rewrite Hg. reflexivity.
Qed.

Lemma process_media_file_past_transcription E f p dt dl w :
  let run := process_media_file E f p dt dl w in
  past_transcription (result_of run) = true ->
  exists post,
    events_of run
    = validation_events f ++ transcription_events E f p
        ++ EStatus f "processing" 50 "vector_storage" None :: EStage Storage :: post.
Proof.
  unfold process_media_file.
  destruct (select_documentation_agent dt) as [a|e] eqn:Ha; run; [|discriminate].
  rewrite validate_file_run.
  destruct (FileValidationTool_check E f p) as [x y z|msg] eqn:Hv; run; [|discriminate].
  match goal with
  | |- context [MediaProcessingAgent_process_file ?a ?b ?c ?d] =>
      pose proof (process_file_success_run a b c d) as Hrun;
      destruct (MediaProcessingAgent_process_file a b c d) as [[[t m|msg] w1] ev1]
  end; run; [|discriminate].
  specialize (Hrun t m eq_refl). inversion Hrun; subst.
  match goal with
  | |- context [VectorStorageAgent_store_transcription ?a ?b ?c ?d ?e] =>
      pose proof (store_transcription_events a b c d e) as Hev;
      destruct (VectorStorageAgent_store_transcription a b c d e) as [[r w2] ev2]
  end.
  unfold events_of, result_of in Hev. simpl in Hev. subst ev2.
  intros _. unfold validation_events.
  unfold LocalStorageService_retrieve_transcription.
  destruct r; run; repeat (split_match; run); eexists; reflexivity.
Qed.

(** ** Status ledger *)

(** C2.  The definition of [update_processing_status] in effect stores a
    fresh record without [start_time] on every call, the first one included:
    the record never holds the creation time the specification asks for. *)
Theorem update_processing_status_has_no_start_time
        (f s : string) (p : Z) (st : string) (err : option string) (w : world) :
  let w' := world_of (update_processing_status f s p st err w) in
  status_field w' f "file_id" = Some (VStr f)
  /\ status_field w' f "progress" = Some (VInt p)
  /\ status_field w' f "start_time" = None.
Proof.
  cbv zeta. rewrite update_processing_status_run. unfold world_of. simpl fst. simpl snd.
  rewrite !status_field_write_status.
  destruct (status_record_fields f s p st (clock w) err) as (H0 & _ & H2 & _ & _ & _ & H6 & _).
  auto.
Qed.

Lemma with_error_start_time err (d : gmap string value) :
  with_error err d !! "start_time" = d !! "start_time".
Proof.
  unfold with_error. destruct (truthy_error err); [|reflexivity].
  now rewrite lookup_insert_ne.
Qed.

Lemma first_definition_world f s p st err w :
  exists r,
    status_db (world_of (FirstDefinition.update_processing_status f s p st err w)) !! f
    = Some r
    /\ r !! "start_time"
       = match default ∅ (status_db w !! f) !! "start_time" with
         | Some v => Some v
         | None => Some (VTime (S (clock w)))
         end.
Proof.
  unfold FirstDefinition.update_processing_status. run.
  set (d := default ∅ (status_db w !! f)).
  match goal with
  | |- context [with_error err ?x] => set (d1 := with_error err x)
  end.
  assert (Hd1 : d1 !! "start_time" = d !! "start_time").
  { subst d1. rewrite with_error_start_time.
    now rewrite !lookup_insert_ne by discriminate. }
  destruct (d1 !! "start_time") as [v|] eqn:Hs; run; cbn [status_db].
  - eexists. split; [apply lookup_insert_eq|]. now rewrite Hs, <- Hd1.
  - eexists. split; [apply lookup_insert_eq|].
    rewrite lookup_insert_eq. now rewrite <- Hd1.
Qed.

(** The first definition, which the second one replaces, does what C2 says:
    the first write sets [start_time] and later writes keep it. *)
Lemma first_definition_keeps_start_time f s p st err w :
  let w' := world_of (FirstDefinition.update_processing_status f s p st err w) in
  (status_db w !! f = None ->
   status_field w' f "start_time" = Some (VTime (S (clock w))))
  /\ (forall v, status_field w f "start_time" = Some v ->
                status_field w' f "start_time" = Some v).
Proof.
  destruct (first_definition_world f s p st err w) as (r & Hr & Hs).
  cbv zeta. unfold status_field. rewrite Hr. split.
  - intros Hn. rewrite Hn in Hs. exact Hs.
  - intros v. destruct (status_db w !! f) as [r0|]; [|discriminate].
    intros Hv. simpl in Hs. now rewrite Hv in Hs.
Qed.

(** ** Progress within a run *)

Lemma progress_values_app f l1 l2 :
  progress_values f (l1 ++ l2) = progress_values f l1 ++ progress_values f l2.
Proof.
  induction l1 as [|e l1 IH]; [reflexivity|].
  destruct e; simpl; rewrite ?IH; try reflexivity.
  destruct (String.eqb _ _); simpl; now rewrite ?IH.
Qed.

Lemma progress_values_status f s p st err l :
  progress_values f (EStatus f s p st err :: l) = p :: progress_values f l.
Proof. simpl. now rewrite String.eqb_refl. Qed.

Lemma progress_values_validation f :
  progress_values f (validation_events f) = [10; 20; 25].
Proof.
  unfold validation_events. simpl. now rewrite !String.eqb_refl.
Qed.

Lemma progress_values_transcription E f p :
  progress_values f (transcription_events E f p) = [25; 40; 50; 60].
Proof.
  unfold transcription_events.
  destruct (is_video_file E p); simpl; now rewrite !String.eqb_refl.
Qed.

(** C1.  In every run of [process_media_file] that completes, the progress
    values written for the file begin 10, 20, 25, 25, 40, 50, 60, 50: the
    orchestrator writes 50 on entering storage after the transcription agent
    wrote 60, so the sequence is not non-decreasing up to 100. *)
Theorem completed_run_progress_drops
        (E : env) (f p dt dl : string) (w : world) :
  result_of (process_media_file E f p dt dl w) = Completed ->
  (exists rest,
      progress_values f (events_of (process_media_file E f p dt dl w))
      = [10; 20; 25; 25; 40; 50; 60; 50] ++ rest)
  /\ non_decreasing_until_100
       (progress_values f (events_of (process_media_file E f p dt dl w))) = false.
Proof.
  intros Hc.
  destruct (process_media_file_past_transcription E f p dt dl w) as [post Hev].
  { cbv zeta. rewrite Hc. reflexivity. }
  cbv zeta in Hev. rewrite Hev.
  rewrite !progress_values_app, progress_values_validation,
    progress_values_transcription, progress_values_status.
  cbn [app]. split; [eexists; reflexivity | reflexivity].
Qed.

Lemma completed_run_progress_drops_witness :
  result_of (process_media_file good_env "f1" "uploads/f1.mp3" "BRD" "Simple" empty_world)
  = Completed
  /\ non_decreasing_until_100
       (progress_values "f1"
          (events_of (process_media_file good_env "f1" "uploads/f1.mp3" "BRD" "Simple"
                                         empty_world))) = false.
Proof.
  assert (H : result_of (process_media_file good_env "f1" "uploads/f1.mp3" "BRD" "Simple"
                                            empty_world) = Completed)
    by (vm_compute; reflexivity).
  split; [exact H|].
  exact (proj2 (completed_run_progress_drops good_env "f1" "uploads/f1.mp3" "BRD" "Simple"
                                             empty_world H)).
Defined.

(** The synchronous path of the same file writes a non-decreasing
    sequence: the drop comes from the orchestrator's own constant. *)
Example good_upload_progress :
  progress_values "f1" (events_of (upload_file good_env "meeting.mp3" BRD "Simple" empty_world))
  = [10; 20; 25; 40; 50; 60; 60; 70; 75; 80; 100]
  /\ non_decreasing_until_100
       (progress_values "f1"
          (events_of (upload_file good_env "meeting.mp3" BRD "Simple" empty_world))) = true.
Proof. split; vm_compute; reflexivity. Qed.

(** The whole sequence of one successful run. *)
Example good_run_progress :
  progress_values "f1"
    (events_of (process_media_file good_env "f1" "uploads/f1.mp3" "BRD" "Simple"
                                   empty_world))
  = [10; 20; 25; 25; 40; 50; 60; 50; 60; 70; 75; 75; 80; 100; 100].
Proof. vm_compute. reflexivity. Qed.

(** ** Short circuit on validation failure *)

Lemma process_media_file_invalid E f p dt dl w a msg :
  select_documentation_agent dt = Returned a ->
  FileValidationTool_check E f p = Invalid msg ->
  process_media_file E f p dt dl w
  = (FailedAt Validation msg,
     write_status f "failed" 10 "validation" (Some msg)
       (write_status f "failed" 0 "validation" (Some msg)
          (write_status f "processing" 20 "validation" None
             (write_status f "processing" 10 "validation" None w))),
     [EStatus f "processing" 10 "validation" None;
      EStage Validation;
      EStatus f "processing" 20 "validation" None;
      ECall CapValidator;
      EStatus f "failed" 0 "validation" (truthy_error (Some msg));
      EStatus f "failed" 10 "validation" (truthy_error (Some msg))]).
Proof.
  intros Ha Hv. unfold process_media_file. rewrite Ha. run.
  rewrite validate_file_run, Hv. run. reflexivity.
Qed.

Lemma upload_file_invalid E file doc_type dl w fid path name size msg :
  save_uploaded_file E file = SaveSuccess fid path name size ->
  FileValidationTool_check E fid path = Invalid msg ->
  upload_file E file doc_type dl w
  = (UploadFailure "validation" msg,
     write_status fid "failed" 0 "validation" (Some msg)
       (write_status fid "processing" 20 "validation" None
          (write_status fid "uploaded" 10 "upload" None w)),
     [EStatus fid "uploaded" 10 "upload" None;
      EStage Validation;
      EStatus fid "processing" 20 "validation" None;
      ECall CapValidator;
      EStatus fid "failed" 0 "validation" (truthy_error (Some msg))]).
Proof.
  intros Hs Hv. unfold upload_file, FileUploadAgent_save_file. rewrite Hs. run.
  rewrite validate_file_run, Hv. run. reflexivity.
Qed.

(** C8.  When the validation of the file fails, [process_media_file] stops:
    it returns after recording status failed at progress 10, stage
    "validation", with the validator's message; validation is the only stage
    entered and the validator the only capability called.  The synchronous
    [upload_file] stops in the same way and leaves a failed record for the
    validation stage. *)
Theorem validation_failure_stops_run
        (E : env) (f p dt dl : string) (w : world)
        (a : documentation_agent) (msg : string) :
  select_documentation_agent dt = Returned a ->
  FileValidationTool_check E f p = Invalid msg ->
  (let run := process_media_file E f p dt dl w in
   result_of run = FailedAt Validation msg
   /\ stages_entered (events_of run) = [Validation]
   /\ (forall c, c <> CapValidator -> calls_of c (events_of run) = 0%nat)
   /\ status_field (world_of run) f "status" = Some (VStr "failed")
   /\ status_field (world_of run) f "progress" = Some (VInt 10)
   /\ status_field (world_of run) f "current_stage" = Some (VStr "validation")
   /\ status_field (world_of run) f "error" = Some (VStr msg))
  /\ (forall file doc_type name size,
         save_uploaded_file E file = SaveSuccess f p name size ->
         let run := upload_file E file doc_type dl w in
         result_of run = UploadFailure "validation" msg
         /\ stages_entered (events_of run) = [Validation]
         /\ (forall c, c <> CapValidator -> calls_of c (events_of run) = 0%nat)
         /\ status_field (world_of run) f "status" = Some (VStr "failed")
         /\ status_field (world_of run) f "current_stage" = Some (VStr "validation")
         /\ status_field (world_of run) f "error" = Some (VStr msg)).
Proof.
  intros Ha Hv.
  pose proof (validation_message_nonempty E f p msg Hv) as Hne.
  split.
  - cbv zeta. rewrite (process_media_file_invalid E f p dt dl w a msg Ha Hv).
    unfold result_of, events_of, world_of. cbn [fst snd].
    split; [reflexivity|]. split; [reflexivity|]. split.
    + intros c Hc. destruct c; try reflexivity. congruence.
    + apply failed_record. exact Hne.
  - intros file doc_type name size Hs. cbv zeta.
    rewrite (upload_file_invalid E file doc_type dl w f p name size msg Hs Hv).
    unfold result_of, events_of, world_of. cbn [fst snd].
    split; [reflexivity|]. split; [reflexivity|]. split.
    + intros c Hc. destruct c; try reflexivity. congruence.
    + destruct (failed_record f 0 "validation" msg
                  (write_status f "processing" 20 "validation" None
                     (write_status f "uploaded" 10 "upload" None w)) Hne)
        as (H1 & _ & H4 & H5).
      auto.
Qed.

Lemma validation_failure_stops_run_witness :
  let run :=
    process_media_file bad_file_env "f1" "uploads/f1.txt" "BRD" "Simple" empty_world in
  result_of run = FailedAt Validation "Invalid file type"
  /\ stages_entered (events_of run) = [Validation]
  /\ status_field (world_of run) "f1" "progress" = Some (VInt 10).
Proof.
  destruct (validation_failure_stops_run bad_file_env "f1" "uploads/f1.txt" "BRD" "Simple"
              empty_world AgentBRD "Invalid file type" eq_refl eq_refl)
    as [(H1 & H2 & _ & _ & H5 & _) _].
  exact (conj H1 (conj H2 H5)).
Defined.

(** ** The record written when transcription completes *)

Lemma stages_entered_app l1 l2 :
  stages_entered (l1 ++ l2) = stages_entered l1 ++ stages_entered l2.
Proof. unfold stages_entered. apply omap_app. Qed.

Lemma transcription_events_split E f p :
  exists pre,
    transcription_events E f p
    = pre ++ [EStatus f "completed" 60 "transcription_completed" None]
    /\ stages_entered pre = [Transcription].
Proof.
  unfold transcription_events. destruct (is_video_file E p); cbn [app].
  - eexists [_; _; _; _; _; _; _]. split; reflexivity.
  - eexists [_; _; _; _; _; _]. split; reflexivity.
Qed.

Lemma get_documentation_same_db f w1 w2 :
  documentation_db w1 = documentation_db w2 ->
  result_of (get_documentation f w1) = result_of (get_documentation f w2).
Proof.
  intros H. unfold get_documentation. run. rewrite H.
  repeat (split_match; run); reflexivity.
Qed.

(** C9.  Whenever the transcription stage succeeds, [process_file] leaves
    the record status "completed", progress 60, stage
    "transcription_completed" and does not touch the documentation database;
    in [process_media_file] that record is written before the storage stage
    (and so the generation stage) is entered.  A reader of the status at that
    point sees "completed" although progress is 60 and no document has been
    generated by the run. *)
Theorem transcription_completed_recorded_early :
  (forall E f p w t m,
      result_of (MediaProcessingAgent_process_file E f p w) = TranscriptionSuccess t m ->
      let w' := world_of (MediaProcessingAgent_process_file E f p w) in
      status_field w' f "status" = Some (VStr "completed")
      /\ status_field w' f "progress" = Some (VInt 60)
      /\ status_field w' f "current_stage" = Some (VStr "transcription_completed")
      /\ documentation_db w' = documentation_db w
      /\ result_of (get_documentation f w') = result_of (get_documentation f w))
  /\ (forall E f p dt dl w,
         past_transcription (result_of (process_media_file E f p dt dl w)) = true ->
         exists pre post,
           events_of (process_media_file E f p dt dl w)
           = pre ++ EStatus f "completed" 60 "transcription_completed" None
                 :: EStatus f "processing" 50 "vector_storage" None
                 :: EStage Storage :: post
           /\ stages_entered pre = [Validation; Transcription]).
Proof.
  split.
  - intros E f p w t m Hs. cbv zeta.
    rewrite (process_file_success_run E f p w t m Hs).
    unfold world_of, result_of. cbn [fst snd].
    unfold transcribed_world at 1 2 3. rewrite !status_field_write_status.
    match goal with
    | |- context [status_record ?a ?b ?c ?d ?e ?g] =>
        destruct (status_record_fields a b c d e g) as (_ & H1 & H2 & H3 & _)
    end.
    repeat (split; [assumption|]). split; [reflexivity|].
    apply get_documentation_same_db. reflexivity.
  - intros E f p dt dl w Hp.
    destruct (process_media_file_past_transcription E f p dt dl w Hp) as [post Hev].
    cbv zeta in Hev.
    destruct (transcription_events_split E f p) as (pre & Hpre & Hst).
    exists (validation_events f ++ pre), post. split.
    + rewrite Hev, Hpre. now rewrite <- !app_assoc.
    + rewrite stages_entered_app, Hst. reflexivity.
Qed.

Lemma transcription_completed_recorded_early_witness :
  let w' := world_of (MediaProcessingAgent_process_file good_env "f1" "uploads/f1.mp3"
                                                        empty_world) in
  status_field w' "f1" "status" = Some (VStr "completed")
  /\ status_field w' "f1" "progress" = Some (VInt 60)
  /\ result_of (get_documentation "f1" w') = Returned None.
Proof.
  destruct (proj1 transcription_completed_recorded_early good_env "f1" "uploads/f1.mp3"
              empty_world sample_transcription
              (TranscriptionMetadata 12 (Some "en") (Some "mp3") None) eq_refl)
    as (H1 & H2 & _ & _ & H5).
  split; [exact H1|]. split; [exact H2|]. rewrite H5. reflexivity.
Defined.

(** ** The record of a failed run *)

Lemma unsupported_message_nonempty dt msg :
  select_documentation_agent dt = Raised msg -> PyStr.is_empty msg = false.
Proof.
  unfold select_documentation_agent.
  repeat split_match; intros H; inversion H; reflexivity.
Qed.

Lemma upload_file_generation_failure E file dl w msg :
  result_of (upload_file E file BRD dl w) = UploadFailure "documentation" msg ->
  PyStr.is_empty msg = false
  /\ exists f p name size w',
      save_uploaded_file E file = SaveSuccess f p name size
      /\ world_of (upload_file E file BRD dl w)
         = write_status f "failed" 0 "documentation" (Some msg) w'.
Proof.
  unfold upload_file, FileUploadAgent_save_file.
  destruct (save_uploaded_file E file) as [f p name size|m] eqn:Hs; run; [|discriminate].
  rewrite validate_file_run.
  destruct (FileValidationTool_check E f p) as [x y z|m]; run; [|discriminate].
  destruct (MediaProcessingAgent_process_file E f p _) as [[[t m|m] w1] ev1]; run;
    [|discriminate].
  destruct (VectorStorageAgent_store_transcription E f t m _) as [[[x1 x2|m0] w2] ev2]; run;
    [|discriminate].
  cbn [agent_generate_documentation agent_of_DocumentType].
  unfold DocumentationAgent_generate_documentation. run.
  destruct (DocumentationGenerator_generate_documentation E f dl _) as [[[g1 g2 g3 g4|m0] w3] ev3];
    run; [discriminate|].
  intros Hr. inversion Hr; subst. split; [reflexivity|].
  exists f, p, name, size. eexists. split; reflexivity.
Qed.

(** C4 (amended).  In [process_media_file], a run that returns after stage X
    reported a failure leaves status "failed", the stage's non-empty message
    as error and the orchestrator's entry progress of X (10, 25, 50, 75); a
    run that ends in the [except] handler leaves progress 0 and stage
    "error".  In the synchronous [upload_file], which writes no status of its
    own, the record of the failing agent stays: status "failed" with
    progress 0 when the BRD generation fails and when validation fails. *)
Theorem failed_run_record :
  (forall E f p dt dl w,
      let run := process_media_file E f p dt dl w in
      (forall X msg,
          result_of run = FailedAt X msg ->
          msg <> ""
          /\ status_field (world_of run) f "status" = Some (VStr "failed")
          /\ status_field (world_of run) f "progress" = Some (VInt (entry_progress X))
          /\ status_field (world_of run) f "current_stage" = Some (VStr (stage_name X))
          /\ status_field (world_of run) f "error" = Some (VStr msg))
      /\ (forall msg,
             result_of run = Crashed msg ->
             status_field (world_of run) f "status" = Some (VStr "failed")
             /\ status_field (world_of run) f "progress" = Some (VInt 0)
             /\ status_field (world_of run) f "current_stage" = Some (VStr "error")
             /\ status_field (world_of run) f "error" = Some (VStr msg)))
  /\ (forall E file dl w f p name size msg,
         save_uploaded_file E file = SaveSuccess f p name size ->
         let run := upload_file E file BRD dl w in
         result_of run = UploadFailure "documentation" msg ->
         status_field (world_of run) f "status" = Some (VStr "failed")
         /\ status_field (world_of run) f "progress" = Some (VInt 0)
         /\ status_field (world_of run) f "current_stage" = Some (VStr "documentation")
         /\ status_field (world_of run) f "error" = Some (VStr msg))
  /\ (forall E file doc_type dl w f p name size msg,
         save_uploaded_file E file = SaveSuccess f p name size ->
         FileValidationTool_check E f p = Invalid msg ->
         let run := upload_file E file doc_type dl w in
         result_of run = UploadFailure "validation" msg
         /\ status_field (world_of run) f "status" = Some (VStr "failed")
         /\ status_field (world_of run) f "progress" = Some (VInt 0)
         /\ status_field (world_of run) f "current_stage" = Some (VStr "validation")
         /\ status_field (world_of run) f "error" = Some (VStr msg)).
Proof.
  split; [|split].
  - intros E f p dt dl w run.
    pose proof (process_media_file_exit E f p dt dl w) as Hx. cbv zeta in Hx.
    subst run. split.
    + intros X msg Hr. rewrite Hr in Hx. destruct Hx as (Hne & w' & Hw).
      split; [intros ->; discriminate|].
      rewrite Hw. apply failed_record. exact Hne.
    + intros msg Hr. rewrite Hr in Hx. destruct Hx as (Hsel & Hw).
      rewrite Hw. apply failed_record.
      eapply unsupported_message_nonempty. exact Hsel.
  - intros E file dl w f p name size msg Hs. cbv zeta. intros Hr.
    destruct (upload_file_generation_failure E file dl w msg Hr)
      as (Hne & f' & p' & name' & size' & w' & Hs' & Hw).
    rewrite Hs in Hs'. inversion Hs'; subst.
    rewrite Hw. apply failed_record. exact Hne.
  - intros E file doc_type dl w f p name size msg Hs Hv. cbv zeta.
    rewrite (upload_file_invalid E file doc_type dl w f p name size msg Hs Hv).
    unfold result_of, world_of. cbn [fst snd]. split; [reflexivity|].
    apply failed_record. eapply validation_message_nonempty. exact Hv.
Qed.

Lemma failed_run_record_witness :
  let run :=
    process_media_file bad_file_env "f1" "uploads/f1.txt" "BRD" "Simple" empty_world in
  status_field (world_of run) "f1" "status" = Some (VStr "failed")
  /\ status_field (world_of run) "f1" "progress" = Some (VInt 10)
  /\ status_field (world_of run) "f1" "error" = Some (VStr "Invalid file type").
Proof.
  destruct (proj1 (proj1 failed_run_record bad_file_env "f1" "uploads/f1.txt" "BRD"
                         "Simple" empty_world)
                  Validation "Invalid file type" eq_refl)
    as (_ & H1 & H2 & _ & H5).
  auto.
Defined.

(** C4 as stated fails: a run of [upload_file] that fails during generation
    (the provider fails on every call) leaves status "failed" with progress
    0, not the entry constant 75 of the generation stage; and a run of
    [process_media_file] that ends in the [except] handler leaves progress
    0, the entry constant of no stage. *)
Lemma failed_run_progress_counterexample :
  (let run := upload_file failing_provider_env "meeting.mp3" BRD "Simple" empty_world in
   result_of run
   = UploadFailure "documentation"
       "Error in generate_documentation: Error generating documentation: provider error II"
   /\ status_field (world_of run) "f1" "status" = Some (VStr "failed")
   /\ status_field (world_of run) "f1" "progress" = Some (VInt 0)
   /\ status_field (world_of run) "f1" "progress"
      <> Some (VInt (entry_progress Generation)))
  /\ (let run :=
        process_media_file good_env "f1" "uploads/f1.mp3" "PDF" "Simple" empty_world in
      result_of run = Crashed "Unsupported document type: PDF"
      /\ status_field (world_of run) "f1" "status" = Some (VStr "failed")
      /\ status_field (world_of run) "f1" "progress" = Some (VInt 0)
      /\ forall X,
          status_field (world_of run) "f1" "progress" <> Some (VInt (entry_progress X))).
Proof.
  split; cbv zeta.
  - repeat (split; [vm_compute; reflexivity|]). vm_compute. discriminate.
  - repeat (split; [vm_compute; reflexivity|]).
    intros X. destruct X; vm_compute; discriminate.
Qed.

(** ** Generation: retries *)

Ltac run_all :=
  repeat (run;
          cbn [llm_calls uuid_calls documentation_db transcription_files clock
               Nat.eqb Nat.sub max_retries];
          change (80 + Z.of_nat 0 * 5) with 80;
          change (80 + Z.of_nat 1 * 5) with 85;
          change (80 + Z.of_nat 2 * 5) with 90;
          rewrite ?llm_calls_write_status, ?uuid_calls_write_status,
            ?documentation_db_write_status, ?transcription_files_write_status).

Lemma calls_of_app c l1 l2 :
  calls_of c (l1 ++ l2) = (calls_of c l1 + calls_of c l2)%nat.
Proof. unfold calls_of. now rewrite List.filter_app, length_app. Qed.

Lemma generate_content_exhausted E t level f w :
  provider_always_fails E ->
  exists e w',
    llm_generate_response E (llm_calls w + 2) level t = Raised e
    /\ _generate_content_with_retry E t level f w
       = (Raised e, w',
          [EStatus f "processing" 80 "documentation" None; ECall CapGenerator;
           EStatus f "processing" 85 "documentation" None; ECall CapGenerator;
           EStatus f "processing" 90 "documentation" None; ECall CapGenerator])
    /\ documentation_db w' = documentation_db w.
Proof.
  intros Hf.
  destruct (Hf (llm_calls w) level t) as [e0 H0].
  destruct (Hf (S (llm_calls w)) level t) as [e1 H1].
  destruct (Hf (S (S (llm_calls w))) level t) as [e2 H2].
  exists e2. eexists. split; [|split].
  - replace (llm_calls w + 2)%nat with (S (S (llm_calls w))) by lia. exact H2.
  - unfold _generate_content_with_retry, max_retries. cbn [generate_content_attempts].
    unfold LLMService_generate_response. run_all.
    rewrite H0. run_all. rewrite H1. run_all. rewrite H2. run_all.
    reflexivity.
  - reflexivity.
Qed.

Lemma get_transcription_found f w td :
  transcription_files w !! f = Some td ->
  _get_transcription_with_retry f w = (Returned (Some td), w, []).
Proof.
  intros H. unfold _get_transcription_with_retry, max_retries.
  cbn [get_transcription_attempts].
  unfold LocalStorageService_retrieve_transcription. run. rewrite H. run. reflexivity.
Qed.

(** C6.  For a file whose transcription is stored and long enough, a
    generation request against a provider that fails on every call invokes
    the provider exactly [max_retries] = 3 times and returns a failure whose
    message ends with the text of the third call's exception; the same
    message is recorded as the error of the failed status. *)
Theorem generation_retry_exhaustion
        (E : env) (f dl : string) (w : world) (td : transcription_data) :
  transcription_files w !! f = Some td ->
  _validate_transcription (transcription td) = Returned tt ->
  provider_always_fails E ->
  let run := DocumentationAgent_generate_documentation E f dl w in
  calls_of CapGenerator (events_of run) = max_retries
  /\ max_retries = 3%nat
  /\ exists e,
      llm_generate_response E (llm_calls w + 2) (convert_doc_level dl) (transcription td)
      = Raised e
      /\ result_of run
         = GenerationFailure
             ("Error in generate_documentation: Error generating documentation: " +:+ e)
      /\ status_field (world_of run) f "status" = Some (VStr "failed")
      /\ status_field (world_of run) f "error"
         = Some (VStr ("Error in generate_documentation: Error generating documentation: "
                         +:+ e)).
Proof.
  intros Htd Hval Hf. cbv zeta.
  unfold DocumentationAgent_generate_documentation,
    DocumentationGenerator_generate_documentation, generator_except,
    DocumentationGenerator_try_block.
  run_all.
  rewrite (get_transcription_found f _ td) by (run_all; exact Htd).
  run_all. rewrite Hval.
  match goal with
  | |- context [_generate_content_with_retry E ?t ?l ?f0 ?w0] =>
      destruct (generate_content_exhausted E t l f0 w0 Hf) as (e & w' & He & Hrun & _)
  end.
  rewrite Hrun. run_all.
  split; [reflexivity|]. split; [reflexivity|].
  exists e. split; [exact He|]. split; [reflexivity|].
  destruct (failed_record f 0 "documentation"
              ("Error in generate_documentation: Error generating documentation: " +:+ e)
              (write_status f "failed" 0 "documentation"
                 (Some ("Error generating documentation: " +:+ e)) w') eq_refl)
    as (H2 & _ & _ & H5).
  auto.
Qed.

Lemma generation_retry_exhaustion_witness :
  let w := world_of (LocalStorageService_store_transcription failing_provider_env "f1"
                       sample_transcription
                       (TranscriptionMetadata 12 (Some "en") (Some "mp3") None)
                       empty_world) in
  let run := DocumentationAgent_generate_documentation failing_provider_env "f1" "Simple" w in
  calls_of CapGenerator (events_of run) = 3%nat
  /\ result_of run
     = GenerationFailure
         "Error in generate_documentation: Error generating documentation: provider error II".
Proof.
  cbv zeta.
  destruct (generation_retry_exhaustion failing_provider_env "f1" "Simple"
              (world_of (LocalStorageService_store_transcription failing_provider_env "f1"
                           sample_transcription
                           (TranscriptionMetadata 12 (Some "en") (Some "mp3") None)
                           empty_world))
              (TranscriptionData sample_transcription
                 (TranscriptionMetadata 12 (Some "en") (Some "mp3") (Some 1))))
    as (H1 & _ & e & He & H2 & _).
  - vm_compute. reflexivity.
  - vm_compute. reflexivity.
  - intros n level t. eexists. reflexivity.
  - split; [exact H1|]. rewrite H2. f_equal. f_equal.
    vm_compute in He. now inversion He.
Defined.

(** ** Documentation records *)

Lemma store_documentation_run d w :
  store_documentation d w = (tt, stored_world d w, []).
Proof. reflexivity. Qed.

Lemma get_documentation_stored d w u :
  documentation_id d = "doc_" +:+ u ->
  result_of (get_documentation (file_id d) (stored_world d w))
  = Returned (Some (EntryDocumentation d)).
Proof.
  intros Hid. unfold get_documentation. run. cbn [documentation_db stored_world].
  rewrite lookup_insert_eq. rewrite Hid. cbn [PyStr.is_empty String.append]. run.
  rewrite lookup_insert_ne by discriminate.
  rewrite lookup_insert_eq. reflexivity.
Qed.

Lemma try_block_success E f dl w g :
  result_of (DocumentationGenerator_try_block E f dl w) = Returned g ->
  exists d w0,
    world_of (DocumentationGenerator_try_block E f dl w)
    = write_status f "completed" 100 "documentation" None (stored_world d w0)
    /\ documentation_id d = fst (fst (fst g))
    /\ file_id d = f
    /\ documentation_level d = level_value (convert_doc_level dl)
    /\ (exists u, documentation_id d = "doc_" +:+ u).
Proof.
  unfold DocumentationGenerator_try_block, _save_documentation.
  run_all.
  repeat (split_match; run_all; rewrite ?store_documentation_run; run_all);
    intros Hr; inversion Hr; subst;
    (eexists; eexists; split; [reflexivity|];
     cbn [documentation_id file_id documentation_level fst];
     repeat split; eauto).
Qed.

Lemma agent_success_world E f dl w id path pdf q :
  result_of (DocumentationAgent_generate_documentation E f dl w)
  = GenerationSuccess id path pdf q ->
  exists d w0,
    world_of (DocumentationAgent_generate_documentation E f dl w)
    = write_status f "completed" 100 "documentation" None (stored_world d w0)
    /\ documentation_id d = id
    /\ file_id d = f
    /\ documentation_level d = level_value (convert_doc_level dl)
    /\ (exists u, documentation_id d = "doc_" +:+ u).
Proof.
  unfold DocumentationAgent_generate_documentation,
    DocumentationGenerator_generate_documentation, generator_except.
  run_all.
  match goal with
  | |- context [DocumentationGenerator_try_block ?a ?b ?c ?d] =>
      pose proof (try_block_success a b c d) as Ht;
      destruct (DocumentationGenerator_try_block a b c d) as [[[g|e] w1] ev]
  end; run_all; [|discriminate].
  destruct g as [[[gid gpath] gpdf] gq].
  destruct (Ht _ eq_refl) as (d & w0 & Hw & Hid & Hf & Hl & Hu).
  unfold world_of, result_of in *. cbn [fst snd success_result] in *.
  intros Hr. inversion Hr; subst.
  exists d, w0. auto.
Qed.

Lemma agent_success_stores E f dl w id path pdf q :
  result_of (DocumentationAgent_generate_documentation E f dl w)
  = GenerationSuccess id path pdf q ->
  exists d,
    result_of (get_documentation f
                 (world_of (DocumentationAgent_generate_documentation E f dl w)))
    = Returned (Some (EntryDocumentation d))
    /\ documentation_id d = id
    /\ file_id d = f
    /\ documentation_level d = level_value (convert_doc_level dl).
Proof.
  intros Hr.
  destruct (agent_success_world E f dl w id path pdf q Hr)
    as (d & w0 & Hw & Hid & Hf & Hl & u & Hu).
  exists d. repeat split; auto.
  rewrite Hw.
  rewrite (get_documentation_same_db f _ (stored_world d w0)) by reflexivity.
  rewrite <- Hf. apply (get_documentation_stored d w0 u Hu).
Qed.

Lemma generation_requests_snoc E f levels dl w :
  world_of (generation_requests E f (levels ++ [dl]) w)
  = world_of (DocumentationAgent_generate_documentation E f dl
                (world_of (generation_requests E f levels w)))
  /\ last (result_of (generation_requests E f (levels ++ [dl]) w))
     = Some (result_of (DocumentationAgent_generate_documentation E f dl
                          (world_of (generation_requests E f levels w))))
  /\ length (result_of (generation_requests E f (levels ++ [dl]) w))
     = S (length levels).
Proof.
  revert w. induction levels as [|x l IH]; intros w.
  - cbn [app generation_requests]. run.
    destruct (DocumentationAgent_generate_documentation E f dl w) as [[r w1] ev].
    run. auto.
  - cbn [app generation_requests]. run.
    destruct (DocumentationAgent_generate_documentation E f x w) as [[r w1] ev].
    run. specialize (IH w1).
    destruct (generation_requests E f (l ++ [dl]) w1) as [[rs w2] ev2].
    destruct (generation_requests E f l w1) as [[rs' w3] ev3].
    run. unfold world_of, result_of in *. cbn [fst snd] in *.
    destruct IH as (H1 & H2 & H3). split; [exact H1|]. split.
    + destruct rs as [|r0 rs]; [discriminate|]. exact H2.
    + cbn [length]. now rewrite H3.
Qed.

(** C7.  After N successive generation requests for one file of which the
    N-th succeeded, [get_documentation(file_id)] returns one record: the
    document of that N-th request (its id, the file's id), whatever the
    earlier requests stored. *)
Theorem latest_documentation_is_retrieved
        (E : env) (f : string) (levels : list string) (dl : string) (w : world)
        (id path : string) (pdf : option string) (q : Q) :
  let run := generation_requests E f (levels ++ [dl]) w in
  last (result_of run) = Some (GenerationSuccess id path pdf q) ->
  length (result_of run) = S (length levels)
  /\ exists d,
      result_of (get_documentation f (world_of run)) = Returned (Some (EntryDocumentation d))
      /\ documentation_id d = id
      /\ file_id d = f.
Proof.
  cbv zeta. intros Hlast.
  destruct (generation_requests_snoc E f levels dl w) as (Hw & Hl & Hn).
  split; [exact Hn|].
  rewrite Hl in Hlast. inversion Hlast as [Hr].
  destruct (agent_success_stores E f dl _ id path pdf q Hr) as (d & Hg & Hid & Hf & _).
  exists d. rewrite Hw. auto.
Qed.

Lemma latest_documentation_is_retrieved_witness :
  let run := generation_requests good_env "f1" (["Simple"; "Advanced"] ++ ["Simple"])
                                 transcribed_f1 in
  exists d,
    result_of (get_documentation "f1" (world_of run)) = Returned (Some (EntryDocumentation d))
    /\ documentation_id d = "doc_8c9d0e1f"
    /\ file_id d = "f1".
Proof.
  cbv zeta.
  destruct (latest_documentation_is_retrieved good_env "f1" ["Simple"; "Advanced"] "Simple"
              transcribed_f1 "doc_8c9d0e1f" "data/documentations/f1.json" None
              (snd (fst (DocumentationValidator.validate_content sample_reply SIMPLE))))
    as (_ & d & H).
  - vm_compute. reflexivity.
  - exists d. exact H.
Defined.

(** ** Documentation level *)

Lemma DocumentationLevel_of_value_other (dl : string) :
  dl <> "Simple" -> dl <> "Intermediate" -> dl <> "Advanced" ->
  DocumentationLevel_of_value dl = None.
Proof.
  intros H1 H2 H3. unfold DocumentationLevel_of_value.
  apply String.eqb_neq in H1, H2, H3. now rewrite H1, H2, H3.
Qed.

(** C10.  For a [doc_level] other than "Simple", "Intermediate" and
    "Advanced", [generate_documentation] does not reject the request: the
    level becomes Intermediate and the request runs exactly as the one for
    "Intermediate" does; such a request can succeed, and the document it
    stores carries the level "Intermediate". *)
Theorem invalid_level_runs_as_intermediate :
  (forall E f dl w,
      dl <> "Simple" -> dl <> "Intermediate" -> dl <> "Advanced" ->
      convert_doc_level dl = INTERMEDIATE
      /\ DocumentationGenerator_generate_documentation E f dl w
         = DocumentationGenerator_generate_documentation E f "Intermediate" w
      /\ DocumentationAgent_generate_documentation E f dl w
         = DocumentationAgent_generate_documentation E f "Intermediate" w)
  /\ (let run := DocumentationAgent_generate_documentation good_env "f1" "Expert"
                   transcribed_f1 in
      generation_success (result_of run) = true
      /\ exists d,
          result_of (get_documentation "f1" (world_of run))
          = Returned (Some (EntryDocumentation d))
          /\ documentation_level d = "Intermediate").
Proof.
  split.
  - intros E f dl w H1 H2 H3.
    assert (Hc : convert_doc_level dl = INTERMEDIATE).
    { unfold convert_doc_level.
      now rewrite (DocumentationLevel_of_value_other dl H1 H2 H3). }
    assert (Hg : DocumentationGenerator_generate_documentation E f dl w
                 = DocumentationGenerator_generate_documentation E f "Intermediate" w).
    { unfold DocumentationGenerator_generate_documentation,
        DocumentationGenerator_try_block.
      rewrite Hc. reflexivity. }
    split; [exact Hc|]. split; [exact Hg|].
    unfold DocumentationAgent_generate_documentation,
      DocumentationGenerator_generate_documentation, DocumentationGenerator_try_block.
    rewrite Hc. reflexivity.
  - cbv zeta.
    assert (Hr : result_of (DocumentationAgent_generate_documentation good_env "f1" "Expert"
                              transcribed_f1)
                 = GenerationSuccess "doc_0a1b2c3d" "data/documentations/f1.json" None
                     (snd (fst (DocumentationValidator.validate_content
                                  sample_reply INTERMEDIATE))))
      by (vm_compute; reflexivity).
    split; [rewrite Hr; reflexivity|].
    destruct (agent_success_stores good_env "f1" "Expert" transcribed_f1 _ _ _ _ Hr)
      as (d & Hg & _ & _ & Hl).
    exists d. split; [exact Hg | exact Hl].
Qed.

Lemma invalid_level_runs_as_intermediate_witness :
  convert_doc_level "Expert" = INTERMEDIATE
  /\ DocumentationGenerator_generate_documentation good_env "f1" "Expert" transcribed_f1
     = DocumentationGenerator_generate_documentation good_env "f1" "Intermediate"
         transcribed_f1.
Proof.
  destruct (proj1 invalid_level_runs_as_intermediate good_env "f1" "Expert" transcribed_f1)
    as (H1 & H2 & _); [discriminate | discriminate | discriminate |].
  exact (conj H1 H2).
Defined.

(** ** An empty transcript *)

Lemma blank_transcription_rejected (t : string) :
  PyStr.strip t = "" -> _validate_transcription t = Raised "Transcription is too short or empty".
Proof.
  intros H. unfold _validate_transcription. rewrite H.
  now rewrite orb_true_r.
Qed.

Lemma process_file_audio_run E f p w text lang :
  os_path_exists E p = true ->
  is_video_file E p = false ->
  whisper_load_model E = None ->
  whisper_transcribe E p = Returned (text, lang) ->
  exists m,
    MediaProcessingAgent_process_file E f p w
    = (TranscriptionSuccess text m, transcribed_world f w, transcription_events E f p).
Proof.
  intros He Hv Hl Ht. eexists.
  apply process_file_success_run.
  unfold MediaProcessingAgent_process_file, process_audio, AudioProcessingTool_arun,
    WhisperTool_arun, MediaProcessor_transcribe_audio.
  repeat (run; rewrite ?He, ?Hv, ?Hl, ?Ht; cbn [negb]).
  reflexivity.
Qed.

(** C3 (amended).  A transcript that is empty or only whitespace does not
    fail the transcription stage and is not retried there: [process_file]
    calls the transcriber once, returns success with that text and records
    status "completed", progress 60.  In [process_media_file] the storage
    stage then runs and the run fails in the generation stage, where
    [_validate_transcription] rejects the text before the provider is called
    (BRD agent). *)
Theorem blank_transcript_passes_transcription
        (E : env) (f p dl : string) (w : world) (text lang : string) (size : Z) :
  PyStr.strip text = "" ->
  FileValidationTool_check E f p = Valid f p size ->
  os_path_exists E p = true ->
  is_video_file E p = false ->
  whisper_load_model E = None ->
  whisper_transcribe E p = Returned (text, lang) ->
  write_transcription_file E f = None ->
  (let run := MediaProcessingAgent_process_file E f p w in
   (exists m, result_of run = TranscriptionSuccess text m)
   /\ calls_of CapWhisper (events_of run) = 1%nat
   /\ status_field (world_of run) f "status" = Some (VStr "completed")
   /\ status_field (world_of run) f "progress" = Some (VInt 60))
  /\ (let run := process_media_file E f p "BRD" dl w in
      result_of run
      = FailedAt Generation
          "Error in generate_documentation: Error generating documentation: Transcription is too short or empty"
      /\ stages_entered (events_of run) = [Validation; Transcription; Storage; Generation]
      /\ In (EStatus f "completed" 60 "transcription_completed" None) (events_of run)
      /\ calls_of CapWhisper (events_of run) = 1%nat
      /\ calls_of CapGenerator (events_of run) = 0%nat).
Proof.
  intros Hblank Hcheck He Hv Hl Ht Hwr.
  split; cbv zeta.
  - destruct (process_file_audio_run E f p w text lang He Hv Hl Ht) as [m Hrun].
    rewrite Hrun. unfold result_of, events_of, world_of. cbn [fst snd].
    split; [eauto|]. split.
    + unfold transcription_events. rewrite Hv. reflexivity.
    + unfold transcribed_world. rewrite !status_field_write_status.
      match goal with
      | |- context [status_record ?a ?b ?c ?d ?e ?g] =>
          destruct (status_record_fields a b c d e g) as (_ & H1 & H2 & _)
      end. auto.
  - unfold process_media_file.
    change (select_documentation_agent "BRD") with (Returned AgentBRD).
    run. rewrite validate_file_run, Hcheck. run.
    match goal with
    | |- context [MediaProcessingAgent_process_file E f p ?w0] =>
        destruct (process_file_audio_run E f p w0 text lang He Hv Hl Ht) as [m Hrun]
    end.
    rewrite Hrun. run.
    unfold VectorStorageAgent_store_transcription, LocalStorageService_store_transcription.
    run. rewrite Hwr. run_all.
    unfold LocalStorageService_retrieve_transcription. run_all.
    rewrite lookup_insert_eq. run_all.
    cbn [agent_generate_documentation].
    unfold DocumentationAgent_generate_documentation,
      DocumentationGenerator_generate_documentation, generator_except,
      DocumentationGenerator_try_block.
    run_all.
    erewrite get_transcription_found by (run_all; apply lookup_insert_eq).
    run_all. cbn [transcription]. rewrite (blank_transcription_rejected text Hblank).
    run_all. unfold transcription_events. rewrite Hv. cbn [app].
    split; [reflexivity|]. split; [reflexivity|]. split; [|split; reflexivity].
    cbn [In]. auto 20.
Qed.

Lemma blank_transcript_passes_transcription_witness :
  let run := process_media_file silent_env "f1" "uploads/f1.mp3" "BRD" "Simple" empty_world in
  result_of run
  = FailedAt Generation
      "Error in generate_documentation: Error generating documentation: Transcription is too short or empty"
  /\ calls_of CapWhisper (events_of run) = 1%nat
  /\ calls_of CapGenerator (events_of run) = 0%nat.
Proof.
  destruct (blank_transcript_passes_transcription silent_env "f1" "uploads/f1.mp3" "Simple"
              empty_world "" "en" 1000
              eq_refl eq_refl eq_refl eq_refl eq_refl eq_refl eq_refl)
    as (_ & H1 & _ & _ & H4 & H5).
  exact (conj H1 (conj H4 H5)).
Defined.

(** C3 as stated fails: with a transcriber that returns the empty text the
    transcription stage reports a zero-length success, after a single call,
    and records status "completed". *)
Lemma empty_transcript_counterexample :
  let run := MediaProcessingAgent_process_file silent_env "f1" "uploads/f1.mp3" empty_world in
  result_of run
  = TranscriptionSuccess "" (TranscriptionMetadata 12 (Some "en") (Some "mp3") None)
  /\ calls_of CapWhisper (events_of run) = 1%nat
  /\ status_field (world_of run) "f1" "status" = Some (VStr "completed")
  /\ status_field (world_of run) "f1" "progress" = Some (VInt 60).
Proof.
  cbv zeta. repeat split; vm_compute; reflexivity.
Qed.

(** ** The validator on padded content *)

(** C5 as stated fails on content of at least 100 characters whose
    stripped text is shorter: the validator returns score 0 and the single
    issue "Content too short or empty", not the score of the formula. *)
Lemma padded_content_counterexample :
  100 <= PyStr.len padded_content
  /\ DocumentationValidator.validate_content padded_content SIMPLE
     = (false, 0%Q, ["Content too short or empty"])
  /\ ~ (DocumentationValidator.quality_score_of
          (DocumentationValidator.validate_content padded_content SIMPLE)
        == DocumentationValidator.spec_quality_score padded_content SIMPLE)%Q
  /\ DocumentationValidator.issues_of
       (DocumentationValidator.validate_content padded_content SIMPLE)
     <> map (fun s => "Missing section: " +:+ s)
            (DocumentationValidator.sections_missing padded_content SIMPLE).
Proof.
  split; [vm_compute; discriminate|].
  split; [vm_compute; reflexivity|].
  split.
  - assert (H : DocumentationValidator.validate_content padded_content SIMPLE
                = (false, 0%Q, ["Content too short or empty"])) by (vm_compute; reflexivity).
    rewrite H. unfold DocumentationValidator.quality_score_of. cbn [fst snd].
    intros Heq. apply Qeq_bool_iff in Heq. vm_compute in Heq. discriminate.
  - vm_compute. discriminate.
Qed.

(** * Further properties of the code *)

(** ** Documentation database *)

Lemma append_inj_l (p a b : string) : p +:+ a = p +:+ b -> a = b.
Proof. induction p as [|c p IH]; simpl; [auto|]. intros H. inversion H. auto. Qed.

(** X1.  After [store_documentation(d)], for a document whose id is not
    empty and is not its own index key "file_<file_id>", the document is
    returned both by [get_documentation(file_id)] and by
    [get_documentation_by_id(id)]; and what [get_documentation] returns for
    another file that has a document is unchanged, as long as the new id is
    neither that file's index key nor the id of its current document (and
    that id is not the index key of the new document's file). *)
Theorem store_documentation_lookup (d : documentation) (w : world) :
  PyStr.is_empty (documentation_id d) = false ->
  documentation_id d <> "file_" +:+ file_id d ->
  let w' := world_of (store_documentation d w) in
  result_of (get_documentation (file_id d) w') = Returned (Some (EntryDocumentation d))
  /\ result_of (get_documentation_by_id (documentation_id d) w')
     = Some (EntryDocumentation d)
  /\ (forall g id,
         g <> file_id d ->
         documentation_db w !! ("file_" +:+ g) = Some (EntryId id) ->
         documentation_id d <> "file_" +:+ g ->
         id <> documentation_id d ->
         id <> "file_" +:+ file_id d ->
         result_of (get_documentation g w') = result_of (get_documentation g w)).
Proof.
  intros Hne Hkey. cbv zeta. rewrite store_documentation_run.
  unfold world_of. cbn [fst snd].
  unfold get_documentation, get_documentation_by_id. run.
  cbn [documentation_db stored_world].
  split; [|split].
  - rewrite lookup_insert_eq. rewrite Hne. run.
    rewrite lookup_insert_ne by congruence. now rewrite lookup_insert_eq.
  - rewrite lookup_insert_ne by congruence. now rewrite lookup_insert_eq.
  - intros g id Hg Hl Hk Hcur Hcur2.
    assert (Hidx : "file_" +:+ file_id d <> "file_" +:+ g).
    { intros H. apply append_inj_l in H. congruence. }
    rewrite lookup_insert_ne by exact Hidx.
    rewrite lookup_insert_ne by exact Hk.
    rewrite Hl. destruct (PyStr.is_empty id); run; [reflexivity|].
    rewrite lookup_insert_ne by congruence.
    rewrite lookup_insert_ne by congruence. reflexivity.
Qed.

Lemma store_documentation_lookup_witness :
  let d := Documentation "doc_0a1b2c3d" "f1" "t" "c" "Simple" 0 1 1%Q None None in
  result_of (get_documentation "f1" (world_of (store_documentation d empty_world)))
  = Returned (Some (EntryDocumentation d)).
Proof.
  cbv zeta.
  apply (store_documentation_lookup
           (Documentation "doc_0a1b2c3d" "f1" "t" "c" "Simple" 0 1 1%Q None None)
           empty_world); [reflexivity | discriminate].
Defined.

(** ** Download records *)

Lemma download_key_inj (f1 f2 fmt1 fmt2 : string) :
  no_underscore fmt1 = true -> no_underscore fmt2 = true ->
  download_key f1 fmt1 = download_key f2 fmt2 -> f1 = f2 /\ fmt1 = fmt2.
Proof.
  unfold download_key. revert f2.
  assert (Hcontra : forall a b, no_underscore (a +:+ String "_" b) = false).
  { induction a as [|c a IH]; intros b; simpl; [reflexivity|].
    rewrite IH. apply andb_false_r. }
  change (forall f2, no_underscore fmt1 = true -> no_underscore fmt2 = true ->
                     f1 +:+ String "_" fmt1 = f2 +:+ String "_" fmt2 ->
                     f1 = f2 /\ fmt1 = fmt2).
  induction f1 as [|c f1 IH]; intros f2 H1 H2; destruct f2 as [|c2 f2];
    intros H; simpl in H.
  - inversion H. auto.
  - inversion H; subst. rewrite Hcontra in H1. discriminate.
  - inversion H; subst. rewrite Hcontra in H2. discriminate.
  - inversion H; subst. destruct (IH f2 H1 H2); [assumption|]. subst. auto.
Qed.

(** X2.  [get_download_info(file_id, format)] returns the record that
    [store_download_info] stored for that pair; and when the formats hold no
    underscore (as "pdf", "docx", "html" and "json" do), storing the record
    of one (file_id, format) pair leaves the record of every other pair as
    it was. *)
Theorem download_info_round_trip :
  (forall info db,
      get_download_info (download_file_id info) (download_format info)
                        (store_download_info info db) = Some info)
  /\ (forall info db f fmt,
         no_underscore fmt = true ->
         no_underscore (download_format info) = true ->
         (f, fmt) <> (download_file_id info, download_format info) ->
         get_download_info f fmt (store_download_info info db)
         = get_download_info f fmt db)
  /\ Forall (fun fmt => no_underscore fmt = true) ["pdf"; "docx"; "html"; "json"].
Proof.
  split; [|split].
  - intros info db. unfold get_download_info, store_download_info,
      JSONDatabase.get, JSONDatabase.set. apply lookup_insert_eq.
  - intros info db f fmt H1 H2 Hne.
    unfold get_download_info, store_download_info, JSONDatabase.get, JSONDatabase.set.
    apply lookup_insert_ne. intros Hk.
    destruct (download_key_inj _ _ _ _ H2 H1 Hk). congruence.
  - repeat constructor.
Qed.

Lemma download_info_round_trip_witness :
  let info := DownloadInfo "f1" "pdf" "doc_0a1b2c3d" "static/downloads/f1.pdf" "/d/f1.pdf" in
  get_download_info "f2" "pdf" (store_download_info info ∅) = None.
Proof.
  cbv zeta.
  rewrite (proj1 (proj2 download_info_round_trip)
             (DownloadInfo "f1" "pdf" "doc_0a1b2c3d" "static/downloads/f1.pdf" "/d/f1.pdf")
             ∅ "f2" "pdf" eq_refl eq_refl); [reflexivity | discriminate].
Defined.

(** ** Content validators *)

Section ValidatorBounds.

Import DocumentationValidator.

Lemma filter_length_le_Q {A} (f : A -> bool) (l : list A) :
  (0 <= inject_Z (Z.of_nat (length (List.filter f l))))%Q
  /\ (inject_Z (Z.of_nat (length (List.filter f l))) <= inject_Z (Z.of_nat (length l)))%Q.
Proof.
  split.
  - change 0%Q with (inject_Z 0). rewrite <- Zle_Qle. lia.
  - rewrite <- Zle_Qle. pose proof (List.filter_length_le f l). lia.
Qed.

Lemma spec_word_score_range (content : string) (level : DocumentationLevel) :
  (0 <= spec_word_score content level <= 100)%Q.
Proof.
  unfold spec_word_score.
  destruct (_ && _); [split; discriminate|].
  split; [apply Q.le_max_l|].
  apply Q.max_lub; [discriminate|].
  assert (H : (0 <= inject_Z (Z.abs (word_count content - fst (expected_ranges level)))
                   / inject_Z (fst (expected_ranges level)) * 50)%Q).
  { apply Qmult_le_0_compat; [|discriminate].
    apply Qle_shift_div_l.
    - destruct level; reflexivity.
    - rewrite Qmult_0_l. change 0%Q with (inject_Z 0). rewrite <- Zle_Qle. lia. }
  lra.
Qed.

Lemma spec_section_score_range (content : string) (level : DocumentationLevel) :
  (0 <= spec_section_score content level <= 100)%Q.
Proof.
  unfold spec_section_score, sections_found.
  destruct (filter_length_le_Q (fun s => section_present content s)
              (_get_required_sections level)) as [H0 H1].
  set (x := inject_Z (Z.of_nat (length (List.filter _ _)))) in *.
  clearbody x.
  destruct level; simpl in H1 |- *;
    cbv [inject_Z Z.of_nat Pos.of_succ_nat Pos.succ Qdiv Qinv Qnum Qden] in H1 |- *; lra.
Qed.

(** X3.  The quality score of [DocumentationValidator.validate_content] is
    always between 0 and 100. *)
Theorem quality_score_in_range (content : string) (level : DocumentationLevel) :
  (0 <= quality_score_of (validate_content content level) <= 100)%Q.
Proof.
  destruct (too_short content) eqn:Hs.
  - unfold validate_content. rewrite Hs. unfold quality_score_of. simpl. split; discriminate.
  - rewrite (validate_content_long content level Hs).
    unfold quality_score_of. cbn [fst snd].
    rewrite quality_score_spec_eq. unfold spec_quality_score.
    pose proof (spec_word_score_range content level).
    pose proof (spec_section_score_range content level).
    cbv [Qdiv Qinv Qnum Qden]. lra.
Qed.

End ValidatorBounds.

Section ValidatorConsequences.

Import DocumentationValidator.

Lemma Qle_inject_Z_scaled (a b c d : Z) :
  (inject_Z a * inject_Z b <= inject_Z c * inject_Z d)%Q -> a * b <= c * d.
Proof. rewrite <- !inject_Z_mult, <- Zle_Qle. trivial. Qed.

(** X4.  Content that [DocumentationValidator.validate_content] accepts has
    at least 100 characters once stripped, at least two fifths of the level's
    headings, and at most 2.2 times the level's minimum word count; its
    score is at least 70. *)
Theorem valid_content_bounds (content : string) (level : DocumentationLevel) :
  is_valid_of (validate_content content level) = true ->
  100 <= PyStr.len (PyStr.strip content)
  /\ (70 <= quality_score_of (validate_content content level))%Q
  /\ 2 * Z.of_nat (length (_get_required_sections level))
     <= 5 * Z.of_nat (length (sections_found content level))
  /\ 5 * word_count content <= 11 * fst (expected_ranges level).
Proof.
  intros Hv.
  destruct (too_short content) eqn:Hs.
  { unfold validate_content in Hv. rewrite Hs in Hv. discriminate. }
  split.
  { unfold too_short in Hs. apply orb_false_iff in Hs. destruct Hs as [_ Hs].
    apply Z.ltb_ge in Hs. exact Hs. }
  rewrite (validate_content_long content level Hs) in Hv |- *.
  unfold is_valid_of, quality_score_of in *. cbn [fst snd] in *.
  apply Qle_bool_iff in Hv. split; [exact Hv|].
  rewrite quality_score_spec_eq in Hv. unfold spec_quality_score in Hv.
  pose proof (spec_word_score_range content level) as Hw.
  pose proof (spec_section_score_range content level) as Hc.
  cbv [Qdiv Qinv Qnum Qden] in Hv.
  assert (Hc40 : (40 <= spec_section_score content level)%Q) by lra.
  assert (Hw40 : (40 <= spec_word_score content level)%Q) by lra.
  clear Hv Hw Hc. split.
  - clear Hw40. unfold spec_section_score in Hc40.
    set (x := Z.of_nat (length (sections_found content level))) in *. clearbody x.
    destruct level; simpl in Hc40 |- *;
      cbv [Z.of_nat Pos.of_succ_nat Pos.succ] in Hc40;
      match type of Hc40 with
      | (_ <= _ * (_ / inject_Z ?n))%Q =>
          assert (H : (inject_Z 2 * inject_Z n <= inject_Z 5 * inject_Z x)%Q)
            by (cbv [inject_Z Qdiv Qinv Qnum Qden] in Hc40 |- *;
                change (Qmake x 1) with (inject_Z x) in *; lra);
          apply Qle_inject_Z_scaled in H; lia
      end.
  - clear Hc40. unfold spec_word_score in Hw40.
    destruct (_ && _) eqn:Hr.
    + apply andb_true_iff in Hr. destruct Hr as [_ Hr]. apply Z.leb_le in Hr.
      destruct level; simpl in Hr |- *; lia.
    + apply Q.max_le_iff in Hw40. destruct Hw40 as [H0|Hw40]; [exfalso; apply H0; reflexivity|].
      set (d := Z.abs (word_count content - fst (expected_ranges level))) in *.
      assert (Hd : d = Z.abs (word_count content - fst (expected_ranges level))) by reflexivity.
      clearbody d.
      destruct level; simpl in Hw40, Hd |- *;
        match type of Hw40 with
        | (_ <= _ - _ / inject_Z ?n * _)%Q =>
            assert (H : (inject_Z 5 * inject_Z d <= inject_Z 6 * inject_Z n)%Q)
              by (cbv [inject_Z Qdiv Qinv Qnum Qden] in Hw40 |- *;
                  change (Qmake d 1) with (inject_Z d) in *; lra);
            apply Qle_inject_Z_scaled in H; lia
        end.
Qed.

Lemma valid_content_bounds_witness :
  100 <= PyStr.len (PyStr.strip sample_document)
  /\ (70 <= quality_score_of (validate_content sample_document SIMPLE))%Q
  /\ 2 * Z.of_nat (length (_get_required_sections SIMPLE))
     <= 5 * Z.of_nat (length (sections_found sample_document SIMPLE))
  /\ 5 * word_count sample_document <= 11 * fst (expected_ranges SIMPLE).
Proof.
  apply (valid_content_bounds sample_document SIMPLE). vm_compute. reflexivity.
Defined.

End ValidatorConsequences.

Section ValidatorHeadings.

Import DocumentationValidator.

Lemma spec_word_score_below_max (content : string) (level : DocumentationLevel) :
  word_count content <= snd (expected_ranges level) ->
  (50 <= spec_word_score content level)%Q.
Proof.
  intros Hmax. unfold spec_word_score.
  destruct (_ && _) eqn:Hr; [discriminate|].
  apply andb_false_iff in Hr.
  assert (Hlo : word_count content < fst (expected_ranges level)).
  { destruct Hr as [Hr|Hr]; [apply Z.leb_gt in Hr; exact Hr|apply Z.leb_gt in Hr; lia]. }
  assert (H0 : 0 <= word_count content) by (unfold word_count; lia).
  apply Q.max_le_iff. right.
  set (d := Z.abs (word_count content - fst (expected_ranges level))) in *.
  assert (Hd : d <= fst (expected_ranges level)) by (unfold d; lia).
  clearbody d.
  destruct level; simpl in Hd |- *;
    rewrite Zle_Qle in Hd;
    cbv [inject_Z Qdiv Qinv Qnum Qden] in Hd |- *; lra.
Qed.

(** X5.  No minimum word count is enforced by
    [DocumentationValidator.validate_content]: content of at least 100
    stripped characters that names every heading of its level and has no
    more words than the level's maximum is valid, with a score of at least
    75 and no issue, however few words it has. *)
Theorem headings_outweigh_word_count (content : string) (level : DocumentationLevel) :
  100 <= PyStr.len (PyStr.strip content) ->
  Forall (fun s => section_present content s = true) (_get_required_sections level) ->
  word_count content <= snd (expected_ranges level) ->
  is_valid_of (validate_content content level) = true
  /\ (75 <= quality_score_of (validate_content content level))%Q
  /\ issues_of (validate_content content level) = [].
Proof.
  intros Hlen Hall Hmax.
  rewrite (validate_content_long content level (too_short_false content Hlen)).
  unfold is_valid_of, quality_score_of, issues_of. cbn [fst snd].
  destruct (all_present_found content _ Hall) as [Hf Hm].
  unfold sections_missing. rewrite Hm.
  pose proof (spec_word_score_below_max content level Hmax) as Hw.
  assert (Hc : (spec_section_score content level == 100)%Q).
  { unfold spec_section_score, sections_found. rewrite Hf.
    destruct level; reflexivity. }
  assert (Hq : (75 <= spec_quality_score content level)%Q).
  { unfold spec_quality_score. rewrite Hc. cbv [Qdiv Qinv Qnum Qden]. lra. }
  split; [|split; [|reflexivity]].
  - apply Qle_bool_iff. rewrite quality_score_spec_eq. lra.
  - rewrite quality_score_spec_eq. exact Hq.
Qed.

Lemma headings_outweigh_word_count_witness :
  word_count headings_only = 16
  /\ is_valid_of (validate_content headings_only SIMPLE) = true
  /\ (75 <= quality_score_of (validate_content headings_only SIMPLE))%Q
  /\ issues_of (validate_content headings_only SIMPLE) = [].
Proof.
  split; [reflexivity|].
  apply (headings_outweigh_word_count headings_only SIMPLE).
  - vm_compute. discriminate.
  - repeat constructor.
  - vm_compute. discriminate.
Defined.

End ValidatorHeadings.

Section KindValidator.

Import DocumentationValidator.

Lemma kind_scan_sections_spec (content : string) (required : list string)
      (missing : list string) (q : Q) :
  fst (kind_scan_sections required content missing q)
  = missing ++ List.filter (fun s => negb (section_present content s)) required
  /\ (snd (kind_scan_sections required content missing q)
      == q + inject_Z (Z.of_nat (length
                (List.filter (fun s => section_present content s) required))))%Q.
Proof.
  revert missing q. induction required as [|s l IH]; intros missing q.
  - simpl. split; [now rewrite app_nil_r|]. change (inject_Z 0) with 0%Q. ring.
  - cbn [kind_scan_sections List.filter].
    destruct (section_present content s); cbn [negb].
    + destruct (IH missing (q + 1)%Q) as [IH1 IH2]. split; [exact IH1|].
      rewrite IH2. cbn [length]. rewrite Nat2Z.inj_succ, <- Z.add_1_r, inject_Z_plus.
      change (inject_Z 1) with 1%Q. ring.
    + destruct (IH (missing ++ [s]) q) as [IH1 IH2]. split; [|exact IH2].
      rewrite IH1. now rewrite <- app_assoc.
Qed.

Lemma filter_split_length {A} (f : A -> bool) (l : list A) :
  (length (List.filter f l) + length (List.filter (fun x => negb (f x)) l) = length l)%nat.
Proof.
  induction l as [|a l IH]; [reflexivity|].
  simpl. destruct (f a); simpl; lia.
Qed.

Lemma kind_required_nonempty (k : generated_kind) (level : DocumentationLevel) :
  (7 <= length (kind_get_required_sections k level))%nat.
Proof. destruct k, level; simpl; lia. Qed.

Lemma kind_simple_sections_included (k : generated_kind) (level : DocumentationLevel) :
  exists more, kind_get_required_sections k level = kind_get_required_sections k SIMPLE ++ more.
Proof.
  destruct level.
  - exists []. now rewrite app_nil_r.
  - eexists. reflexivity.
  - eexists. reflexivity.
Qed.

(** X6.  [SOWValidator.validate_content] and [FRDValidator.validate_content]:
    the issues are exactly the required headings the content does not
    contain, in order; the score lies between 0 and 100; the content is valid
    exactly when no heading is missing, which is exactly when the score is
    100; and content valid at some level is valid at the Simple level. *)
Theorem kind_validate_content_sound (k : generated_kind) (content : string)
        (level : DocumentationLevel) :
  let r := kind_validate_content k content level in
  issues_of r
  = List.filter (fun s => negb (section_present content s))
                (kind_get_required_sections k level)
  /\ (0 <= quality_score_of r <= 100)%Q
  /\ (is_valid_of r = true <-> issues_of r = [])
  /\ (is_valid_of r = true <-> (quality_score_of r == 100)%Q)
  /\ (is_valid_of r = true ->
      is_valid_of (kind_validate_content k content SIMPLE) = true).
Proof.
  assert (Hshape : forall lvl,
    let r := kind_validate_content k content lvl in
    issues_of r
    = List.filter (fun s => negb (section_present content s))
                  (kind_get_required_sections k lvl)
    /\ (quality_score_of r
        == inject_Z (Z.of_nat (length (List.filter (fun s => section_present content s)
                                         (kind_get_required_sections k lvl))))
           / inject_Z (Z.of_nat (length (kind_get_required_sections k lvl))) * 100)%Q
    /\ (is_valid_of r = true <-> issues_of r = [])).
  { intros lvl. unfold kind_validate_content.
    pose proof (kind_scan_sections_spec content (kind_get_required_sections k lvl) [] 0) as Hs.
    destruct (kind_scan_sections _ content [] 0) as [missing q].
    cbn [fst snd] in Hs. destruct Hs as [Hm Hq]. cbn [app] in Hm.
    unfold issues_of, quality_score_of, is_valid_of. cbn [fst snd].
    split; [exact Hm|]. split; [rewrite Hq, Qplus_0_l; reflexivity|].
    destruct missing; split; intros H; try reflexivity; discriminate. }
  intros r. destruct (Hshape level) as [Hi [Hq Hv]]. fold r in Hi, Hq, Hv.
  pose proof (filter_split_length (fun s => section_present content s)
                (kind_get_required_sections k level)) as Hlen.
  pose proof (kind_required_nonempty k level) as Hn.
  set (req := kind_get_required_sections k level) in *.
  set (found := List.filter (fun s => section_present content s) req) in *.
  set (missing := List.filter (fun s => negb (section_present content s)) req) in *.
  assert (Hnz : ~ (inject_Z (Z.of_nat (length req)) == 0)%Q).
  { change 0%Q with (inject_Z 0). rewrite inject_Z_injective. lia. }
  assert (Hpos : (0 < inject_Z (Z.of_nat (length req)))%Q).
  { change 0%Q with (inject_Z 0). rewrite <- Zlt_Qlt. lia. }
  split; [exact Hi|]. split.
  { rewrite Hq. split.
    - apply Qmult_le_0_compat; [|discriminate].
      apply Qle_shift_div_l; [exact Hpos|]. rewrite Qmult_0_l.
      change 0%Q with (inject_Z 0). rewrite <- Zle_Qle. lia.
    - assert (H1 : (inject_Z (Z.of_nat (length found)) / inject_Z (Z.of_nat (length req)) <= 1)%Q).
      { apply Qle_shift_div_r; [exact Hpos|]. rewrite Qmult_1_l. rewrite <- Zle_Qle. lia. }
      lra. }
  split; [exact Hv|]. split.
  { rewrite Hv, Hi, Hq. split.
    - intros Hm. rewrite Hm in Hlen. cbn [length] in Hlen.
      replace (length found) with (length req) by lia. field. exact Hnz.
    - intros H100.
      assert (Heq : (inject_Z (Z.of_nat (length found)) == inject_Z (Z.of_nat (length req)))%Q).
      { assert (H1 : (inject_Z (Z.of_nat (length found)) / inject_Z (Z.of_nat (length req)) == 1)%Q)
          by lra.
        rewrite <- (Qmult_1_l (inject_Z (Z.of_nat (length req)))), <- H1. field. exact Hnz. }
      rewrite inject_Z_injective in Heq.
      destruct missing; [reflexivity|]. cbn [length] in Hlen. lia. }
  intros Hvalid. destruct (Hshape SIMPLE) as [Hi0 [_ Hv0]].
  apply Hv0. rewrite Hi0. apply Hv in Hvalid. rewrite Hi in Hvalid.
  destruct (kind_simple_sections_included k level) as [more Hmore].
  unfold missing, req in Hvalid. rewrite Hmore, List.filter_app in Hvalid.
  apply app_eq_nil in Hvalid. tauto.
Qed.

End KindValidator.

(** ** Generation: retries and effects *)

Lemma calls_of_cons_status c f s p st err l :
  calls_of c (EStatus f s p st err :: l) = calls_of c l.
Proof. reflexivity. Qed.

Lemma calls_of_cons_stage c s l :
  calls_of c (EStage s :: l) = calls_of c l.
Proof. reflexivity. Qed.

Lemma calls_of_cons_call c c' l :
  calls_of c (ECall c' :: l)
  = ((if capability_eqb c c' then 1 else 0) + calls_of c l)%nat.
Proof. unfold calls_of. simpl. destruct (capability_eqb c c'); reflexivity. Qed.

Lemma calls_of_nil c : calls_of c [] = 0%nat.
Proof. reflexivity. Qed.

Lemma capability_eqb_eq a b : capability_eqb a b = true <-> a = b.
Proof. destruct a, b; simpl; split; intros H; try reflexivity; discriminate. Qed.

Lemma capability_eqb_neq a b : a <> b -> capability_eqb a b = false.
Proof.
  intros H. destruct (capability_eqb a b) eqn:Heq; [|reflexivity].
  apply capability_eqb_eq in Heq. contradiction.
Qed.

Ltac count_calls :=
  repeat first [rewrite calls_of_app | rewrite calls_of_cons_status
               | rewrite calls_of_cons_stage | rewrite calls_of_cons_call
               | rewrite calls_of_nil].

(** What the content loop does to the world and how often it calls the
    provider. *)
Lemma generate_content_attempts_frame E r a t level f w :
  let x := generate_content_attempts E r a t level f w in
  (calls_of CapGenerator (events_of x) <= r)%nat
  /\ llm_calls (world_of x) = (llm_calls w + calls_of CapGenerator (events_of x))%nat
  /\ (forall c, c <> CapGenerator -> calls_of c (events_of x) = 0%nat)
  /\ documentation_db (world_of x) = documentation_db w
  /\ transcription_files (world_of x) = transcription_files w
  /\ uuid_calls (world_of x) = uuid_calls w
  /\ (forall g, g <> f -> status_db (world_of x) !! g = status_db w !! g).
Proof.
  revert a w. induction r as [|r IH]; intros a w.
  - simpl. repeat split; auto; lia.
  - cbn [generate_content_attempts]. unfold LLMService_generate_response. run_all.
    assert (Hstop : forall (b : raised (option string)) w1,
      w1 = World (status_db (write_status f "processing" (80 + Z.of_nat a * 5)
                                "documentation" None w))
                 (documentation_db w) (transcription_files w)
                 (clock (write_status f "processing" (80 + Z.of_nat a * 5)
                                "documentation" None w))
                 (S (llm_calls w)) (uuid_calls w) ->
      let x := (b, w1,
                [EStatus f "processing" (80 + Z.of_nat a * 5) "documentation" None;
                 ECall CapGenerator]) in
      (calls_of CapGenerator (events_of x) <= S r)%nat
      /\ llm_calls (world_of x) = (llm_calls w + calls_of CapGenerator (events_of x))%nat
      /\ (forall c, c <> CapGenerator -> calls_of c (events_of x) = 0%nat)
      /\ documentation_db (world_of x) = documentation_db w
      /\ transcription_files (world_of x) = transcription_files w
      /\ uuid_calls (world_of x) = uuid_calls w
      /\ (forall g, g <> f -> status_db (world_of x) !! g = status_db w !! g)).
    { intros b w1 -> x. subst x. unfold events_of, world_of.
      cbn [fst snd llm_calls documentation_db transcription_files uuid_calls status_db].
      count_calls. simpl capability_eqb.
      split; [lia|]. split; [lia|]. split.
      { intros c Hc. count_calls. rewrite (capability_eqb_neq c _ Hc). reflexivity. }
      split; [reflexivity|]. split; [reflexivity|]. split; [reflexivity|].
      intros g Hg. unfold write_status. cbn [status_db]. now rewrite lookup_insert_ne. }
    assert (Hnext :
      let x :=
        (let '(b, w2, e2) :=
           (let '(b, w2, e2) :=
              generate_content_attempts E r (S a) t level f
                (World (status_db (write_status f "processing" (80 + Z.of_nat a * 5)
                                     "documentation" None w))
                       (documentation_db w) (transcription_files w)
                       (clock (write_status f "processing" (80 + Z.of_nat a * 5)
                                     "documentation" None w))
                       (S (llm_calls w)) (uuid_calls w)) in
            (b, w2, ECall CapGenerator :: e2)) in
         (b, w2, EStatus f "processing" (80 + Z.of_nat a * 5) "documentation" None :: e2)) in
      (calls_of CapGenerator (events_of x) <= S r)%nat
      /\ llm_calls (world_of x) = (llm_calls w + calls_of CapGenerator (events_of x))%nat
      /\ (forall c, c <> CapGenerator -> calls_of c (events_of x) = 0%nat)
      /\ documentation_db (world_of x) = documentation_db w
      /\ transcription_files (world_of x) = transcription_files w
      /\ uuid_calls (world_of x) = uuid_calls w
      /\ (forall g, g <> f -> status_db (world_of x) !! g = status_db w !! g)).
    { match goal with
      | |- context [generate_content_attempts E r (S a) t level f ?w1] =>
          specialize (IH (S a) w1);
          destruct (generate_content_attempts E r (S a) t level f w1) as [[b w2] e2]
      end.
      cbv zeta in IH |- *. unfold events_of, world_of in *.
      cbn [fst snd llm_calls documentation_db transcription_files uuid_calls status_db] in *.
      destruct IH as (I1 & I2 & I3 & I4 & I5 & I6 & I7).
      count_calls. simpl capability_eqb.
      split; [lia|]. split; [lia|]. split.
      { intros c Hc. count_calls. rewrite (capability_eqb_neq c _ Hc). now apply I3. }
      split; [assumption|]. split; [assumption|]. split; [assumption|].
      intros g Hg. rewrite I7 by exact Hg. unfold write_status. cbn [status_db].
      now rewrite lookup_insert_ne. }
    destruct (llm_generate_response E (llm_calls w) level t) as [content|e].
    + destruct (content_long_enough content); [|destruct (a =? 2)%nat].
      * apply (Hstop (Returned None)). reflexivity.
      * apply (Hstop (Returned None)). reflexivity.
      * exact Hnext.
    + destruct (a =? 2)%nat.
      * apply (Hstop (Returned None)). reflexivity.
      * exact Hnext.
Qed.

Lemma generate_pdf_attempts_frame E r a p w :
  let x := generate_pdf_attempts E r a p w in
  world_of x = w
  /\ (calls_of CapRenderer (events_of x) <= r)%nat
  /\ (forall c, c <> CapRenderer -> calls_of c (events_of x) = 0%nat)
  /\ (forall f, progress_values f (events_of x) = []).
Proof.
  revert a w. induction r as [|r IH]; intros a w.
  - simpl. repeat split; auto.
  - cbn [generate_pdf_attempts]. run.
    destruct (generate_pdf_from_json E p a); [|destruct (a =? max_retries - 1)%nat].
    + cbn [fst snd]. count_calls. simpl. repeat split; auto; try lia.
      intros c Hc. count_calls. now rewrite (capability_eqb_neq c _ Hc).
    + cbn [fst snd]. count_calls. simpl. repeat split; auto; try lia.
      intros c Hc. count_calls. now rewrite (capability_eqb_neq c _ Hc).
    + specialize (IH (S a) w).
      destruct (generate_pdf_attempts E r (S a) p w) as [[b w2] e2].
      cbv zeta in IH. unfold events_of, world_of in *. cbn [fst snd] in *.
      destruct IH as (I1 & I2 & I3 & I4).
      count_calls. simpl capability_eqb. repeat split; auto; try lia.
      intros c Hc. count_calls. rewrite (capability_eqb_neq c _ Hc). now apply I3.
Qed.

Lemma get_transcription_attempts_run r a f w :
  world_of (get_transcription_attempts r a f w) = w
  /\ events_of (get_transcription_attempts r a f w) = []
  /\ (forall td, result_of (get_transcription_attempts r a f w) = Returned (Some td) ->
                 transcription_files w !! f = Some td)
  /\ ((a + r = max_retries)%nat -> (0 < r)%nat ->
      result_of (get_transcription_attempts r a f w) <> Returned None)
  /\ (transcription_files w !! f = None -> (a + r = max_retries)%nat -> (0 < r)%nat ->
      result_of (get_transcription_attempts r a f w)
      = Raised ("No transcription found for file_id: " +:+ f)).
Proof.
  revert a. induction r as [|r IH]; intros a.
  - simpl. repeat split; try discriminate; intros; lia.
  - cbn [get_transcription_attempts]. unfold LocalStorageService_retrieve_transcription. run.
    destruct (transcription_files w !! f) as [td|] eqn:Hf.
    + cbn [fst snd]. repeat split; try congruence.
    + destruct (a =? max_retries - 1)%nat eqn:Ha.
      * cbn [fst snd]. repeat split; try congruence.
      * destruct (IH (S a)) as (I1 & I2 & I3 & I4 & I5).
        apply Nat.eqb_neq in Ha. unfold max_retries in *.
        unfold result_of, world_of, events_of in *.
        destruct (get_transcription_attempts r (S a) f w) as [[b w2] e2].
        cbn [fst snd] in *.
        split; [exact I1|]. split; [exact I2|]. split; [exact I3|]. split.
        -- intros H1 H2. apply I4; lia.
        -- intros _ H1 H2. apply I5; [reflexivity|lia|lia].
Qed.

(** What the [try] block of the generator does to the world, and which
    capabilities it calls. *)
Lemma try_block_frame E f dl w :
  let x := DocumentationGenerator_try_block E f dl w in
  (calls_of CapGenerator (events_of x) <= 3)%nat
  /\ (calls_of CapRenderer (events_of x) <= 3)%nat
  /\ (forall c, c <> CapGenerator -> c <> CapRenderer -> calls_of c (events_of x) = 0%nat)
  /\ llm_calls (world_of x) = (llm_calls w + calls_of CapGenerator (events_of x))%nat
  /\ transcription_files (world_of x) = transcription_files w
  /\ (forall e, result_of x = Raised e ->
        documentation_db (world_of x) = documentation_db w
        /\ calls_of CapRenderer (events_of x) = 0%nat)
  /\ (forall g, g <> f -> status_db (world_of x) !! g = status_db w !! g)
  /\ ((0 < calls_of CapGenerator (events_of x))%nat ->
      exists td, transcription_files w !! f = Some td
                 /\ _validate_transcription (transcription td) = Returned tt).
Proof.
  cbv zeta.
  remember (DocumentationGenerator_try_block E f dl w) as x eqn:Hx.
  unfold DocumentationGenerator_try_block, _save_documentation, _get_transcription_with_retry,
    _generate_content_with_retry, _generate_pdf_with_retry in Hx.
  revert Hx. run_all.
  destruct (get_transcription_attempts_run max_retries 0 f w) as (T1 & T2 & T3 & _).
  unfold result_of, world_of, events_of in T1, T2, T3.
  destruct (get_transcription_attempts max_retries 0 f w) as [[rt wt] et].
  cbn [fst snd] in T1, T2, T3. subst wt et.
  destruct rt as [[td|]|e0].
  2,3: intros ->; cbn [fst snd app]; count_calls;
       repeat split; auto; try lia; intros; lia.
  specialize (T3 td eq_refl).
  destruct (_validate_transcription (transcription td)) as [[]|e0] eqn:Hv.
  2: intros ->; cbn [fst snd app]; count_calls;
     repeat split; auto; try lia; intros; lia.
  pose proof (generate_content_attempts_frame E max_retries 0 (transcription td)
                (convert_doc_level dl) f w) as Hc.
  cbv zeta in Hc. unfold result_of, world_of, events_of in Hc.
  destruct (generate_content_attempts E max_retries 0 (transcription td)
              (convert_doc_level dl) f w) as [[rc wc] ec].
  cbn [fst snd] in Hc. destruct Hc as (C1 & C2 & C3 & C4 & C5 & C6 & C7).
  unfold max_retries in C1.
  destruct rc as [[c|]|e0].
  2,3: intros ->; cbn [fst snd app]; count_calls; rewrite ?app_nil_r;
       rewrite (C3 CapRenderer) by discriminate;
       repeat split; eauto; try lia; intros; apply C3; assumption.
  destruct (DocumentationValidator.validate_content c (convert_doc_level dl))
    as [[is_valid q] issues].
  destruct (write_documentation_file E f) as [e0|].
  { run_all. intros ->. cbn [fst snd app]. count_calls. rewrite ?app_nil_r.
    cbn [llm_calls transcription_files documentation_db status_db].
    rewrite (C3 CapRenderer) by discriminate.
    repeat split; eauto; try lia; intros; apply C3; assumption. }
  run_all.
  match goal with
  | |- context [generate_pdf_attempts E max_retries 0 ?p ?w1] =>
      pose proof (generate_pdf_attempts_frame E max_retries 0 p w1) as Hp;
      cbv zeta in Hp; unfold result_of, world_of, events_of in Hp;
      destruct (generate_pdf_attempts E max_retries 0 p w1) as [[rp wp] ep]
  end.
  cbn [fst snd] in Hp. destruct Hp as (P1 & P2 & P3 & _). subst wp.
  unfold max_retries in P2.
  rewrite store_documentation_run. run_all.
  intros ->. cbn [fst snd app]. rewrite ?app_nil_r. count_calls.
  rewrite (C3 CapRenderer) by discriminate.
  rewrite (P3 CapGenerator) by discriminate.
  unfold write_status, stored_world.
  cbn [llm_calls transcription_files documentation_db status_db].
  split; [lia|]. split; [lia|]. split.
  { intros c0 H1 H2. count_calls. rewrite C3, P3 by assumption. reflexivity. }
  split; [lia|]. split; [assumption|]. split; [intros e0; discriminate|]. split.
  { intros g Hg. rewrite lookup_insert_ne by congruence. now apply C7. }
  intros _. eauto.
Qed.

Lemma generate_content_attempts_calls_once E r a t level f w :
  (1 <= calls_of CapGenerator (events_of (generate_content_attempts E (S r) a t level f w)))%nat.
Proof.
  cbn [generate_content_attempts]. unfold LLMService_generate_response. run_all.
  destruct (llm_generate_response E (llm_calls w) level t) as [c|e];
    [destruct (content_long_enough c)|];
    try destruct (a =? 2)%nat;
    try (match goal with
         | |- context [generate_content_attempts E r ?a' t level f ?w1] =>
             destruct (generate_content_attempts E r a' t level f w1) as [[b w2] e2]
         end);
    cbn [fst snd]; count_calls; simpl; lia.
Qed.

Lemma agent_run_shape E f dl w :
  DocumentationAgent_generate_documentation E f dl w
  = let '(r, w1, e1) :=
      DocumentationGenerator_try_block E f dl
        (world_of (datetime_now (write_status f "processing" 75 "documentation" None w))) in
    let head := [EStage Generation; EStatus f "processing" 75 "documentation" None] in
    match r with
    | Returned g => (success_result g, w1, head ++ e1)
    | Raised e =>
        let m1 := "Error generating documentation: " +:+ e in
        let m2 := "Error in generate_documentation: " +:+ m1 in
        (GenerationFailure m2,
         write_status f "failed" 0 "documentation" (Some m2)
           (write_status f "failed" 0 "documentation" (Some m1) w1),
         head ++ e1 ++ [EStatus f "failed" 0 "documentation" (truthy_error (Some m1));
                        EStatus f "failed" 0 "documentation" (truthy_error (Some m2))])
    end.
Proof.
  unfold DocumentationAgent_generate_documentation,
    DocumentationGenerator_generate_documentation, generator_except.
  run.
  match goal with
  | |- context [DocumentationGenerator_try_block E f dl ?w1] =>
      destruct (DocumentationGenerator_try_block E f dl w1) as [[[g|e] w2] e2]
  end; run_all.
  - destruct g as [[[a b] c] d]. cbn [success_result]. rewrite ?app_nil_r. reflexivity.
  - rewrite <- ?app_assoc. reflexivity.
Qed.

Lemma events_of_bind {A B} (m : M A) (k : A -> M B) (w : world) :
  events_of (bind m k w)
  = events_of (m w) ++ events_of (k (result_of (m w)) (world_of (m w))).
Proof.
  unfold bind, events_of, result_of, world_of.
  destruct (m w) as [[a w1] e1]. cbn [fst snd].
  destruct (k a w1) as [[b w2] e2]. reflexivity.
Qed.

Lemma try_block_calls_provider E f dl w td :
  transcription_files w !! f = Some td ->
  _validate_transcription (transcription td) = Returned tt ->
  (1 <= calls_of CapGenerator (events_of (DocumentationGenerator_try_block E f dl w)))%nat.
Proof.
  intros Hf Hv.
  unfold DocumentationGenerator_try_block, _generate_content_with_retry.
  rewrite events_of_bind, (get_transcription_found f w td Hf).
  unfold result_of, world_of. cbn [fst snd events_of app]. rewrite Hv.
  rewrite events_of_bind. count_calls.
  pose proof (generate_content_attempts_calls_once E 2 0 (transcription td)
                (convert_doc_level dl) f w) as Hc.
  unfold max_retries. lia.
Qed.

Lemma validate_transcription_ok (t : string) :
  _validate_transcription t = Returned tt
  <-> PyStr.is_empty t = false /\ 50 <= PyStr.len (PyStr.strip t).
Proof.
  unfold _validate_transcription.
  destruct (PyStr.is_empty t); cbn [orb].
  - split; [discriminate|intros [H _]; discriminate].
  - destruct (PyStr.len (PyStr.strip t) <? 50) eqn:Hl.
    + apply Z.ltb_lt in Hl. split; [discriminate|intros [_ H]; lia].
    + apply Z.ltb_ge in Hl. split; auto.
Qed.

(** X7.  Whatever the environment does, one call of
    [DocumentationAgent.generate_documentation] calls the provider at most
    [max_retries] = 3 times and the PDF renderer at most 3 times, and no other
    capability; the provider's call counter advances by the number of calls;
    the stored transcriptions are not touched and no status record of another
    file is changed. *)
Theorem generation_calls_bounded (E : env) (f dl : string) (w : world) :
  let x := DocumentationAgent_generate_documentation E f dl w in
  (calls_of CapGenerator (events_of x) <= max_retries)%nat
  /\ (calls_of CapRenderer (events_of x) <= max_retries)%nat
  /\ (forall c, c <> CapGenerator -> c <> CapRenderer -> calls_of c (events_of x) = 0%nat)
  /\ llm_calls (world_of x) = (llm_calls w + calls_of CapGenerator (events_of x))%nat
  /\ transcription_files (world_of x) = transcription_files w
  /\ others_kept f w (world_of x).
Proof.
  intros x. subst x. rewrite agent_run_shape.
  match goal with
  | |- context [DocumentationGenerator_try_block E f dl ?w1] =>
      pose proof (try_block_frame E f dl w1) as Hf;
      cbv zeta in Hf;
      destruct (DocumentationGenerator_try_block E f dl w1) as [[r w2] e2]
  end.
  unfold result_of, world_of, events_of, datetime_now, write_status in Hf.
  cbn [fst snd llm_calls transcription_files status_db] in Hf.
  destruct Hf as (F1 & F2 & F3 & F4 & F5 & _ & F7 & _).
  assert (Hk : forall g, g <> f -> status_db w2 !! g = status_db w !! g).
  { intros g Hg. rewrite F7 by exact Hg. now rewrite lookup_insert_ne. }
  unfold max_retries, others_kept.
  destruct r as [g|e]; cbv zeta; unfold world_of, events_of, write_status;
    cbn [fst snd llm_calls transcription_files status_db app]; count_calls;
    rewrite ?Nat.add_0_r.
  - repeat split; auto.
  - split; [exact F1|]. split; [exact F2|]. split.
    { intros c H1 H2. count_calls. rewrite F3 by assumption. reflexivity. }
    split; [exact F4|]. split; [exact F5|].
    intros g Hg. rewrite !lookup_insert_ne by congruence. now apply Hk.
Qed.

(** X8.  [DocumentationAgent.generate_documentation] calls the provider
    exactly when a transcription of the file is stored that is not empty and
    has at least 50 characters once stripped. *)
Theorem provider_called_iff_transcription_usable
        (E : env) (f dl : string) (w : world) :
  (0 < calls_of CapGenerator
         (events_of (DocumentationAgent_generate_documentation E f dl w)))%nat
  <-> exists td, transcription_files w !! f = Some td
                 /\ PyStr.is_empty (transcription td) = false
                 /\ 50 <= PyStr.len (PyStr.strip (transcription td)).
Proof.
  rewrite agent_run_shape.
  match goal with
  | |- context [DocumentationGenerator_try_block E f dl ?w1] =>
      pose proof (try_block_frame E f dl w1) as Hf;
      cbv zeta in Hf;
      pose proof (try_block_calls_provider E f dl w1) as Hc;
      destruct (DocumentationGenerator_try_block E f dl w1) as [[r w2] e2]
  end.
  unfold result_of, world_of, events_of, datetime_now, write_status in Hf, Hc.
  cbn [fst snd llm_calls transcription_files status_db] in Hf, Hc.
  destruct Hf as (_ & _ & _ & _ & _ & _ & _ & F8).
  assert (Hfwd : (0 < calls_of CapGenerator e2)%nat ->
                 exists td, transcription_files w !! f = Some td
                            /\ PyStr.is_empty (transcription td) = false
                            /\ 50 <= PyStr.len (PyStr.strip (transcription td))).
  { intros H. destruct (F8 H) as (td & H1 & H2). exists td.
    apply validate_transcription_ok in H2. tauto. }
  assert (Hbwd : (exists td, transcription_files w !! f = Some td
                             /\ PyStr.is_empty (transcription td) = false
                             /\ 50 <= PyStr.len (PyStr.strip (transcription td))) ->
                 (0 < calls_of CapGenerator e2)%nat).
  { intros (td & H1 & H2 & H3).
    specialize (Hc td H1 (proj2 (validate_transcription_ok _) (conj H2 H3))). lia. }
  destruct r; cbv zeta; unfold events_of; cbn [snd app]; count_calls;
    cbn [capability_eqb]; rewrite ?Nat.add_0_r; split; auto.
Qed.

(** X9.  A call of [DocumentationAgent.generate_documentation] that reports
    a failure has stored nothing: the documentation database is as before,
    every file's document reads as before, and the PDF renderer was not
    called. *)
Theorem failed_generation_stores_nothing
        (E : env) (f dl : string) (w : world) (msg : string) :
  result_of (DocumentationAgent_generate_documentation E f dl w) = GenerationFailure msg ->
  let w' := world_of (DocumentationAgent_generate_documentation E f dl w) in
  documentation_db w' = documentation_db w
  /\ (forall g, result_of (get_documentation g w') = result_of (get_documentation g w))
  /\ calls_of CapRenderer
       (events_of (DocumentationAgent_generate_documentation E f dl w)) = 0%nat.
Proof.
  rewrite agent_run_shape.
  match goal with
  | |- context [DocumentationGenerator_try_block E f dl ?w1] =>
      pose proof (try_block_frame E f dl w1) as Hf;
      cbv zeta in Hf;
      destruct (DocumentationGenerator_try_block E f dl w1) as [[r w2] e2]
  end.
  unfold result_of, world_of, events_of, datetime_now, write_status in Hf.
  cbn [fst snd llm_calls transcription_files status_db documentation_db] in Hf.
  destruct Hf as (_ & _ & _ & _ & _ & F6 & _).
  destruct r as [g|e]; cbv zeta; unfold result_of, world_of, events_of; cbn [fst snd].
  - destruct g as [[[a b] c] d]. discriminate.
  - intros _. destruct (F6 e eq_refl) as [D1 D2].
    assert (Hdb : documentation_db
                    (write_status f "failed" 0 "documentation"
                       (Some ("Error in generate_documentation: " +:+
                              "Error generating documentation: " +:+ e))
                       (write_status f "failed" 0 "documentation"
                          (Some ("Error generating documentation: " +:+ e)) w2))
                  = documentation_db w).
    { rewrite !documentation_db_write_status. exact D1. }
    split; [exact Hdb|]. split.
    + intros g. apply get_documentation_same_db. exact Hdb.
    + cbn [app]. count_calls. rewrite D2. reflexivity.
Qed.

Lemma failed_generation_stores_nothing_witness :
  let x := DocumentationAgent_generate_documentation failing_provider_env "f1" "Simple"
             transcribed_f1 in
  documentation_db (world_of x) = documentation_db transcribed_f1
  /\ (forall g, result_of (get_documentation g (world_of x))
                = result_of (get_documentation g transcribed_f1))
  /\ calls_of CapRenderer (events_of x) = 0%nat.
Proof.
  eapply (failed_generation_stores_nothing failing_provider_env "f1" "Simple" transcribed_f1).
  vm_compute. reflexivity.
Defined.

(** ** Generation: the successful path *)

Lemma generate_pdf_attempts_world E r a p w :
  generate_pdf_attempts E r a p w
  = (result_of (generate_pdf_attempts E r a p empty_world), w,
     events_of (generate_pdf_attempts E r a p empty_world)).
Proof.
  revert a. induction r as [|r IH]; intros a; [reflexivity|].
  cbn [generate_pdf_attempts]. run.
  destruct (generate_pdf_from_json E p a); [reflexivity|].
  destruct (a =? max_retries - 1)%nat; [reflexivity|].
  rewrite IH.
  destruct (generate_pdf_attempts E r (S a) p empty_world) as [[b w2] e2].
  reflexivity.
Qed.

Lemma agent_first_reply E f dl w td c :
  transcription_files w !! f = Some td ->
  _validate_transcription (transcription td) = Returned tt ->
  llm_generate_response E (llm_calls w) (convert_doc_level dl) (transcription td)
  = Returned c ->
  content_long_enough c = true ->
  write_documentation_file E f = None ->
  let level := convert_doc_level dl in
  let v := DocumentationValidator.validate_content c level in
  let path := "data/documentations/" +:+ f +:+ ".json" in
  let pdf := result_of (_generate_pdf_with_retry E path empty_world) in
  let id := "doc_" +:+ uuid4_prefix E (uuid_calls w) in
  exists t w0,
    let d := Documentation id f "Business Requirements Document - Untitled" c
               (level_value level) t (DocumentationValidator.word_count c)
               (DocumentationValidator.quality_score_of v)
               (match DocumentationValidator.issues_of v with
                | [] => None
                | _ => Some (DocumentationValidator.issues_of v)
                end)
               pdf in
    DocumentationAgent_generate_documentation E f dl w
    = (GenerationSuccess id path pdf (DocumentationValidator.quality_score_of v),
       write_status f "completed" 100 "documentation" None (stored_world d w0),
       [EStage Generation; EStatus f "processing" 75 "documentation" None;
        EStatus f "processing" 80 "documentation" None; ECall CapGenerator]
         ++ events_of (_generate_pdf_with_retry E path empty_world)
         ++ [EStatus f "completed" 100 "documentation" None])
    /\ documentation_db w0 = documentation_db w.
Proof.
  intros Hf Hv Hr Hc Hw level v path pdf id. subst level v path pdf id.
  eexists. eexists. split; [|shelve].
  unfold DocumentationAgent_generate_documentation,
    DocumentationGenerator_generate_documentation, generator_except,
    DocumentationGenerator_try_block, _save_documentation,
    _generate_content_with_retry, max_retries.
  cbn [generate_content_attempts]. unfold LLMService_generate_response.
  run_all.
  rewrite get_transcription_found with (td := td) by (run_all; exact Hf).
  run_all. rewrite Hv. run_all. rewrite Hr, Hc. run_all.
  unfold _generate_pdf_with_retry.
  destruct (DocumentationValidator.validate_content c (convert_doc_level dl))
    as [[is_valid q] issues].
  rewrite Hw. run_all.
  rewrite generate_pdf_attempts_world.
  destruct (generate_pdf_attempts E max_retries 0 ("data/documentations/" +:+ f +:+ ".json")
              empty_world) as [[pdf wp] ep].
  unfold result_of, events_of. cbn [fst snd].
  rewrite store_documentation_run. run_all.
  unfold DocumentationValidator.quality_score_of, DocumentationValidator.issues_of.
  cbn [fst snd success_result]. rewrite ?app_nil_r.
  destruct pdf; reflexivity.
  Unshelve. reflexivity.
Qed.

(** X10.  When a usable transcription is stored, the provider's first reply
    has more than 100 characters once stripped and the document file can be
    written, [DocumentationAgent.generate_documentation] succeeds after one
    provider call, whatever the validator says about the reply and whatever
    the PDF renderer does: the reply is stored as the file's document, with
    the validator's score and issues, and the status is "completed" at 100. *)
Theorem accepted_reply_is_stored
        (E : env) (f dl : string) (w : world) (td : transcription_data) (c : string) :
  transcription_files w !! f = Some td ->
  _validate_transcription (transcription td) = Returned tt ->
  llm_generate_response E (llm_calls w) (convert_doc_level dl) (transcription td)
  = Returned c ->
  content_long_enough c = true ->
  write_documentation_file E f = None ->
  let x := DocumentationAgent_generate_documentation E f dl w in
  let v := DocumentationValidator.validate_content c (convert_doc_level dl) in
  exists d,
    result_of x
    = GenerationSuccess (documentation_id d) ("data/documentations/" +:+ f +:+ ".json")
                        (pdf_path d) (DocumentationValidator.quality_score_of v)
    /\ result_of (get_documentation f (world_of x)) = Returned (Some (EntryDocumentation d))
    /\ content d = c
    /\ documentation_level d = level_value (convert_doc_level dl)
    /\ word_count d = DocumentationValidator.word_count c
    /\ quality_score d = DocumentationValidator.quality_score_of v
    /\ validation_issues d
       = match DocumentationValidator.issues_of v with
         | [] => None
         | _ => Some (DocumentationValidator.issues_of v)
         end
    /\ calls_of CapGenerator (events_of x) = 1%nat
    /\ status_field (world_of x) f "status" = Some (VStr "completed")
    /\ status_field (world_of x) f "progress" = Some (VInt 100).
Proof.
  intros Hf Hv Hr Hc Hw x v. subst x v.
  destruct (agent_first_reply E f dl w td c Hf Hv Hr Hc Hw) as (t & w0 & Hrun & _).
  cbv zeta in Hrun.
  match type of Hrun with
  | context [stored_world ?d0 w0] => set (d := d0) in *; exists d
  end.
  rewrite Hrun. unfold world_of, events_of. cbn [fst snd].
  split; [reflexivity|]. split.
  { rewrite (get_documentation_same_db f _ (stored_world d w0)) by reflexivity.
    apply (get_documentation_stored d w0 (uuid4_prefix E (uuid_calls w))).
    reflexivity. }
  repeat (split; [reflexivity|]).
  split.
  { count_calls. cbn [capability_eqb].
    pose proof (generate_pdf_attempts_frame E max_retries 0
                  ("data/documentations/" +:+ f +:+ ".json") empty_world) as Hp.
    cbv zeta in Hp. destruct Hp as (_ & _ & P3 & _).
    unfold _generate_pdf_with_retry. unfold events_of in P3.
    rewrite (P3 CapGenerator) by discriminate. reflexivity. }
  rewrite !status_field_write_status.
  destruct (status_record_fields f "completed" 100 "documentation"
              (clock (stored_world d w0)) None) as (_ & S2 & S3 & _).
  split; assumption.
Qed.

Lemma accepted_reply_is_stored_witness :
  DocumentationValidator.is_valid_of
    (DocumentationValidator.validate_content sample_reply SIMPLE) = false
  /\ let x := DocumentationAgent_generate_documentation good_env "f1" "Simple" transcribed_f1 in
     let v := DocumentationValidator.validate_content sample_reply (convert_doc_level "Simple") in
     exists d,
       result_of x
       = GenerationSuccess (documentation_id d) ("data/documentations/" +:+ "f1" +:+ ".json")
                           (pdf_path d) (DocumentationValidator.quality_score_of v)
       /\ result_of (get_documentation "f1" (world_of x))
          = Returned (Some (EntryDocumentation d))
       /\ content d = sample_reply
       /\ documentation_level d = level_value (convert_doc_level "Simple")
       /\ word_count d = DocumentationValidator.word_count sample_reply
       /\ quality_score d = DocumentationValidator.quality_score_of v
       /\ validation_issues d
          = match DocumentationValidator.issues_of v with
            | [] => None
            | _ => Some (DocumentationValidator.issues_of v)
            end
       /\ calls_of CapGenerator (events_of x) = 1%nat
       /\ status_field (world_of x) "f1" "status" = Some (VStr "completed")
       /\ status_field (world_of x) "f1" "progress" = Some (VInt 100).
Proof.
  split; [vm_compute; reflexivity|].
  apply (accepted_reply_is_stored good_env "f1" "Simple" transcribed_f1
           (TranscriptionData sample_transcription
              (TranscriptionMetadata 12 (Some "en") (Some "mp3") (Some 1)))
           sample_reply).
  - vm_compute. reflexivity.
  - vm_compute. reflexivity.
  - reflexivity.
  - vm_compute. reflexivity.
  - reflexivity.
Defined.

Lemma generate_pdf_never (E : env) (path : string) (w : world) :
  (forall attempt, generate_pdf_from_json E path attempt = None) ->
  _generate_pdf_with_retry E path w
  = (None, w, [ECall CapRenderer; ECall CapRenderer; ECall CapRenderer]).
Proof.
  intros H. unfold _generate_pdf_with_retry, max_retries.
  cbn [generate_pdf_attempts]. run. rewrite !H. reflexivity.
Qed.

(** X11.  A PDF renderer that fails on every attempt does not fail the
    generation: under the conditions of a successful first reply,
    [DocumentationAgent.generate_documentation] still succeeds after exactly
    [max_retries] = 3 renderer calls, returns no PDF path, and the stored
    document has no PDF path. *)
Theorem renderer_failure_is_not_fatal
        (E : env) (f dl : string) (w : world) (td : transcription_data) (c : string) :
  transcription_files w !! f = Some td ->
  _validate_transcription (transcription td) = Returned tt ->
  llm_generate_response E (llm_calls w) (convert_doc_level dl) (transcription td)
  = Returned c ->
  content_long_enough c = true ->
  write_documentation_file E f = None ->
  (forall attempt,
      generate_pdf_from_json E ("data/documentations/" +:+ f +:+ ".json") attempt = None) ->
  let x := DocumentationAgent_generate_documentation E f dl w in
  exists d,
    result_of x
    = GenerationSuccess (documentation_id d) ("data/documentations/" +:+ f +:+ ".json") None
        (quality_score d)
    /\ result_of (get_documentation f (world_of x)) = Returned (Some (EntryDocumentation d))
    /\ pdf_path d = None
    /\ calls_of CapRenderer (events_of x) = max_retries.
Proof.
  intros Hf Hv Hr Hc Hw Hpdf x. subst x.
  destruct (agent_first_reply E f dl w td c Hf Hv Hr Hc Hw) as (t & w0 & Hrun & _).
  cbv zeta in Hrun.
  rewrite (generate_pdf_never E _ empty_world Hpdf) in Hrun.
  unfold result_of at 1 2, events_of at 1 in Hrun. cbn [fst snd] in Hrun.
  match type of Hrun with
  | context [stored_world ?d0 w0] => set (d := d0) in *; exists d
  end.
  rewrite Hrun. unfold world_of, events_of. cbn [fst snd].
  split; [reflexivity|]. split.
  { rewrite (get_documentation_same_db f _ (stored_world d w0)) by reflexivity.
    apply (get_documentation_stored d w0 (uuid4_prefix E (uuid_calls w))).
    reflexivity. }
  split; reflexivity.
Qed.

Lemma renderer_failure_is_not_fatal_witness :
  let x := DocumentationAgent_generate_documentation good_env "f1" "Simple" transcribed_f1 in
  exists d,
    result_of x
    = GenerationSuccess (documentation_id d) ("data/documentations/" +:+ "f1" +:+ ".json") None
        (quality_score d)
    /\ result_of (get_documentation "f1" (world_of x))
       = Returned (Some (EntryDocumentation d))
    /\ pdf_path d = None
    /\ calls_of CapRenderer (events_of x) = max_retries.
Proof.
  apply (renderer_failure_is_not_fatal good_env "f1" "Simple" transcribed_f1
           (TranscriptionData sample_transcription
              (TranscriptionMetadata 12 (Some "en") (Some "mp3") (Some 1)))
           sample_reply).
  - vm_compute. reflexivity.
  - vm_compute. reflexivity.
  - reflexivity.
  - vm_compute. reflexivity.
  - reflexivity.
  - intros attempt. reflexivity.
Defined.

(** ** Generation: the content retry loop *)

(** X12.  [_generate_content_with_retry] returns the first reply that has
    more than 100 characters once stripped: if the replies to the first [k]
    calls (k < 3) are exceptions or too short and the next reply is long
    enough, that reply is returned after exactly [k + 1] provider calls, and
    the progress values written are 80, 85, ... one per call. *)
Theorem first_acceptable_reply_wins
        (E : env) (t : string) (level : DocumentationLevel) (f : string) (w : world)
        (k : nat) (c : string) :
  (k < max_retries)%nat ->
  (forall j, (j < k)%nat ->
     match llm_generate_response E (llm_calls w + j) level t with
     | Returned c' => content_long_enough c' = false
     | Raised _ => True
     end) ->
  llm_generate_response E (llm_calls w + k) level t = Returned c ->
  content_long_enough c = true ->
  let x := _generate_content_with_retry E t level f w in
  result_of x = Returned (Some c)
  /\ calls_of CapGenerator (events_of x) = S k
  /\ llm_calls (world_of x) = (llm_calls w + S k)%nat
  /\ progress_values f (events_of x)
     = map (fun i => 80 + 5 * Z.of_nat i) (seq 0 (S k)).
Proof.
  intros Hk Hrej Hr Hc x. subst x.
  assert (Hstep : forall j, (j < k)%nat ->
            match llm_generate_response E (llm_calls w + j) level t with
            | Returned content =>
                if content_long_enough content then Returned content
                else Raised "Generated content is too short or empty"
            | Raised e => Raised e
            end
            = Raised match llm_generate_response E (llm_calls w + j) level t with
                     | Returned _ => "Generated content is too short or empty"
                     | Raised e => e
                     end).
  { intros j Hj. specialize (Hrej j Hj).
    destruct (llm_generate_response E (llm_calls w + j) level t); [|reflexivity].
    now rewrite Hrej. }
  unfold _generate_content_with_retry, max_retries in *.
  cbn [generate_content_attempts]. unfold LLMService_generate_response.
  assert (Heqb : forall s, String.eqb s s = true) by (intros s; apply String.eqb_refl).
  destruct k as [|[|[|k]]]; [| | |lia].
  - rewrite Nat.add_0_r in Hr. run_all. rewrite Hr, Hc. run_all.
    cbn [fst snd]. count_calls. cbn [capability_eqb progress_values map seq].
    rewrite Heqb. repeat split; try reflexivity; lia.
  - pose proof (Hstep 0%nat ltac:(lia)) as H0. rewrite Nat.add_0_r in H0.
    replace (llm_calls w + 1)%nat with (S (llm_calls w)) in Hr by lia.
    run_all. rewrite H0. run_all. rewrite Hr, Hc. run_all.
    cbn [fst snd]. count_calls. cbn [capability_eqb progress_values map seq].
    rewrite !Heqb. repeat split; try reflexivity; lia.
  - pose proof (Hstep 0%nat ltac:(lia)) as H0. rewrite Nat.add_0_r in H0.
    pose proof (Hstep 1%nat ltac:(lia)) as H1.
    replace (llm_calls w + 1)%nat with (S (llm_calls w)) in H1 by lia.
    replace (llm_calls w + 2)%nat with (S (S (llm_calls w))) in Hr by lia.
    run_all. rewrite H0. run_all. rewrite H1. run_all. rewrite Hr, Hc. run_all.
    cbn [fst snd]. count_calls. cbn [capability_eqb progress_values map seq].
    rewrite !Heqb. repeat split; try reflexivity; lia.
Qed.

Lemma first_acceptable_reply_wins_witness :
  let E := sample_env true sample_transcription
             (fun n => match n with
                       | O => Raised "timeout"
                       | S O => Returned "too short"
                       | _ => Returned sample_reply
                       end) in
  let x := _generate_content_with_retry E sample_transcription SIMPLE "f1" empty_world in
  result_of x = Returned (Some sample_reply)
  /\ calls_of CapGenerator (events_of x) = 3%nat
  /\ llm_calls (world_of x) = 3%nat
  /\ progress_values "f1" (events_of x) = [80; 85; 90].
Proof.
  intros E.
  apply (first_acceptable_reply_wins E sample_transcription SIMPLE "f1" empty_world 2
           sample_reply).
  - unfold max_retries. lia.
  - intros [|[|j]] Hj; [exact I|vm_compute; reflexivity|lia].
  - reflexivity.
  - vm_compute. reflexivity.
Defined.

Lemma content_not_long_enough (c : string) :
  PyStr.len (PyStr.strip c) <= 100 -> content_long_enough c = false.
Proof.
  intros H. unfold content_long_enough.
  destruct (PyStr.is_empty c); [reflexivity|]. cbn [negb andb].
  apply Z.ltb_ge. exact H.
Qed.

(** X13.  A reply of at most 100 characters once stripped counts as a failed
    attempt: when the provider answers the three calls of a request with such
    replies, [DocumentationAgent.generate_documentation] fails with the
    message "... Generated content is too short or empty" after exactly three
    provider calls, stores no document and records the failure in the
    status. *)
Theorem short_replies_fail_generation
        (E : env) (f dl : string) (w : world) (td : transcription_data) :
  transcription_files w !! f = Some td ->
  _validate_transcription (transcription td) = Returned tt ->
  (forall j, (j < max_retries)%nat ->
     exists c,
       llm_generate_response E (llm_calls w + j) (convert_doc_level dl) (transcription td)
       = Returned c
       /\ PyStr.len (PyStr.strip c) <= 100) ->
  let x := DocumentationAgent_generate_documentation E f dl w in
  let msg := "Error in generate_documentation: Error generating documentation: "
               +:+ "Generated content is too short or empty" in
  result_of x = GenerationFailure msg
  /\ calls_of CapGenerator (events_of x) = max_retries
  /\ documentation_db (world_of x) = documentation_db w
  /\ status_field (world_of x) f "status" = Some (VStr "failed")
  /\ status_field (world_of x) f "progress" = Some (VInt 0)
  /\ status_field (world_of x) f "error" = Some (VStr msg).
Proof.
  intros Hf Hv Hshort x msg. subst x msg. unfold max_retries in *.
  destruct (Hshort 0%nat ltac:(lia)) as (c0 & H0 & L0).
  destruct (Hshort 1%nat ltac:(lia)) as (c1 & H1 & L1).
  destruct (Hshort 2%nat ltac:(lia)) as (c2 & H2 & L2).
  rewrite Nat.add_0_r in H0.
  replace (llm_calls w + 1)%nat with (S (llm_calls w)) in H1 by lia.
  replace (llm_calls w + 2)%nat with (S (S (llm_calls w))) in H2 by lia.
  apply content_not_long_enough in L0, L1, L2.
  unfold DocumentationAgent_generate_documentation,
    DocumentationGenerator_generate_documentation, generator_except,
    DocumentationGenerator_try_block, _generate_content_with_retry, max_retries.
  cbn [generate_content_attempts]. unfold LLMService_generate_response.
  run_all.
  rewrite (get_transcription_found f _ td) by (run_all; exact Hf).
  run_all. rewrite Hv. run_all.
  rewrite H0, L0. run_all. rewrite H1, L1. run_all. rewrite H2, L2. run_all.
  cbn [fst snd]. count_calls. cbn [capability_eqb].
  split; [reflexivity|]. split; [reflexivity|]. split; [reflexivity|].
  match goal with
  | |- context [write_status f "failed" 0 "documentation" (Some ?m) ?w1] =>
      lazymatch w1 with
      | context [write_status f "failed" 0 "documentation"] =>
          destruct (failed_record f 0 "documentation" m w1 eq_refl) as (R1 & R2 & _ & R4)
      end
  end.
  auto.
Qed.

Lemma short_replies_fail_generation_witness :
  let E := sample_env true sample_transcription (fun _ => Returned "Too short.") in
  let x := DocumentationAgent_generate_documentation E "f1" "Simple" transcribed_f1 in
  let msg := "Error in generate_documentation: Error generating documentation: "
               +:+ "Generated content is too short or empty" in
  result_of x = GenerationFailure msg
  /\ calls_of CapGenerator (events_of x) = max_retries
  /\ documentation_db (world_of x) = documentation_db transcribed_f1
  /\ status_field (world_of x) "f1" "status" = Some (VStr "failed")
  /\ status_field (world_of x) "f1" "progress" = Some (VInt 0)
  /\ status_field (world_of x) "f1" "error" = Some (VStr msg).
Proof.
  intros E.
  apply (short_replies_fail_generation E "f1" "Simple" transcribed_f1
           (TranscriptionData sample_transcription
              (TranscriptionMetadata 12 (Some "en") (Some "mp3") (Some 1)))).
  - vm_compute. reflexivity.
  - vm_compute. reflexivity.
  - intros j _. exists "Too short.". split; [reflexivity|]. vm_compute. discriminate.
Defined.

(** ** The transcription stage *)

(** Run a computation after the answers of the environment are known. *)
Ltac go :=
  repeat (run;
          repeat match goal with
                 | H : _ = _ |- _ => rewrite H
                 end;
          cbn [negb]);
  cbn [fst snd]; unfold calls_of; cbn [List.filter is_call capability_eqb length].

(** X14.  [MediaProcessingAgent.process_file] succeeds exactly when the file
    exists, the audio path (the file itself, or for a video what ffmpeg
    extracted) exists, the Whisper model loads and Whisper transcribes that
    path; the text is Whisper's, the metadata holds the duration of the audio
    (0 when it cannot be read), Whisper's language and the extension of the
    audio path.  Whisper and ffmpeg are called at most once, ffmpeg never
    for a file that is not a video. *)
Theorem transcription_success_provenance
        (E : env) (f p : string) (w : world) (t : string) (m : transcription_metadata) :
  let x := MediaProcessingAgent_process_file E f p w in
  (result_of x = TranscriptionSuccess t m
   <-> exists audio_path lang,
        os_path_exists E p = true
        /\ (if is_video_file E p then ffmpeg_run E p = Returned audio_path
            else audio_path = p)
        /\ os_path_exists E audio_path = true
        /\ whisper_load_model E = None
        /\ whisper_transcribe E audio_path = Returned (t, lang)
        /\ m = TranscriptionMetadata
                 (match audio_duration E audio_path with
                  | Returned d => d
                  | Raised _ => 0%Q
                  end)
                 (Some lang) (Some (path_extension E audio_path)) None)
  /\ (calls_of CapWhisper (events_of x) <= 1)%nat
  /\ (calls_of CapFfmpeg (events_of x) <= 1)%nat
  /\ (is_video_file E p = false -> calls_of CapFfmpeg (events_of x) = 0%nat).
Proof.
  cbv zeta.
  unfold MediaProcessingAgent_process_file, process_audio, FFmpegTool_arun,
    AudioProcessingTool_arun, WhisperTool_arun, MediaProcessor_transcribe_audio,
    MediaProcessor_extract_audio_from_video.
  destruct (os_path_exists E p) eqn:Hp.
  2: { go. repeat split; try lia; try discriminate.
       intros (a & l & H & _). discriminate. }
  destruct (is_video_file E p) eqn:Hvid.
  - destruct (ffmpeg_run E p) as [audio|e] eqn:Hff.
    2: { go. repeat split; try lia; try discriminate.
         intros (a & l & _ & H & _). discriminate. }
    destruct (os_path_exists E audio) eqn:Ha.
    2: { go. repeat split; try lia; try discriminate.
         intros (a & l & _ & H & H' & _). inversion H; subst. congruence. }
    destruct (whisper_load_model E) as [e|] eqn:Hl.
    { go. repeat split; try lia; try discriminate.
      intros (a & l & _ & _ & _ & H & _). discriminate. }
    destruct (whisper_transcribe E audio) as [[text lang]|e] eqn:Ht.
    2: { go. repeat split; try lia; try discriminate.
         intros (a & l & _ & H & _ & _ & H' & _). inversion H; subst. congruence. }
    go. repeat split; try lia; try discriminate.
    + intros H. inversion H; subst. exists audio, lang. auto 10.
    + intros (a & l & _ & H & _ & _ & H' & ->). inversion H; subst.
      rewrite Ht in H'. inversion H'; subst. reflexivity.
  - destruct (whisper_load_model E) as [e|] eqn:Hl.
    { go. repeat split; try lia; try discriminate.
      intros (a & l & _ & _ & _ & H & _). discriminate. }
    destruct (whisper_transcribe E p) as [[text lang]|e] eqn:Ht.
    2: { go. repeat split; try lia; try discriminate.
         intros (a & l & _ & -> & _ & _ & H' & _). congruence. }
    go. repeat split; try lia; try discriminate.
    + intros H. inversion H; subst. exists p, lang. auto 10.
    + intros (a & l & _ & -> & _ & _ & H' & ->).
      rewrite Ht in H'. inversion H'; subst. reflexivity.
Qed.

(** ** The storage stage *)

(** X15.  [VectorStorageAgent.store_transcription] calls the storage service
    once.  When it succeeds, [retrieve_transcription] and the generator's
    [_get_transcription_with_retry] return the stored text with its
    metadata, where a missing language, file type or speaker count is
    replaced by "en", "unknown" and 1; when it fails, no transcription file
    changes and the status is "failed" at progress 0 with the message as
    error.  The transcriptions of other files and the documentation database
    are never touched. *)
Theorem stored_transcription_round_trip
        (E : env) (f t : string) (m : transcription_metadata) (w : world) :
  let x := VectorStorageAgent_store_transcription E f t m w in
  let td := TranscriptionData t
              (TranscriptionMetadata (duration m)
                 (Some (default "en" (language m)))
                 (Some (default "unknown" (file_type m)))
                 (Some (default 1 (speakers m)))) in
  match result_of x with
  | StorageSuccess id path =>
      id = f /\ path = "data/transcriptions/" +:+ f +:+ ".json"
      /\ write_transcription_file E f = None
      /\ result_of (LocalStorageService_retrieve_transcription f (world_of x)) = Some td
      /\ result_of (_get_transcription_with_retry f (world_of x)) = Returned (Some td)
  | StorageFailure msg =>
      (exists e, write_transcription_file E f = Some e
                 /\ msg = "Error storing transcription: " +:+ e)
      /\ transcription_files (world_of x) = transcription_files w
      /\ status_field (world_of x) f "status" = Some (VStr "failed")
      /\ status_field (world_of x) f "progress" = Some (VInt 0)
      /\ status_field (world_of x) f "error" = Some (VStr msg)
  end
  /\ (forall g, g <> f ->
        result_of (LocalStorageService_retrieve_transcription g (world_of x))
        = result_of (LocalStorageService_retrieve_transcription g w))
  /\ calls_of CapStoreTranscription (events_of x) = 1%nat
  /\ documentation_db (world_of x) = documentation_db w.
Proof.
  cbv zeta.
  unfold VectorStorageAgent_store_transcription, LocalStorageService_store_transcription.
  destruct (write_transcription_file E f) as [e|] eqn:Hw.
  - go. split; [|split; [|split; reflexivity]].
    + split; [eauto|]. split; [reflexivity|].
      match goal with
      | |- context [write_status f "failed" 0 "storage" (Some ?msg) ?w1] =>
          destruct (failed_record f 0 "storage" msg w1 eq_refl) as (R1 & R2 & _ & R4)
      end.
      auto.
    + intros g Hg. unfold LocalStorageService_retrieve_transcription. run. reflexivity.
  - go. split; [|split; [|split; reflexivity]].
    + split; [reflexivity|]. split; [reflexivity|]. split; [reflexivity|].
      assert (Hr : forall w1, transcription_files w1 = <[f := TranscriptionData t
              (TranscriptionMetadata (duration m)
                 (Some (default "en" (language m)))
                 (Some (default "unknown" (file_type m)))
                 (Some (default 1 (speakers m))))]> (transcription_files w) ->
              transcription_files w1 !! f = Some (TranscriptionData t
              (TranscriptionMetadata (duration m)
                 (Some (default "en" (language m)))
                 (Some (default "unknown" (file_type m)))
                 (Some (default 1 (speakers m)))))).
      { intros w1 ->. apply lookup_insert_eq. }
      split.
      * unfold LocalStorageService_retrieve_transcription. run. apply Hr. reflexivity.
      * match goal with
        | |- context [_get_transcription_with_retry f ?w1] =>
            rewrite (get_transcription_found f w1 _ (Hr w1 eq_refl))
        end.
        reflexivity.
    + intros g Hg. unfold LocalStorageService_retrieve_transcription. run.
      unfold write_status. cbn [transcription_files]. now rewrite lookup_insert_ne.
Qed.

(** ** File validation *)

(** X21.  [FileUploadAgent.validate_file] accepts a file exactly when it
    exists, its type is allowed, its size can be read and is at most the
    configured maximum; the checks are made in that order, with one call of
    the validation tool.  A rejection leaves the status "failed" at progress
    0 with the tool's message as error; an accepted file leaves it
    "processing" at 20. *)
Theorem validation_verdict (E : env) (f p : string) (w : world) :
  let x := FileUploadAgent_validate_file E f p w in
  ((exists size, result_of x = Valid f p size)
   <-> os_path_exists E p = true
       /\ is_valid_file_type E p = true
       /\ exists size, os_path_getsize E p = Returned size /\ size <= max_file_size_bytes E)
  /\ (os_path_exists E p = false -> result_of x = Invalid "File not found")
  /\ (os_path_exists E p = true -> is_valid_file_type E p = false ->
      result_of x = Invalid "Invalid file type")
  /\ calls_of CapValidator (events_of x) = 1%nat
  /\ match result_of x with
     | Valid _ _ size =>
         os_path_getsize E p = Returned size
         /\ status_field (world_of x) f "status" = Some (VStr "processing")
         /\ status_field (world_of x) f "progress" = Some (VInt 20)
         /\ status_field (world_of x) f "error" = None
     | Invalid msg =>
         status_field (world_of x) f "status" = Some (VStr "failed")
         /\ status_field (world_of x) f "progress" = Some (VInt 0)
         /\ status_field (world_of x) f "error" = Some (VStr msg)
     end.
Proof.
  cbv zeta. rewrite validate_file_run.
  unfold FileValidationTool_check.
  assert (Hfail : forall msg,
    PyStr.is_empty msg = false ->
    status_field (write_status f "failed" 0 "validation" (Some msg)
                    (write_status f "processing" 20 "validation" None w)) f "status"
    = Some (VStr "failed")
    /\ status_field (write_status f "failed" 0 "validation" (Some msg)
                       (write_status f "processing" 20 "validation" None w)) f "progress"
       = Some (VInt 0)
    /\ status_field (write_status f "failed" 0 "validation" (Some msg)
                       (write_status f "processing" 20 "validation" None w)) f "error"
       = Some (VStr msg)).
  { intros msg Hne.
    destruct (failed_record f 0 "validation" msg
                (write_status f "processing" 20 "validation" None w) Hne)
      as (R1 & R2 & _ & R4).
    auto. }
  destruct (os_path_exists E p) eqn:Hp; cbn [negb].
  2: { unfold result_of, events_of, world_of. cbn [fst snd].
       split; [split; [intros [s Hs]; discriminate|intros (Hc & _); discriminate]|].
       split; [reflexivity|]. split; [discriminate|]. split; [reflexivity|].
       apply Hfail. reflexivity. }
  destruct (is_valid_file_type E p) eqn:Hty; cbn [negb].
  2: { unfold result_of, events_of, world_of. cbn [fst snd].
       split; [split; [intros [s Hs]; discriminate|intros (_ & Hc & _); discriminate]|].
       split; [discriminate|]. split; [reflexivity|]. split; [reflexivity|].
       apply Hfail. reflexivity. }
  destruct (os_path_getsize E p) as [size|e] eqn:Hsz.
  2: { unfold result_of, events_of, world_of. cbn [fst snd].
       split; [split; [intros [s Hs]; discriminate
                      |intros (_ & _ & s & Hc & _); discriminate]|].
       split; [discriminate|]. split; [discriminate|]. split; [reflexivity|].
       apply Hfail. reflexivity. }
  destruct (size <=? max_file_size_bytes E) eqn:Hle; cbn [negb].
  - apply Z.leb_le in Hle.
    unfold result_of, events_of, world_of. cbn [fst snd].
    rewrite !status_field_write_status.
    destruct (status_record_fields f "processing" 20 "validation" (clock w) None)
      as (_ & S2 & S3 & _ & _ & S6 & _).
    split; [split; [intros _; eauto|intros _; eauto]|].
    split; [discriminate|]. split; [discriminate|]. split; [reflexivity|].
    auto.
  - apply Z.leb_gt in Hle.
    unfold result_of, events_of, world_of. cbn [fst snd].
    split; [split; [intros [s Hs]; discriminate
                   |intros (_ & _ & s & Hc & Hc'); inversion Hc; subst; lia]|].
    split; [discriminate|]. split; [discriminate|]. split; [reflexivity|].
    apply Hfail. reflexivity.
Qed.

(** ** Footprint and stages of the pipeline *)

Lemma run_footprint_refl E f w : run_footprint E f w w.
Proof. unfold run_footprint, others_kept. auto. Qed.

Lemma run_footprint_trans E f w1 w2 w3 :
  run_footprint E f w1 w2 -> run_footprint E f w2 w3 -> run_footprint E f w1 w3.
Proof.
  unfold run_footprint, others_kept.
  intros (A1 & A2 & A3) (B1 & B2 & B3). repeat split.
  - intros g Hg. rewrite B1, A1 by exact Hg. reflexivity.
  - intros g Hg. rewrite B2, A2 by exact Hg. reflexivity.
  - intros k H1 H2. rewrite B3, A3 by assumption. reflexivity.
Qed.

Lemma run_footprint_write_status E f s p st err w :
  run_footprint E f w (write_status f s p st err w).
Proof.
  unfold run_footprint, others_kept, write_status. cbn. repeat split; auto.
  intros g Hg. now rewrite lookup_insert_ne.
Qed.

Lemma run_footprint_same E f w w' :
  status_db w' = status_db w ->
  transcription_files w' = transcription_files w ->
  documentation_db w' = documentation_db w ->
  run_footprint E f w w'.
Proof.
  unfold run_footprint, others_kept. intros -> -> ->. auto.
Qed.

Lemma stages_entered_cons_status f s p st err l :
  stages_entered (EStatus f s p st err :: l) = stages_entered l.
Proof. reflexivity. Qed.

Lemma stages_entered_cons_stage s l :
  stages_entered (EStage s :: l) = s :: stages_entered l.
Proof. reflexivity. Qed.

Lemma stages_entered_cons_call c l :
  stages_entered (ECall c :: l) = stages_entered l.
Proof. reflexivity. Qed.

Lemma generate_content_attempts_stages E r a t level f w :
  stages_entered (events_of (generate_content_attempts E r a t level f w)) = [].
Proof.
  revert a w. induction r as [|r IH]; intros a w; [reflexivity|].
  cbn [generate_content_attempts]. unfold LLMService_generate_response. run_all.
  destruct (llm_generate_response E (llm_calls w) level t) as [c|e];
    [destruct (content_long_enough c)|];
    try destruct (a =? 2)%nat;
    try (match goal with
         | |- context [generate_content_attempts E r ?a' t level f ?w1] =>
             specialize (IH a' w1);
             destruct (generate_content_attempts E r a' t level f w1) as [[b w2] e2]
         end);
    unfold events_of in *; cbn [fst snd] in *;
    rewrite ?stages_entered_cons_status, ?stages_entered_cons_call; auto.
Qed.

Lemma generate_pdf_attempts_stages E r a p w :
  stages_entered (events_of (generate_pdf_attempts E r a p w)) = [].
Proof.
  revert a. induction r as [|r IH]; intros a; [reflexivity|].
  cbn [generate_pdf_attempts]. run.
  destruct (generate_pdf_from_json E p a); [reflexivity|].
  destruct (a =? max_retries - 1)%nat; [reflexivity|].
  specialize (IH (S a)).
  destruct (generate_pdf_attempts E r (S a) p w) as [[b w2] e2].
  unfold events_of in *. cbn [fst snd] in *.
  rewrite stages_entered_cons_call. exact IH.
Qed.

(** The [try] block of the generator enters no stage and, in the
    documentation database, writes at most the new document and the index
    entry of the file. *)
Lemma try_block_footprint E f dl w :
  let x := DocumentationGenerator_try_block E f dl w in
  stages_entered (events_of x) = []
  /\ (forall k, k <> "file_" +:+ f ->
                (forall n, k <> "doc_" +:+ uuid4_prefix E n) ->
                documentation_db (world_of x) !! k = documentation_db w !! k).
Proof.
  cbv zeta.
  remember (DocumentationGenerator_try_block E f dl w) as x eqn:Hx.
  unfold DocumentationGenerator_try_block, _save_documentation, _get_transcription_with_retry,
    _generate_content_with_retry, _generate_pdf_with_retry in Hx.
  revert Hx. run_all.
  destruct (get_transcription_attempts_run max_retries 0 f w) as (T1 & T2 & _).
  unfold result_of, world_of, events_of in T1, T2.
  destruct (get_transcription_attempts max_retries 0 f w) as [[rt wt] et].
  cbn [fst snd] in T1, T2. subst wt et.
  destruct rt as [[td|]|e0].
  2,3: intros ->; cbn [fst snd app]; split; [reflexivity|auto].
  destruct (_validate_transcription (transcription td)) as [[]|e0] eqn:Hv.
  2: intros ->; cbn [fst snd app]; split; [reflexivity|auto].
  pose proof (generate_content_attempts_frame E max_retries 0 (transcription td)
                (convert_doc_level dl) f w) as Hc.
  pose proof (generate_content_attempts_stages E max_retries 0 (transcription td)
                (convert_doc_level dl) f w) as Hs.
  cbv zeta in Hc. unfold result_of, world_of, events_of in Hc, Hs.
  destruct (generate_content_attempts E max_retries 0 (transcription td)
              (convert_doc_level dl) f w) as [[rc wc] ec].
  cbn [fst snd] in Hc, Hs. destruct Hc as (_ & _ & _ & C4 & _).
  destruct rc as [[c|]|e0].
  2,3: intros ->; cbn [fst snd app]; rewrite ?app_nil_r;
       split; [exact Hs|intros; now rewrite C4].
  destruct (DocumentationValidator.validate_content c (convert_doc_level dl))
    as [[is_valid q] issues].
  destruct (write_documentation_file E f) as [e0|].
  { run_all. intros ->. cbn [fst snd app]. rewrite ?app_nil_r.
    cbn [documentation_db]. split; [exact Hs|intros; now rewrite C4]. }
  run_all.
  match goal with
  | |- context [generate_pdf_attempts E max_retries 0 ?p ?w1] =>
      pose proof (generate_pdf_attempts_frame E max_retries 0 p w1) as Hp;
      pose proof (generate_pdf_attempts_stages E max_retries 0 p w1) as Hps;
      cbv zeta in Hp; unfold result_of, world_of, events_of in Hp, Hps;
      destruct (generate_pdf_attempts E max_retries 0 p w1) as [[rp wp] ep]
  end.
  cbn [fst snd] in Hp, Hps. destruct Hp as (P1 & _). subst wp.
  rewrite store_documentation_run. run_all.
  intros ->. cbn [fst snd app]. rewrite ?app_nil_r.
  split.
  { rewrite !stages_entered_app, Hs, Hps. reflexivity. }
  intros k H1 H2. unfold write_status, stored_world.
  destruct rp; cbn [documentation_db file_id documentation_id];
    rewrite lookup_insert_ne by congruence;
    rewrite lookup_insert_ne by (intros Hk; apply (H2 (uuid_calls wc)); now rewrite Hk);
    now rewrite C4.
Qed.

Lemma agent_trace E f dl w :
  let x := DocumentationAgent_generate_documentation E f dl w in
  run_footprint E f w (world_of x)
  /\ stages_entered (events_of x) = [Generation].
Proof.
  cbv zeta. rewrite agent_run_shape.
  match goal with
  | |- context [DocumentationGenerator_try_block E f dl ?w1] =>
      pose proof (try_block_frame E f dl w1) as Hf;
      pose proof (try_block_footprint E f dl w1) as Hp;
      cbv zeta in Hf, Hp;
      destruct (DocumentationGenerator_try_block E f dl w1) as [[r w2] e2]
  end.
  unfold result_of, world_of, events_of, datetime_now, write_status in Hf, Hp.
  cbn [fst snd llm_calls transcription_files status_db documentation_db] in Hf, Hp.
  destruct Hf as (_ & _ & _ & _ & F5 & _ & F7 & _).
  destruct Hp as (P1 & P2).
  assert (Hfw : run_footprint E f w w2).
  { unfold run_footprint, others_kept. repeat split.
    - intros g Hg. rewrite F7 by exact Hg. now rewrite lookup_insert_ne.
    - intros g _. now rewrite F5.
    - exact P2. }
  destruct r as [g|e]; cbv zeta; unfold world_of, events_of; cbn [fst snd app].
  - split; [exact Hfw|].
    rewrite stages_entered_cons_stage, stages_entered_cons_status, P1. reflexivity.
  - split.
    + eapply run_footprint_trans; [exact Hfw|].
      eapply run_footprint_trans; apply run_footprint_write_status.
    + rewrite stages_entered_cons_stage, stages_entered_cons_status,
        stages_entered_app, P1. reflexivity.
Qed.

Lemma validate_file_trace E f p w :
  let x := FileUploadAgent_validate_file E f p w in
  run_footprint E f w (world_of x)
  /\ stages_entered (events_of x) = [Validation].
Proof.
  cbv zeta. rewrite validate_file_run.
  destruct (FileValidationTool_check E f p); unfold world_of, events_of; cbn [fst snd];
    (split; [|reflexivity]).
  - apply run_footprint_write_status.
  - eapply run_footprint_trans; apply run_footprint_write_status.
Qed.

Lemma process_file_trace E f p w :
  let x := MediaProcessingAgent_process_file E f p w in
  run_footprint E f w (world_of x)
  /\ stages_entered (events_of x) = [Transcription].
Proof.
  cbv zeta.
  unfold MediaProcessingAgent_process_file, process_audio, FFmpegTool_arun,
    AudioProcessingTool_arun, WhisperTool_arun, MediaProcessor_transcribe_audio,
    MediaProcessor_extract_audio_from_video.
  run. repeat (split_match; run); cbn [fst snd]; (split; [|reflexivity]);
    repeat (eapply run_footprint_trans; [|apply run_footprint_write_status]);
    apply run_footprint_refl.
Qed.

Lemma store_transcription_trace E f t m w :
  let x := VectorStorageAgent_store_transcription E f t m w in
  run_footprint E f w (world_of x)
  /\ stages_entered (events_of x) = [Storage]
  /\ (forall a b, result_of x = StorageSuccess a b ->
                  exists td, transcription_files (world_of x) !! f = Some td).
Proof.
  cbv zeta.
  unfold VectorStorageAgent_store_transcription, LocalStorageService_store_transcription.
  run. destruct (write_transcription_file E f); run; cbn [fst snd].
  - split; [|split; [reflexivity|discriminate]].
    eapply run_footprint_trans; apply run_footprint_write_status.
  - split; [|split; [reflexivity|]].
    + eapply run_footprint_trans; [apply run_footprint_write_status|].
      eapply run_footprint_trans; [|apply run_footprint_write_status].
      unfold run_footprint, others_kept, write_status.
      cbn [status_db transcription_files documentation_db]. repeat split; auto.
      intros g Hg. now rewrite lookup_insert_ne.
    + intros a b _. eexists. unfold write_status. cbn [transcription_files].
      apply lookup_insert_eq.
Qed.

Ltac with_trace lemma call :=
  let H := fresh "Htr" in
  pose proof lemma as H; cbv zeta in H;
  unfold result_of, world_of, events_of in H;
  destruct call as [[?r ?w] ?ev]; cbn [fst snd] in H.

Lemma brd_run_trace E f p dl w :
  let x := process_media_file E f p "BRD" dl w in
  run_footprint E f w (world_of x)
  /\ stages_entered (events_of x)
     = match result_of x with
       | Completed => [Validation; Transcription; Storage; Generation]
       | FailedAt Validation _ => [Validation]
       | FailedAt Transcription _ => [Validation; Transcription]
       | FailedAt Storage _ => [Validation; Transcription; Storage]
       | FailedAt Generation _ => [Validation; Transcription; Storage; Generation]
       | Crashed _ => []
       end.
Proof.
  cbv zeta. unfold process_media_file.
  change (select_documentation_agent "BRD") with (Returned AgentBRD).
  cbn [agent_generate_documentation]. run.
  match goal with
  | |- context [FileUploadAgent_validate_file E f p ?w1] =>
      with_trace (validate_file_trace E f p w1) (FileUploadAgent_validate_file E f p w1)
  end.
  destruct Htr as [Hf1 Hs1].
  assert (Hw1 : run_footprint E f w w0).
  { eapply run_footprint_trans; [apply run_footprint_write_status|exact Hf1]. }
  clear Hf1.
  destruct r as [a b c|msg]; run.
  2: { cbn [fst snd]. split.
       - eapply run_footprint_trans; [exact Hw1|apply run_footprint_write_status].
       - rewrite stages_entered_cons_status, stages_entered_app, Hs1. reflexivity. }
  match goal with
  | |- context [MediaProcessingAgent_process_file E f p ?w1] =>
      with_trace (process_file_trace E f p w1) (MediaProcessingAgent_process_file E f p w1)
  end.
  destruct Htr as [Hf2 Hs2].
  assert (Hw2 : run_footprint E f w w1).
  { eapply run_footprint_trans; [exact Hw1|].
    eapply run_footprint_trans; [apply run_footprint_write_status|exact Hf2]. }
  clear Hf2 Hw1.
  destruct r as [t m|msg]; run.
  2: { cbn [fst snd]. split.
       - eapply run_footprint_trans; [exact Hw2|apply run_footprint_write_status].
       - rewrite stages_entered_cons_status, !stages_entered_app, Hs1.
         rewrite stages_entered_cons_status, stages_entered_app, Hs2. reflexivity. }
  match goal with
  | |- context [VectorStorageAgent_store_transcription E f t m ?w2] =>
      with_trace (store_transcription_trace E f t m w2)
                 (VectorStorageAgent_store_transcription E f t m w2)
  end.
  destruct Htr as (Hf3 & Hs3 & Hfile).
  assert (Hw3 : run_footprint E f w w2).
  { eapply run_footprint_trans; [exact Hw2|].
    eapply run_footprint_trans; [apply run_footprint_write_status|exact Hf3]. }
  clear Hf3 Hw2.
  destruct r as [a' b'|msg]; run.
  2: { cbn [fst snd]. split.
       - eapply run_footprint_trans; [exact Hw3|apply run_footprint_write_status].
       - rewrite stages_entered_cons_status, !stages_entered_app, Hs1.
         rewrite stages_entered_cons_status, stages_entered_app, Hs2.
         rewrite stages_entered_cons_status, stages_entered_app, Hs3. reflexivity. }
  destruct (Hfile a' b' eq_refl) as [td Htd].
  unfold LocalStorageService_retrieve_transcription. run.
  rewrite transcription_files_write_status, Htd. run.
  match goal with
  | |- context [DocumentationAgent_generate_documentation E f dl ?w3] =>
      with_trace (agent_trace E f dl w3) (DocumentationAgent_generate_documentation E f dl w3)
  end.
  destruct Htr as [Hf4 Hs4].
  assert (Hw4 : run_footprint E f w w3).
  { eapply run_footprint_trans; [exact Hw3|].
    eapply run_footprint_trans; [apply run_footprint_write_status|exact Hf4]. }
  clear Hf4 Hw3.
  destruct r as [g1 g2 g3 g4|msg]; run; cbn [fst snd]; split;
    try (eapply run_footprint_trans; [exact Hw4|apply run_footprint_write_status]);
    rewrite stages_entered_cons_status, !stages_entered_app, Hs1;
    rewrite stages_entered_cons_status, stages_entered_app, Hs2;
    rewrite stages_entered_cons_status, stages_entered_app, Hs3;
    rewrite stages_entered_cons_status, stages_entered_app, Hs4; reflexivity.
Qed.

(** X17.  A run of [process_media_file] for a BRD enters the stages in the
    order validation, transcription, storage, generation, each at most once,
    and stops at the stage that fails: the stages entered are exactly those
    up to the failing one, and all four for a completed run. *)
Theorem stages_follow_the_order (E : env) (f p dl : string) (w : world) :
  let x := process_media_file E f p "BRD" dl w in
  stages_entered (events_of x)
  = match result_of x with
    | Completed => [Validation; Transcription; Storage; Generation]
    | FailedAt Validation _ => [Validation]
    | FailedAt Transcription _ => [Validation; Transcription]
    | FailedAt Storage _ => [Validation; Transcription; Storage]
    | FailedAt Generation _ => [Validation; Transcription; Storage; Generation]
    | Crashed _ => []
    end.
Proof. exact (proj2 (brd_run_trace E f p dl w)). Qed.

(** X18.  A run of [process_media_file] for a BRD, whatever its outcome,
    leaves the other files alone: the status and the transcription of every
    other file read as before, and the documentation database is unchanged
    outside the index entry of the run's file and ids drawn from the uuid
    source. *)
Theorem run_touches_only_its_file (E : env) (f p dl : string) (w : world) :
  let w' := world_of (process_media_file E f p "BRD" dl w) in
  (forall g, g <> f ->
     result_of (get_processing_status g w') = result_of (get_processing_status g w)
     /\ result_of (LocalStorageService_retrieve_transcription g w')
        = result_of (LocalStorageService_retrieve_transcription g w))
  /\ (forall k, k <> "file_" +:+ f ->
                (forall n, k <> "doc_" +:+ uuid4_prefix E n) ->
                result_of (get_documentation_by_id k w')
                = result_of (get_documentation_by_id k w)).
Proof.
  cbv zeta. destruct (brd_run_trace E f p dl w) as [(H1 & H2 & H3) _].
  unfold get_processing_status, LocalStorageService_retrieve_transcription,
    get_documentation_by_id, others_kept in *.
  run. split.
  - intros g Hg. split; [apply H1|apply H2]; exact Hg.
  - exact H3.
Qed.

(** ** Completed runs *)

Lemma agent_keeps_transcriptions E f dl w :
  transcription_files (world_of (DocumentationAgent_generate_documentation E f dl w))
  = transcription_files w.
Proof.
  rewrite agent_run_shape.
  match goal with
  | |- context [DocumentationGenerator_try_block E f dl ?w1] =>
      pose proof (try_block_frame E f dl w1) as Hf; cbv zeta in Hf;
      destruct (DocumentationGenerator_try_block E f dl w1) as [[r w2] e2]
  end.
  unfold result_of, world_of, events_of, datetime_now, write_status in Hf.
  cbn [fst snd llm_calls transcription_files status_db documentation_db] in Hf.
  destruct Hf as (_ & _ & _ & _ & F5 & _).
  destruct r; cbv zeta; unfold world_of; cbn [fst snd];
    rewrite ?transcription_files_write_status; exact F5.
Qed.

Lemma brd_run_completed E f p dl w :
  result_of (process_media_file E f p "BRD" dl w) = Completed ->
  exists w3 td id path pdf q,
    transcription_files w3 !! f = Some td
    /\ result_of (DocumentationAgent_generate_documentation E f dl w3)
       = GenerationSuccess id path pdf q
    /\ world_of (process_media_file E f p "BRD" dl w)
       = write_status f "completed" 100 "completed" None
           (world_of (DocumentationAgent_generate_documentation E f dl w3)).
Proof.
  unfold process_media_file.
  change (select_documentation_agent "BRD") with (Returned AgentBRD).
  cbn [agent_generate_documentation]. run.
  match goal with
  | |- context [FileUploadAgent_validate_file E f p ?w1] =>
      destruct (FileUploadAgent_validate_file E f p w1) as [[[a b c|msg] w1'] ev1]
  end; run; [|discriminate].
  match goal with
  | |- context [MediaProcessingAgent_process_file E f p ?w1] =>
      destruct (MediaProcessingAgent_process_file E f p w1) as [[[t m|msg] w2'] ev2]
  end; run; [|discriminate].
  match goal with
  | |- context [VectorStorageAgent_store_transcription E f t m ?w2] =>
      with_trace (store_transcription_trace E f t m w2)
                 (VectorStorageAgent_store_transcription E f t m w2)
  end.
  destruct Htr as (_ & _ & Hfile).
  destruct r as [a' b'|msg]; run; [|discriminate].
  destruct (Hfile a' b' eq_refl) as [td Htd].
  unfold LocalStorageService_retrieve_transcription. run.
  rewrite transcription_files_write_status, Htd. run.
  match goal with
  | |- context [DocumentationAgent_generate_documentation E f dl ?w3] =>
      destruct (DocumentationAgent_generate_documentation E f dl w3)
        as [[[g1 g2 g3 g4|msg] w4] ev4] eqn:Hag;
      run; cbn [fst snd]; [|discriminate];
      intros _; exists w3, td, g1, g2, g3, g4; rewrite Hag
  end.
  unfold result_of, world_of. cbn [fst snd].
  split; [rewrite transcription_files_write_status; exact Htd|].
  split; reflexivity.
Qed.

(** X16.  A completed run of [process_media_file] for a BRD leaves the
    status "completed", progress 100, stage "completed" and no error; the
    file's document can be read back, belongs to the file and has the
    requested level (Intermediate when the level is not a known one); and
    the file's transcription can be read back. *)
Theorem completed_run_postcondition (E : env) (f p dl : string) (w : world) :
  result_of (process_media_file E f p "BRD" dl w) = Completed ->
  let w' := world_of (process_media_file E f p "BRD" dl w) in
  status_field w' f "status" = Some (VStr "completed")
  /\ status_field w' f "progress" = Some (VInt 100)
  /\ status_field w' f "current_stage" = Some (VStr "completed")
  /\ status_field w' f "error" = None
  /\ (exists d,
        result_of (get_documentation f w') = Returned (Some (EntryDocumentation d))
        /\ file_id d = f
        /\ documentation_level d = level_value (convert_doc_level dl))
  /\ (exists td, result_of (LocalStorageService_retrieve_transcription f w') = Some td).
Proof.
  intros Hc. cbv zeta.
  destruct (brd_run_completed E f p dl w Hc) as (w3 & td & id & path & pdf & q & Htd & Hag & Hw).
  rewrite Hw. rewrite !status_field_write_status.
  match goal with
  | |- context [status_record f "completed" 100 "completed" ?c None] =>
      destruct (status_record_fields f "completed" 100 "completed" c None)
        as (_ & S2 & S3 & S4 & _ & S6 & _)
  end.
  repeat (split; [assumption|]). split.
  - destruct (agent_success_stores E f dl w3 id path pdf q Hag) as (d & Hd & _ & Hf & Hl).
    exists d. split; [|split; assumption].
    rewrite (get_documentation_same_db f _
               (world_of (DocumentationAgent_generate_documentation E f dl w3)))
      by reflexivity.
    exact Hd.
  - exists td.
    assert (Hread : forall w0, result_of (LocalStorageService_retrieve_transcription f w0)
                               = transcription_files w0 !! f) by reflexivity.
    rewrite Hread, transcription_files_write_status, agent_keeps_transcriptions. exact Htd.
Qed.

Lemma completed_run_postcondition_witness :
  let w' := world_of (process_media_file good_env "f1" "uploads/f1.mp3" "BRD" "Advanced"
                        empty_world) in
  status_field w' "f1" "status" = Some (VStr "completed")
  /\ status_field w' "f1" "progress" = Some (VInt 100)
  /\ status_field w' "f1" "current_stage" = Some (VStr "completed")
  /\ status_field w' "f1" "error" = None
  /\ (exists d,
        result_of (get_documentation "f1" w') = Returned (Some (EntryDocumentation d))
        /\ file_id d = "f1"
        /\ documentation_level d = level_value (convert_doc_level "Advanced"))
  /\ (exists td, result_of (LocalStorageService_retrieve_transcription "f1" w') = Some td).
Proof.
  apply (completed_run_postcondition good_env "f1" "uploads/f1.mp3" "Advanced" empty_world).
  vm_compute. reflexivity.
Defined.

(** ** The endpoints *)

(** X19.  [POST /upload] answers with an HTTP error exactly when the file
    cannot be saved, and then the status code is 500, never the 400 that the
    handler raises: the detail is the text of that 400 exception; no stage is
    entered, no capability is called and nothing is written. *)
Theorem upload_save_failure_is_500
        (E : env) (file : string) (doc_type : DocumentType) (dl : string) (w : world) :
  let x := upload_file E file doc_type dl w in
  (forall code detail, result_of x = HTTPException code detail -> code = 500)
  /\ ((exists code detail, result_of x = HTTPException code detail)
      <-> exists msg, save_uploaded_file E file = SaveFailure msg)
  /\ (forall msg, save_uploaded_file E file = SaveFailure msg ->
        x = (HTTPException 500 (str_HTTPException E 400 msg), w, [])).
Proof.
  cbv zeta. unfold upload_file, FileUploadAgent_save_file.
  destruct (save_uploaded_file E file) as [fid path name size|msg] eqn:Hs.
  2: { run. cbn [fst snd]. split; [|split].
       - intros code detail H. inversion H. reflexivity.
       - split; eauto.
       - intros msg' H. inversion H. reflexivity. }
  run.
  match goal with
  | |- context [FileUploadAgent_validate_file E fid path ?w1] =>
      destruct (FileUploadAgent_validate_file E fid path w1) as [[[a b c|m] w1'] e1]
  end; run.
  2: { cbn [fst snd]. split; [|split].
       - intros code detail H. discriminate.
       - split; [intros (code & detail & H); discriminate|intros (msg & H); discriminate].
       - intros msg H. discriminate. }
  destruct (MediaProcessingAgent_process_file E fid path w1') as [[[t m|m] w2] e2]; run.
  2: { cbn [fst snd]. split; [|split].
       - intros code detail H. discriminate.
       - split; [intros (code & detail & H); discriminate|intros (msg & H); discriminate].
       - intros msg H. discriminate. }
  destruct (VectorStorageAgent_store_transcription E fid t m w2) as [[[a' b'|m'] w3] e3]; run.
  2: { cbn [fst snd]. split; [|split].
       - intros code detail H. discriminate.
       - split; [intros (code & detail & H); discriminate|intros (msg & H); discriminate].
       - intros msg H. discriminate. }
  destruct (agent_generate_documentation E (agent_of_DocumentType doc_type) fid dl w3)
    as [[[g1 g2 g3 g4|m'] w4] e4]; run; cbn [fst snd]; (split; [|split]);
    try (intros code detail H; discriminate);
    try (intros msg H; discriminate);
    (split; [intros (code & detail & H); discriminate|intros (msg & H); discriminate]).
Qed.

(** X20.  The read endpoints change nothing.  [GET /status/{file_id}]
    answers 404 exactly when the file has no status record, and the record
    otherwise.  [GET /documentation/{file_id}] never answers 404: every
    failure is a 500 whose detail is the text of the 404 exception; it
    answers with an entry exactly when the file's index entry names a
    non-empty id under which a non-empty entry is stored. *)
Theorem read_endpoints_answers (E : env) (f : string) (w : world) :
  let s := get_status f w in
  let x := get_documentation_endpoint E f w in
  world_of s = w /\ events_of s = []
  /\ (result_of s = HTTPError 404 "Status not found" <-> status_db w !! f = None)
  /\ (forall r, result_of s = Body r <-> status_db w !! f = Some r)
  /\ world_of x = w /\ events_of x = []
  /\ (forall code detail,
        result_of x = HTTPError code detail ->
        code = 500 /\ detail = str_HTTPException E 404 "Documentation not found")
  /\ (forall d,
        result_of x = Body d
        <-> exists id,
             documentation_db w !! ("file_" +:+ f) = Some (EntryId id)
             /\ PyStr.is_empty id = false
             /\ documentation_db w !! id = Some d
             /\ falsy_entry (Some d) = false).
Proof.
  cbv zeta.
  unfold get_status, get_processing_status, get_documentation_endpoint,
    DocumentationAgent_get_documentation, get_documentation.
  run. split; [|split; [|split; [|split]]].
  - destruct (status_db w !! f); reflexivity.
  - destruct (status_db w !! f); reflexivity.
  - destruct (status_db w !! f); cbn [fst]; split; intros H; try discriminate; reflexivity.
  - intros r. destruct (status_db w !! f); cbn [fst]; split; intros H;
      inversion H; reflexivity.
  - assert (Hsame : forall (a b : db_entry), Some a = Some b -> a = b)
      by (intros a b H; now inversion H).
    destruct (documentation_db w !! ("file_" +:+ f)) as [[d0|id]|] eqn:Hidx; run;
      [|destruct (PyStr.is_empty id) eqn:He; run;
        [|destruct (documentation_db w !! id) as [d1|] eqn:Hd; run;
          [destruct (falsy_entry (Some d1)) eqn:Hfe; run|]]|];
      cbn [fst snd];
      (split; [reflexivity|]); (split; [reflexivity|]);
      (split;
       [intros code detail H; first [discriminate|inversion H; auto]
       |intros d; split;
        [intros H; first [discriminate|inversion H; subst; exists id; auto]
        |intros (id' & H1 & H2 & H3 & H4);
         first [discriminate
               |inversion H1; subst;
                first [congruence
                      |rewrite Hd in H3; apply Hsame in H3; subst;
                       first [reflexivity|congruence]]]]]).
Qed.

(** X24.  After a successful call of
    [DocumentationAgent.generate_documentation], [GET /documentation] answers
    with the generated document, which carries the returned id, and
    [GET /status] answers with a record whose status is "completed" and whose
    progress is 100. *)
Theorem endpoints_after_generation
        (E : env) (f dl : string) (w : world) (id path : string) (pdf : option string) (q : Q) :
  result_of (DocumentationAgent_generate_documentation E f dl w)
  = GenerationSuccess id path pdf q ->
  let w' := world_of (DocumentationAgent_generate_documentation E f dl w) in
  (exists d,
      result_of (get_documentation_endpoint E f w') = Body (EntryDocumentation d)
      /\ documentation_id d = id /\ file_id d = f)
  /\ (exists r,
        result_of (get_status f w') = Body r
        /\ r !! "status" = Some (VStr "completed")
        /\ r !! "progress" = Some (VInt 100)
        /\ r !! "error" = None).
Proof.
  intros Hr. cbv zeta.
  destruct (agent_success_stores E f dl w id path pdf q Hr) as (d & Hd & Hid & Hf & _).
  destruct (agent_success_world E f dl w id path pdf q Hr) as (d' & w0 & Hw & _).
  split.
  - exists d. split; [|auto].
    remember (world_of (DocumentationAgent_generate_documentation E f dl w)) as w' eqn:Hw'.
    unfold get_documentation_endpoint, DocumentationAgent_get_documentation.
    unfold result_of in Hd. run.
    destruct (get_documentation f w') as [[r w1] e1]. cbn [fst] in Hd. subst r.
    reflexivity.
  - rewrite Hw. unfold get_status, get_processing_status. run.
    rewrite status_db_write_status. cbn [fst].
    eexists. split; [reflexivity|].
    match goal with
    | |- context [status_record f "completed" 100 "documentation" ?c None] =>
        destruct (status_record_fields f "completed" 100 "documentation" c None)
          as (_ & S2 & S3 & _ & _ & S6 & _)
    end.
    auto.
Qed.

Lemma endpoints_after_generation_witness :
  let w' := world_of (DocumentationAgent_generate_documentation good_env "f1" "Simple"
                        transcribed_f1) in
  (exists d,
      result_of (get_documentation_endpoint good_env "f1" w') = Body (EntryDocumentation d)
      /\ documentation_id d = "doc_0a1b2c3d" /\ file_id d = "f1")
  /\ (exists r,
        result_of (get_status "f1" w') = Body r
        /\ r !! "status" = Some (VStr "completed")
        /\ r !! "progress" = Some (VInt 100)
        /\ r !! "error" = None).
Proof.
  eapply (endpoints_after_generation good_env "f1" "Simple" transcribed_f1).
  vm_compute. reflexivity.
Defined.

(** ** The status ledger *)

(** X22.  A status write replaces the file's record: afterwards the record
    has the keys file_id, status, progress, current_stage and updated_at,
    the key error exactly when a non-empty error text was given, and no other
    key, so an error recorded earlier does not survive a later write without
    error; updated_at is the clock reading of the write, and the clock has
    advanced; the records of the other files are kept. *)
Theorem status_write_replaces_record
        (f s : string) (p : Z) (st : string) (err : option string) (w : world) :
  let w' := world_of (update_processing_status f s p st err w) in
  status_field w' f "status" = Some (VStr s)
  /\ status_field w' f "current_stage" = Some (VStr st)
  /\ status_field w' f "updated_at" = Some (VTime (clock w))
  /\ (clock w < clock w')%nat
  /\ status_field w' f "error"
     = match err with
       | Some e => if PyStr.is_empty e then None else Some (VStr e)
       | None => None
       end
  /\ (forall k, ~ In k ["file_id"; "status"; "progress"; "current_stage"; "updated_at"; "error"] ->
                status_field w' f k = None)
  /\ others_kept f w w'.
Proof.
  cbv zeta. rewrite update_processing_status_run. unfold world_of. cbn [fst snd].
  rewrite !status_field_write_status.
  destruct (status_record_fields f s p st (clock w) err)
    as (_ & S2 & _ & S4 & S5 & S6 & _).
  split; [exact S2|]. split; [exact S4|]. split; [exact S5|].
  split; [unfold write_status; cbn [clock]; lia|].
  split.
  { rewrite S6. unfold truthy_error. destruct err as [e|]; [|reflexivity].
    destruct (PyStr.is_empty e); reflexivity. }
  split.
  { intros k Hk. rewrite status_field_write_status.
    unfold status_record, with_error.
    assert (Hne : forall k', In k' ["file_id"; "status"; "progress"; "current_stage";
                                     "updated_at"; "error"] -> k' <> k)
      by (intros k' Hin ->; contradiction).
    destruct (truthy_error err);
      rewrite ?lookup_insert_ne by (apply Hne; cbn; tauto);
      apply lookup_singleton_ne; apply Hne; cbn; tauto. }
  intros g Hg. unfold write_status. cbn [status_db]. now rewrite lookup_insert_ne.
Qed.

(** ** SOW and FRD agents *)

(** X23.  [SOWAgent.generate_documentation] and
    [FRDAgent.generate_documentation], whatever their generator does: a
    success leaves the status "completed" at 100 with stage "completed"; a
    failure returns the generator's message "Error generating documentation:
    ..." unchanged and leaves the status "failed" at progress 75 with the
    agent's own stage name and that message as error. *)
Theorem kind_agent_outcome
        (E : env) (k : generated_kind) (f dl : string) (w : world) :
  let x := kind_agent_generate_documentation E k f dl w in
  match result_of x with
  | GenerationSuccess _ _ _ _ =>
      status_field (world_of x) f "status" = Some (VStr "completed")
      /\ status_field (world_of x) f "progress" = Some (VInt 100)
      /\ status_field (world_of x) f "current_stage" = Some (VStr "completed")
      /\ status_field (world_of x) f "error" = None
  | GenerationFailure msg =>
      (exists e, msg = "Error generating documentation: " +:+ e)
      /\ status_field (world_of x) f "status" = Some (VStr "failed")
      /\ status_field (world_of x) f "progress" = Some (VInt 75)
      /\ status_field (world_of x) f "current_stage" = Some (VStr (kind_stage k))
      /\ status_field (world_of x) f "error" = Some (VStr msg)
  end.
Proof.
  cbv zeta. unfold kind_agent_generate_documentation, kind_generator, generator_except.
  run.
  match goal with
  | |- context [match k with KindSOW => ?a | KindFRD => ?b end ?w1] =>
      destruct (match k with KindSOW => a | KindFRD => b end w1) as [[[g|e] w2] e2]
  end; run.
  - destruct g as [[[g1 g2] g3] g4]. cbn [success_result]. run. cbn [fst snd].
    rewrite !status_field_write_status.
    match goal with
    | |- context [status_record f "completed" 100 "completed" ?c None] =>
        destruct (status_record_fields f "completed" 100 "completed" c None)
          as (_ & S2 & S3 & S4 & _ & S6 & _)
    end.
    auto.
  - cbn [fst snd]. split; [eauto|].
    match goal with
    | |- context [write_status f "failed" 75 (kind_stage k) (Some ?m) ?w1] =>
        destruct (failed_record f 75 (kind_stage k) m w1 eq_refl) as (R1 & R2 & R3 & R4)
    end.
    auto.
Qed.

(** ** Capability calls of a run *)

Lemma validate_file_calls E f p w c :
  (calls_of c (events_of (FileUploadAgent_validate_file E f p w))
   <= stage_budget Validation c)%nat.
Proof.
  rewrite validate_file_run.
  destruct (FileValidationTool_check E f p); unfold events_of; cbn [snd];
    count_calls; destruct c; cbn; lia.
Qed.

Lemma process_file_calls E f p w c :
  (calls_of c (events_of (MediaProcessingAgent_process_file E f p w))
   <= stage_budget Transcription c)%nat.
Proof.
  unfold MediaProcessingAgent_process_file, process_audio, FFmpegTool_arun,
    AudioProcessingTool_arun, WhisperTool_arun, MediaProcessor_transcribe_audio,
    MediaProcessor_extract_audio_from_video.
  run. repeat (split_match; run); cbn [fst snd]; count_calls; destruct c; cbn; lia.
Qed.

Lemma store_transcription_calls E f t m w c :
  (calls_of c (events_of (VectorStorageAgent_store_transcription E f t m w))
   <= stage_budget Storage c)%nat.
Proof.
  rewrite store_transcription_events. count_calls.
  destruct (result_of _); count_calls; destruct c; cbn; lia.
Qed.

Lemma agent_calls E f dl w c :
  (calls_of c (events_of (DocumentationAgent_generate_documentation E f dl w))
   <= stage_budget Generation c)%nat.
Proof.
  rewrite agent_run_shape.
  match goal with
  | |- context [DocumentationGenerator_try_block E f dl ?w1] =>
      pose proof (try_block_frame E f dl w1) as Hf; cbv zeta in Hf;
      destruct (DocumentationGenerator_try_block E f dl w1) as [[r w2] e2]
  end.
  unfold result_of, world_of, events_of in Hf. cbn [fst snd] in Hf.
  destruct Hf as (F1 & F2 & F3 & _).
  assert (Hc : (calls_of c e2 <= stage_budget Generation c)%nat).
  { destruct c; cbn; unfold max_retries;
      first [exact F1 | exact F2 | rewrite F3 by discriminate; lia]. }
  destruct r; cbv zeta; unfold events_of; cbn [snd app]; count_calls;
    rewrite ?Nat.add_0_r; exact Hc.
Qed.

Ltac with_calls lemma call :=
  let H := fresh "Hcalls" in
  pose proof lemma as H; unfold events_of in H;
  let H' := fresh "Htr" in
  match goal with
  | |- context [FileUploadAgent_validate_file ?E ?f ?p ?w] =>
      constr_eq call (FileUploadAgent_validate_file E f p w);
      pose proof (validate_file_trace E f p w) as H'
  | |- context [MediaProcessingAgent_process_file ?E ?f ?p ?w] =>
      constr_eq call (MediaProcessingAgent_process_file E f p w);
      pose proof (process_file_trace E f p w) as H'
  | |- context [VectorStorageAgent_store_transcription ?E ?f ?t ?m ?w] =>
      constr_eq call (VectorStorageAgent_store_transcription E f t m w);
      pose proof (store_transcription_trace E f t m w) as H'
  | |- context [DocumentationAgent_generate_documentation ?E ?f ?dl ?w] =>
      constr_eq call (DocumentationAgent_generate_documentation E f dl w);
      pose proof (agent_trace E f dl w) as H'
  end;
  cbv zeta in H'; unfold result_of, world_of, events_of in H';
  destruct call as [[?r ?w] ?ev]; cbn [fst snd] in H, H'.

Ltac finish_budget c :=
  cbn [fst snd]; count_calls;
  repeat (rewrite ?stages_entered_cons_status, ?stages_entered_app);
  repeat match goal with
         | H : stages_entered _ = _ |- _ => rewrite H; clear H
         end;
  repeat match goal with
         | H : forall c : capability, _ |- _ => specialize (H c)
         end;
  destruct c; cbn in *; unfold max_retries in *; split; first [lia | tauto | right; lia].

(** X25.  In a run of [process_media_file] for a BRD every capability stays
    within its budget: the validator, ffmpeg, the audio processing tool,
    Whisper and the storage service are called at most once, the provider
    and the PDF renderer at most [max_retries] = 3 times; and a capability is
    called only if the stage that owns it was entered. *)
Theorem capabilities_within_budget
        (E : env) (f p dl : string) (w : world) (c : capability) :
  let x := process_media_file E f p "BRD" dl w in
  (calls_of c (events_of x) <= capability_budget c)%nat
  /\ (In (capability_stage c) (stages_entered (events_of x))
      \/ calls_of c (events_of x) = 0%nat).
Proof.
  cbv zeta. unfold process_media_file.
  change (select_documentation_agent "BRD") with (Returned AgentBRD).
  cbn [agent_generate_documentation]. run.
  match goal with
  | |- context [FileUploadAgent_validate_file E f p ?w1] =>
      with_calls (fun c => validate_file_calls E f p w1 c)
                 (FileUploadAgent_validate_file E f p w1)
  end.
  destruct Htr as [_ Hs1].
  destruct r as [a b c'|msg]; run; [|finish_budget c].
  match goal with
  | |- context [MediaProcessingAgent_process_file E f p ?w1] =>
      with_calls (fun c => process_file_calls E f p w1 c)
                 (MediaProcessingAgent_process_file E f p w1)
  end.
  destruct Htr as [_ Hs2].
  destruct r as [t m|msg]; run; [|finish_budget c].
  match goal with
  | |- context [VectorStorageAgent_store_transcription E f t m ?w2] =>
      with_calls (fun c => store_transcription_calls E f t m w2 c)
                 (VectorStorageAgent_store_transcription E f t m w2)
  end.
  destruct Htr as (_ & Hs3 & Hfile).
  destruct r as [a' b'|msg]; run; [|clear Hfile; finish_budget c].
  destruct (Hfile a' b' eq_refl) as [td Htd]. clear Hfile.
  unfold LocalStorageService_retrieve_transcription. run.
  rewrite transcription_files_write_status, Htd. run.
  match goal with
  | |- context [DocumentationAgent_generate_documentation E f dl ?w3] =>
      with_calls (fun c => agent_calls E f dl w3 c)
                 (DocumentationAgent_generate_documentation E f dl w3)
  end.
  destruct Htr as [_ Hs4].
  destruct r as [g1 g2 g3 g4|msg]; run; finish_budget c.
Qed.

(** ** The synchronous upload *)




(** ** Failures of the transcription stage *)

Ltac failed_leaf f :=
  let H := fresh "H" in
  intros H; inversion H; subst; clear H;
  match goal with
  | |- context [write_status f "failed" ?p ?st (Some ?m) ?w1] =>
      let R1 := fresh "R" in
      let R2 := fresh "R" in
      let R3 := fresh "R" in
      let R4 := fresh "R" in
      destruct (failed_record f p st m w1 eq_refl) as (R1 & R2 & R3 & R4);
      split; [exact R1|]; split; [exact R4|]
  end.

(** X27.  When [MediaProcessingAgent.process_file] fails, the status is
    "failed" with the returned message as error, and progress and stage tell
    the cause: 0 / extraction for a missing file, 25 / extraction when ffmpeg
    fails on a video, 40 / audio_processing when the audio path does not
    exist, 50 / transcription when the Whisper model cannot be loaded or
    Whisper fails. *)
Theorem transcription_failure_record
        (E : env) (f p : string) (w : world) (msg : string) :
  result_of (MediaProcessingAgent_process_file E f p w) = TranscriptionFailure msg ->
  let w' := world_of (MediaProcessingAgent_process_file E f p w) in
  status_field w' f "status" = Some (VStr "failed")
  /\ status_field w' f "error" = Some (VStr msg)
  /\ ((os_path_exists E p = false
       /\ msg = "File not found: " +:+ p
       /\ status_field w' f "progress" = Some (VInt 0)
       /\ status_field w' f "current_stage" = Some (VStr "extraction"))
      \/ (exists e,
            is_video_file E p = true /\ ffmpeg_run E p = Raised e
            /\ msg = "Error extracting audio: " +:+ e
            /\ status_field w' f "progress" = Some (VInt 25)
            /\ status_field w' f "current_stage" = Some (VStr "extraction"))
      \/ (exists audio,
            os_path_exists E audio = false
            /\ msg = "Audio file not found: " +:+ audio
            /\ status_field w' f "progress" = Some (VInt 40)
            /\ status_field w' f "current_stage" = Some (VStr "audio_processing"))
      \/ (status_field w' f "progress" = Some (VInt 50)
          /\ status_field w' f "current_stage" = Some (VStr "transcription")
          /\ ((whisper_load_model E <> None /\ msg = "Failed to initialize Whisper model")
              \/ exists audio e,
                   whisper_transcribe E audio = Raised e
                   /\ msg = "Error transcribing audio: " +:+ e))).
Proof.
  cbv zeta.
  unfold MediaProcessingAgent_process_file, process_audio, FFmpegTool_arun,
    AudioProcessingTool_arun, WhisperTool_arun, MediaProcessor_transcribe_audio,
    MediaProcessor_extract_audio_from_video.
  destruct (os_path_exists E p) eqn:Hp.
  2: { go. failed_leaf f. left. auto. }
  destruct (is_video_file E p) eqn:Hvid.
  - destruct (ffmpeg_run E p) as [audio|e] eqn:Hff.
    2: { go. failed_leaf f. right. left. exists e. auto. }
    destruct (os_path_exists E audio) eqn:Ha.
    2: { go. failed_leaf f. right. right. left. exists audio. auto. }
    destruct (whisper_load_model E) as [e|] eqn:Hl.
    { go. failed_leaf f. right. right. right.
      split; [assumption|]. split; [assumption|]. left. split; [discriminate|reflexivity]. }
    destruct (whisper_transcribe E audio) as [[text lang]|e] eqn:Ht.
    { go. discriminate. }
    go. failed_leaf f. right. right. right.
    split; [assumption|]. split; [assumption|]. right. exists audio, e. auto.
  - destruct (whisper_load_model E) as [e|] eqn:Hl.
    { go. failed_leaf f. right. right. right.
      split; [assumption|]. split; [assumption|]. left. split; [discriminate|reflexivity]. }
    destruct (whisper_transcribe E p) as [[text lang]|e] eqn:Ht.
    { go. discriminate. }
    go. failed_leaf f. right. right. right.
    split; [assumption|]. split; [assumption|]. right. exists p, e. auto.
Qed.

Lemma transcription_failure_record_witness :
  let E := sample_env true sample_transcription (fun _ => Returned sample_reply) in
  let E' := {| os_path_exists := os_path_exists E;
               os_path_getsize := os_path_getsize E;
               is_valid_file_type := is_valid_file_type E;
               is_video_file := fun _ => true;
               max_file_size_bytes := max_file_size_bytes E;
               max_file_size := max_file_size E;
               save_uploaded_file := save_uploaded_file E;
               ffmpeg_run := fun _ => Raised "ffmpeg not found";
               whisper_load_model := whisper_load_model E;
               audio_duration := audio_duration E;
               whisper_transcribe := whisper_transcribe E;
               path_extension := path_extension E;
               write_transcription_file := write_transcription_file E;
               llm_generate_response := llm_generate_response E;
               uuid4_prefix := uuid4_prefix E;
               write_documentation_file := write_documentation_file E;
               generate_pdf_from_json := generate_pdf_from_json E;
               str_HTTPException := str_HTTPException E;
               SOWGenerator_try_block := SOWGenerator_try_block E;
               FRDGenerator_try_block := FRDGenerator_try_block E |} in
  let w' := world_of (MediaProcessingAgent_process_file E' "f1" "uploads/f1.mp4" empty_world) in
  status_field w' "f1" "status" = Some (VStr "failed")
  /\ status_field w' "f1" "error" = Some (VStr "Error extracting audio: ffmpeg not found").
Proof.
  intros E E'.
  destruct (transcription_failure_record E' "f1" "uploads/f1.mp4" empty_world
              "Error extracting audio: ffmpeg not found") as (H1 & H2 & _).
  - vm_compute. reflexivity.
  - split; [exact H1|exact H2].
Defined.
